(** * free-courses-api: the course aggregation layer

    A shallow embedding of the four platform adapters
    (app/services/coursera.py, edx.py, udemy.py, youtube.py), of the shared
    record type (app/schemas/course.py) and of the router
    (app/routers/resources.py), followed by the properties of the
    specification that concern them.

    Python values coming out of [response.json()] are modelled by the
    inductive type [value]; exceptions by the error monad [outcome]. *)

From Stdlib Require Import ZArith QArith Qround Qabs Qpower String Ascii List Bool Lia Lqa.
From Stdlib Require Import DecimalString DecimalPos.
Import ListNotations.

Local Open Scope string_scope.
Local Open Scope Z_scope.

Set Warnings "-register-all".

(* ================================================================== *)
(** ** Python values *)

(** A calendar date, as produced by [datetime.date]. *)
Record date : Type := mkDate { year : Z; month : Z; day : Z }.

(** The values the adapters handle: decoded JSON, plus [datetime.date].
    A float is represented by the rational number it denotes, which is a
    double ([is_double] below); infinities and NaN are left out.  A dict is
    an association list; a lookup takes the first binding of the key. *)
Inductive value : Type :=
| VNone
| VBool (b : bool)
| VInt (z : Z)
| VFloat (q : Q)
| VStr (s : string)
| VList (l : list value)
| VDict (d : list (string * value))
| VDate (d : date).

(** The exception classes that occur; all derive from [Exception]. *)
Inductive exn : Type :=
| AttributeError
| TypeError
| IndexError
| KeyError
| ValueError
| NameError            (* raised as UnboundLocalError, a NameError *)
| ValidationError      (* pydantic *)
| TimeoutException     (* httpx; a RequestError *)
| RequestError         (* httpx *)
| HTTPStatusError      (* httpx *)
| HTTPException (status : Z).  (* fastapi *)

Inductive outcome (A : Type) : Type :=
| Ok (a : A)
| Raise (e : exn).

Arguments Ok {A} a.
Arguments Raise {A} e.

Definition bind {A B : Type} (m : outcome A) (k : A -> outcome B) : outcome B :=
  match m with
  | Ok a => k a
  | Raise e => Raise e
  end.

Notation "x <- m ;; k" := (bind m (fun x => k))
  (at level 61, m at next level, right associativity).

(** [try: m / except Exception: h]. *)
Definition try_except {A : Type} (m : outcome A) (h : exn -> A) : A :=
  match m with
  | Ok a => a
  | Raise e => h e
  end.

(** Truth value of an object, as tested by [if x:] and [not x]. *)
Definition truthy (v : value) : bool :=
  match v with
  | VNone => false
  | VBool b => b
  | VInt z => negb (z =? 0)
  | VFloat q => negb (Qeq_bool q 0)
  | VStr s => negb (String.eqb s "")
  | VList l => match l with [] => false | _ :: _ => true end
  | VDict d => match d with [] => false | _ :: _ => true end
  | VDate _ => true
  end.

Definition is_dict (v : value) : bool :=
  match v with VDict _ => true | _ => false end.

Fixpoint lookup (k : string) (d : list (string * value)) : option value :=
  match d with
  | [] => None
  | (k', v) :: rest => if String.eqb k k' then Some v else lookup k rest
  end.

Definition dict_get (key : string) (d : list (string * value)) (default : value) : value :=
  match lookup key d with
  | Some v => v
  | None => default
  end.

(** [obj.get(key, default)]: only a dict has the method. *)
Definition get_default (obj : value) (key : string) (default : value) : outcome value :=
  match obj with
  | VDict d => Ok (dict_get key d default)
  | _ => Raise AttributeError
  end.

(** [obj.get(key)], whose default is [None]. *)
Definition get (obj : value) (key : string) : outcome value :=
  get_default obj key VNone.

(** [obj[0]].  A dict decoded from JSON has string keys only, so the
    integer key 0 is never found. *)
Definition index0 (obj : value) : outcome value :=
  match obj with
  | VList (x :: _) => Ok x
  | VList [] => Raise IndexError
  | VStr (String c _) => Ok (VStr (String c ""))
  | VStr "" => Raise IndexError
  | VDict _ => Raise KeyError
  | _ => Raise TypeError
  end.

(** [for x in obj]: the sequence that the loop runs over. *)
Definition iterate (obj : value) : outcome (list value) :=
  match obj with
  | VList l => Ok l
  | VStr s => Ok (map (fun c => VStr (String c "")) (list_ascii_of_string s))
  | VDict d => Ok (map (fun kv => VStr (fst kv)) d)
  | _ => Raise TypeError
  end.

(* ------------------------------------------------------------------ *)
(** *** Strings

    A [str] is modelled by the bytes of its UTF-8 encoding.  White space is
    the white space of Unicode, as [str.strip] has it; the case mapping of
    letters outside ASCII is not modelled. *)

Definition lower_ascii (c : ascii) : ascii :=
  let n := nat_of_ascii c in
  if ((65 <=? n) && (n <=? 90))%nat then ascii_of_nat (n + 32) else c.

Definition upper_ascii (c : ascii) : ascii :=
  let n := nat_of_ascii c in
  if ((97 <=? n) && (n <=? 122))%nat then ascii_of_nat (n - 32) else c.

Fixpoint str_map (f : ascii -> ascii) (s : string) : string :=
  match s with
  | EmptyString => EmptyString
  | String c r => String (f c) (str_map f r)
  end.

(** [s.lower()] and [s.upper()]. *)
Definition lower (s : string) : string := str_map lower_ascii s.
Definition upper (s : string) : string := str_map upper_ascii s.

(** [s.replace("_", " ")]. *)
Definition replace_underscore (s : string) : string :=
  str_map (fun c => if Ascii.eqb c "_" then " "%char else c) s.

(** The string made of the bytes [l]. *)
Definition bytes (l : list nat) : string :=
  fold_right (fun n s => String (ascii_of_nat n) s) EmptyString l.

(** The characters for which [str.isspace] holds, each in UTF-8: U+0009 to
    U+000D, U+001C to U+0020, U+0085, U+00A0, U+1680, U+2000 to U+200A,
    U+2028, U+2029, U+202F, U+205F and U+3000. *)
Definition white_space : list string :=
  map bytes
    [[9]; [10]; [11]; [12]; [13]; [28]; [29]; [30]; [31]; [32];
     [194; 133]; [194; 160]; [225; 154; 128];
     [226; 128; 128]; [226; 128; 129]; [226; 128; 130]; [226; 128; 131];
     [226; 128; 132]; [226; 128; 133]; [226; 128; 134]; [226; 128; 135];
     [226; 128; 136]; [226; 128; 137]; [226; 128; 138];
     [226; 128; 168]; [226; 128; 169]; [226; 128; 175];
     [226; 129; 159]; [227; 128; 128]]%nat.

(** Whether [s] is one white space character. *)
Definition is_space (s : string) : bool := existsb (String.eqb s) white_space.

(** The number of bytes of the white space character at the head of [s],
    0 when there is none. *)
Definition space_width (s : string) : nat :=
  match s with
  | EmptyString => 0
  | String a r1 =>
      if is_space (String a EmptyString) then 1
      else
        match r1 with
        | EmptyString => 0
        | String b r2 =>
            if is_space (String a (String b EmptyString)) then 2
            else
              match r2 with
              | EmptyString => 0
              | String c _ =>
                  if is_space (String a (String b (String c EmptyString))) then 3 else 0
              end
        end
  end%nat.

(** [s.lstrip()]: a white space character at the head takes one, two or
    three bytes. *)
Fixpoint lstrip (s : string) : string :=
  match s with
  | EmptyString => EmptyString
  | String a r1 =>
      if is_space (String a EmptyString) then lstrip r1
      else
        match r1 with
        | EmptyString => s
        | String b r2 =>
            if is_space (String a (String b EmptyString)) then lstrip r2
            else
              match r2 with
              | EmptyString => s
              | String c r3 =>
                  if is_space (String a (String b (String c EmptyString))) then lstrip r3
                  else s
              end
        end
  end.

(** [s.rstrip()], from the right: once what follows a byte is stripped,
    the byte and the rest are dropped when they make up one white space
    character.  In UTF-8 the first byte of a character is never a later
    byte of another, so bytes that read as a white space character at the
    end of a text are that character. *)
Fixpoint rstrip (s : string) : string :=
  match s with
  | EmptyString => EmptyString
  | String c r =>
      let kept := String c (rstrip r) in
      if is_space kept then EmptyString else kept
  end.

(** [s.strip()]. *)
Definition strip (s : string) : string := rstrip (lstrip s).

(** [s.startswith(p)]. *)
Fixpoint startswith (p s : string) : bool :=
  match p, s with
  | EmptyString, _ => true
  | String a p', String b s' => Ascii.eqb a b && startswith p' s'
  | String _ _, EmptyString => false
  end.

(** [str(n)] for an int. *)
Definition str_of_Z (z : Z) : string := NilZero.string_of_int (Z.to_int z).

(** The method [m] of a [str]; any other object lacks it. *)
Definition str_method (m : string -> string) (obj : value) : outcome value :=
  match obj with
  | VStr s => Ok (VStr (m s))
  | _ => Raise AttributeError
  end.

(* ------------------------------------------------------------------ *)
(** *** Numbers *)

(** The value of a decimal digit. *)
Definition digit_of (c : ascii) : option Z :=
  let n := nat_of_ascii c in
  if ((48 <=? n) && (n <=? 57))%nat then Some (Z.of_nat (n - 48)) else None.

(** [int(s)] for a text made of decimal digits, read from the left with
    [acc] for what was read before. *)
Fixpoint digits_value (acc : Z) (s : string) : option Z :=
  match s with
  | EmptyString => Some acc
  | String c r =>
      match digit_of c with
      | Some d => digits_value (10 * acc + d) r
      | None => None
      end
  end.

(** Rounding to the nearest integer, ties to the even one. *)
Definition round_half_even (x : Q) : Z :=
  let f := Qfloor x in
  match Qcompare (x - inject_Z f) (1 # 2) with
  | Lt => f
  | Gt => f + 1
  | Eq => if Z.even f then f else f + 1
  end.

(** The decimal with one digit after the point nearest to [x], ties
    resolved to the even digit. *)
Definition round1 (x : Q) : Q := Qmake (round_half_even (x * 10)) 10.

(** Powers of two, and the integer part of the binary logarithm of the
    magnitude of a rational other than zero. *)
Definition pow2 (e : Z) : Q := (2 ^ e)%Q.

Definition floor_log2 (q : Q) : Z :=
  let l := Z.log2 (Z.abs (Qnum q)) - Z.log2 (Z.pos (Qden q)) in
  if Qle_bool (pow2 l) (Qabs q) then l else l - 1.

(** The exponent of the last binary digit that a double near [q] keeps: 53
    digits, and no exponent below that of the subnormal numbers. *)
Definition ulp_exponent (q : Q) : Z := Z.max (floor_log2 q - 52) (-1074).

(** The conversion of a decimal to a float: the double nearest to [q],
    ties resolved to the even significand.  The top of the range is not
    modelled; the rounding of a double to one decimal does not reach it. *)
Definition to_double (q : Q) : Q :=
  if Qeq_bool q 0 then 0%Q
  else
    let e := ulp_exponent q in
    Qred (inject_Z (round_half_even (q / pow2 e)) * pow2 e).

(** [round(obj, 1)]: an int (and a bool, which is one) is returned as an
    int; a float is rounded to the nearest decimal with one digit after
    the point, ties to even, and the float returned is the double nearest
    to that decimal; anything else has no [__round__]. *)
Definition py_round1 (obj : value) : outcome value :=
  match obj with
  | VInt z => Ok (VInt z)
  | VBool b => Ok (VInt (if b then 1 else 0))
  | VFloat q => Ok (VFloat (to_double (round1 q)))
  | _ => Raise TypeError
  end.

(** [divmod(obj, 3600)].  Float arithmetic is modelled without rounding
    error. *)
Definition divmod3600 (obj : value) : outcome (value * value) :=
  match obj with
  | VInt z => Ok (VInt (z / 3600), VInt (z mod 3600))
  | VBool b => let z := if b then 1 else 0 in Ok (VInt (z / 3600), VInt (z mod 3600))
  | VFloat q =>
      let h := inject_Z (Qfloor (q / 3600)) in
      Ok (VFloat h, VFloat (q - 3600 * h))
  | _ => Raise TypeError
  end.

(** [obj // 60], for the remainder that [divmod3600] returns. *)
Definition floordiv60 (obj : value) : value :=
  match obj with
  | VInt z => VInt (z / 60)
  | VFloat q => VFloat (inject_Z (Qfloor (q / 60)))
  | other => other
  end.

(* ================================================================== *)
(** ** Library behaviour the adapters rely on

    pydantic's field validation, [datetime] parsing and the text form of
    floats and containers are not part of the repository.  They are taken as
    an interface, with the few facts about them that the properties below
    need; [reference_library] further down is an implementation of it. *)

Class Library : Type := {
  (** field type [str] *)
  validate_str : value -> option string;
  (** field type [HttpUrl]: the text of the url that the record keeps *)
  validate_url : value -> option string;
  (** field type [float] *)
  validate_float : value -> option Q;
  (** field type [int] *)
  validate_int : value -> option Z;
  (** [datetime.strptime(s, "%Y-%m-%d").date()] *)
  strptime_ymd : string -> option date;
  (** [datetime.fromisoformat(s).date()] *)
  fromisoformat : string -> option date;
  (** [str(x)] for a float, a list, a dict or a date *)
  repr : value -> string;

  validate_str_str : forall s, validate_str (VStr s) = Some s;
  validate_str_None : validate_str VNone = None;
  validate_url_nonempty : forall v u, validate_url v = Some u -> u <> "";
  validate_float_float : forall q, validate_float (VFloat q) = Some q;
  validate_float_int : forall z,
    Z.abs z <= 2 ^ 53 -> validate_float (VInt z) = Some (inject_Z z)
}.

(** An implementation of the interface, for the examples: text alone is
    accepted for [str], numbers for [float] and [int], a text that begins
    with [http://] or [https://] and goes on for [HttpUrl]; a date is read
    in the form YYYY-MM-DD (the day is checked against 31, not against the
    length of the month). *)
Definition parse_ymd (s : string) : option date :=
  if negb (Nat.eqb (String.length s) 10) then None
  else if negb (String.eqb (substring 4 1 s) "-" && String.eqb (substring 7 1 s) "-") then None
  else
    match digits_value 0 (substring 0 4 s),
          digits_value 0 (substring 5 2 s),
          digits_value 0 (substring 8 2 s) with
    | Some y, Some m, Some d =>
        if (1 <=? y) && (1 <=? m) && (m <=? 12) && (1 <=? d) && (d <=? 31)
        then Some (mkDate y m d) else None
    | _, _, _ => None
    end.

Definition reference_url (v : value) : option string :=
  match v with
  | VStr s =>
      if (startswith "http://" s && Nat.ltb 7 (String.length s))
         || (startswith "https://" s && Nat.ltb 8 (String.length s))
      then Some s else None
  | _ => None
  end.

#[export] Instance reference_library : Library.
Proof.
  refine {|
    validate_str := fun v => match v with VStr s => Some s | _ => None end;
    validate_url := reference_url;
    validate_float := fun v =>
      match v with
      | VFloat q => Some q
      | VInt z => Some (inject_Z z)
      | VBool b => Some (if b then 1%Q else 0%Q)
      | _ => None
      end;
    validate_int := fun v =>
      match v with
      | VInt z => Some z
      | VBool b => Some (if b then 1 else 0)
      | _ => None
      end;
    strptime_ymd := parse_ymd;
    fromisoformat := fun s => parse_ymd (substring 0 10 s);
    repr := fun _ => "<object>" |}.
  - reflexivity.
  - reflexivity.
  - intros v u; destruct v; simpl; try discriminate.
    destruct s; simpl; [discriminate |].
    destruct (_ || _); [intros [= <-]; discriminate | discriminate].
  - reflexivity.
  - reflexivity.
Defined.

(* ================================================================== *)
(** ** app/schemas/course.py *)

(** [class CourseSchema(BaseModel)]. *)
Record CourseSchema : Type := mkCourse {
  title : string;
  url : string;
  image_url : option string;
  duration : option string;
  provider : option string;
  provider_img : option string;
  difficulty : option string;
  avg_rating : option Q;
  count_rating : option Z;
  skills : option (list string)
}.

Section Adapters.

Context {L : Library}.

(** The requests that [fetch_coursera_courses] and [fetch_udemy_courses]
    perform, with their arguments [query], [lang] and [num_items]: what the
    upstream answers is not the program's to decide. *)
Variable fetch_coursera_courses : string -> string -> Z -> outcome value.
Variable fetch_udemy_courses : string -> string -> Z -> outcome value.

(** [str(obj)], as an f-string renders a value. *)
Definition py_str (obj : value) : string :=
  match obj with
  | VStr s => s
  | VInt z => str_of_Z z
  | VBool b => if b then "True" else "False"
  | VNone => "None"
  | other => repr other
  end.

(** Validation of one field: a failure raises [ValidationError]. *)
Definition field {A : Type} (check : value -> option A) (v : value) : outcome A :=
  match check v with
  | Some a => Ok a
  | None => Raise ValidationError
  end.

(** [Optional[T]] accepts [None] besides what [T] accepts. *)
Definition optional {A : Type} (check : value -> option A) (v : value) : option (option A) :=
  match v with
  | VNone => Some None
  | _ => option_map Some (check v)
  end.

Fixpoint validate_all {A : Type} (check : value -> option A) (l : list value) : option (list A) :=
  match l with
  | [] => Some []
  | v :: rest =>
      match check v, validate_all check rest with
      | Some a, Some r => Some (a :: r)
      | _, _ => None
      end
  end.

(** [List[str]]. *)
Definition validate_str_list (v : value) : option (list string) :=
  match v with
  | VList l => validate_all validate_str l
  | _ => None
  end.

(** [CourseSchema(title=..., url=..., ...)].  The class declares the ten
    fields below and nothing about extra keywords, so a keyword that is not a
    field ([extra]) is dropped without error. *)
Definition new_CourseSchema
  (title url image_url duration provider provider_img difficulty
   avg_rating count_rating skills : value)
  (extra : list (string * value)) : outcome CourseSchema :=
  t <- field validate_str title ;;
  u <- field validate_url url ;;
  i <- field (optional validate_url) image_url ;;
  du <- field (optional validate_str) duration ;;
  p <- field (optional validate_str) provider ;;
  pi <- field (optional validate_url) provider_img ;;
  di <- field (optional validate_str) difficulty ;;
  a <- field (optional validate_float) avg_rating ;;
  c <- field (optional validate_int) count_rating ;;
  s <- field (optional validate_str_list) skills ;;
  Ok (mkCourse t u i du p pi di a c s).

(* ================================================================== *)
(** ** app/services/coursera.py *)

(** The chain of lookups at the head of [parse_coursera_response]. *)
Definition coursera_elements (data : value) : outcome value :=
  d <- get_default data "data" (VDict []) ;;
  r <- get_default d "SearchResult" (VDict []) ;;
  s <- get_default r "search" (VList [VDict []]) ;;
  s0 <- index0 s ;;
  get_default s0 "elements" (VList []).

(** The body of the loop of [parse_coursera_response], for an item that is
    a dict. *)
Definition coursera_course (item : value) : outcome CourseSchema :=
  url_path <- get item "url" ;;
  let full_url :=
    if truthy url_path then VStr ("https://www.coursera.org" ++ py_str url_path)
    else VNone in
  difficulty <- get_default item "productDifficultyLevel" VNone ;;
  difficulty <- (if truthy difficulty then str_method lower difficulty else Ok VNone) ;;
  duration <- get_default item "productDuration" VNone ;;
  duration <- (if truthy duration
               then d <- str_method lower duration ;; str_method replace_underscore d
               else Ok duration) ;;
  avg_rating <- get_default item "avgProductRating" VNone ;;
  avg_rating <- (match avg_rating with
                 | VNone => Ok VNone
                 | _ => py_round1 avg_rating
                 end) ;;
  name <- get item "name" ;;
  imageUrl <- get item "imageUrl" ;;
  partners <- get_default item "partners" (VList [VNone]) ;;
  provider <- index0 partners ;;
  partnerLogos <- get_default item "partnerLogos" (VList [VNone]) ;;
  provider_img <- index0 partnerLogos ;;
  count_rating <- get item "numProductRatings" ;;
  skills <- get_default item "skills" VNone ;;
  new_CourseSchema name full_url imageUrl duration provider provider_img
    difficulty avg_rating count_rating skills [].

Fixpoint coursera_loop (elements : list value) (results : list CourseSchema)
  : outcome (list CourseSchema) :=
  match elements with
  | [] => Ok results
  | item :: rest =>
      if negb (is_dict item) then coursera_loop rest results
      else
        course <- coursera_course item ;;
        coursera_loop rest (results ++ [course])
  end.

Definition parse_coursera_response (data : value) : outcome (list CourseSchema) :=
  match coursera_elements data with
  | Raise KeyError | Raise IndexError | Raise TypeError => Ok []
  | Raise e => Raise e
  | Ok elements =>
      match elements with
      | VList l => coursera_loop l []
      | _ => Ok []
      end
  end.

Definition get_coursera_courses (query lang : string) (num_items : Z)
  : outcome (list CourseSchema) :=
  raw_data <- fetch_coursera_courses query lang num_items ;;
  parse_coursera_response raw_data.

(* ================================================================== *)
(** ** app/services/udemy.py *)

(** The locals of [parse_udemy_response] that are assigned in one
    iteration of its loop and read in a later one; [None] is an unbound
    name. *)
Record udemy_locals : Type := mkUdemyLocals {
  udemy_avg_rating : option value;
  udemy_count_rating : option value
}.

(** Reading a local variable. *)
Definition read_local {A : Type} (x : option A) : outcome A :=
  match x with
  | Some v => Ok v
  | None => Raise NameError
  end.

(** The two assignments under [if duration:]. *)
Definition udemy_duration (duration : value) : outcome value :=
  if truthy duration then
    hr <- divmod3600 duration ;;
    let (hours, remainder) := hr in
    Ok (VStr (py_str hours ++ "h " ++ py_str (floordiv60 remainder) ++ "m"))
  else Ok duration.

(** [datetime.strptime(obj, "%Y-%m-%d").date()]. *)
Definition py_strptime (obj : value) : outcome value :=
  match obj with
  | VStr s => match strptime_ymd s with
              | Some d => Ok (VDate d)
              | None => Raise ValueError
              end
  | _ => Raise TypeError
  end.

(** What the statements of the loop body of [parse_udemy_response] leave
    for the construction of the record that ends it. *)
Record udemy_fields : Type := mkUdemyFields {
  ud_course_data : value;
  ud_duration : value;
  ud_provider : value;
  ud_difficulty : value;
  ud_locals : udemy_locals;
  ud_course_date : value
}.

(** The loop body up to the construction, for an item that is a dict. *)
Definition udemy_read (locals : udemy_locals) (item : value) : outcome udemy_fields :=
  course_data <- get_default item "course" (VDict []) ;;
  duration <- get_default course_data "durationInSeconds" VNone ;;
  duration <- udemy_duration duration ;;
  provider <- get_default course_data "instructors" VNone ;;
  provider <- (if truthy provider
               then p0 <- index0 provider ;; get p0 "name"
               else Ok provider) ;;
  difficulty <- get_default course_data "level" VNone ;;
  difficulty <- (if truthy difficulty
                 then d <- str_method lower difficulty ;; str_method replace_underscore d
                 else Ok difficulty) ;;
  rating <- get_default course_data "rating" VNone ;;
  locals <- (if truthy rating
             then average <- get rating "average" ;;
                  avg <- py_round1 average ;;
                  count <- get rating "count" ;;
                  Ok (mkUdemyLocals (Some avg) (Some count))
             else Ok locals) ;;
  course_date <- get_default course_data "updatedOn" VNone ;;
  course_date <- (if truthy course_date then py_strptime course_date else Ok course_date) ;;
  Ok (mkUdemyFields course_data duration provider difficulty locals course_date).

(** [CourseSchema(title=..., ...)] at the end of the loop body, its
    arguments evaluated from left to right. *)
Definition udemy_build (f : udemy_fields) : outcome CourseSchema :=
  title <- get (ud_course_data f) "title" ;;
  title <- str_method strip title ;;
  url <- get (ud_course_data f) "urlCourseLanding" ;;
  images <- get (ud_course_data f) "images" ;;
  image_url <- get images "px240x135" ;;
  avg_rating <- read_local (udemy_avg_rating (ud_locals f)) ;;
  count_rating <- read_local (udemy_count_rating (ud_locals f)) ;;
  skills <- get_default (ud_course_data f) "learningOutcomes" VNone ;;
  new_CourseSchema title url image_url (ud_duration f) (ud_provider f) VNone
    (ud_difficulty f) avg_rating count_rating skills
    [("course_date", ud_course_date f)].

(** One iteration on a dict: the locals afterwards and the course built. *)
Definition udemy_course (locals : udemy_locals) (item : value)
  : outcome (udemy_locals * CourseSchema) :=
  f <- udemy_read locals item ;;
  course <- udemy_build f ;;
  Ok (ud_locals f, course).

Fixpoint udemy_loop (elements : list value) (locals : udemy_locals)
  (results : list CourseSchema) : outcome (list CourseSchema) :=
  match elements with
  | [] => Ok results
  | item :: rest =>
      if negb (is_dict item) then udemy_loop rest locals results
      else
        lc <- udemy_course locals item ;;
        udemy_loop rest (fst lc) (results ++ [snd lc])
  end.

Definition udemy_elements (data : value) : outcome value :=
  d <- get_default data "data" (VDict []) ;;
  c <- get_default d "courseSearch" (VDict []) ;;
  get_default c "results" (VList []).

Definition parse_udemy_response (data : value) : outcome (list CourseSchema) :=
  match udemy_elements data with
  | Raise KeyError | Raise IndexError | Raise TypeError => Ok []
  | Raise e => Raise e
  | Ok elements =>
      match elements with
      | VList l => udemy_loop l (mkUdemyLocals None None) []
      | _ => Ok []
      end
  end.

Definition get_udemy_courses (query lang : string) (num_items : Z)
  : outcome (list CourseSchema) :=
  raw_data <- fetch_udemy_courses query lang num_items ;;
  parse_udemy_response raw_data.

(* ================================================================== *)
(** ** app/services/edx.py *)

Definition MAX_RETRIES : Z := 2.
Definition MAX_ITEMS_LIMIT : Z := 50.

(** The part of the body built by [build_edx_request_body] that depends on
    its arguments. *)
Record edx_request : Type := mkEdxRequest {
  edx_language : string;
  hitsPerPage : Z;
  edx_query : string
}.

Definition build_edx_request_body (query language : string) (num_items : Z) : edx_request :=
  mkEdxRequest language (Z.min num_items MAX_ITEMS_LIMIT) (strip query).

(** What one [client.post] leads to: a response, whose body [json()]
    decodes or fails to decode, or an exception. *)
Inductive post_result : Type :=
| Response (status_code : Z) (json : outcome value)
| Failed (e : exn).

(** What [fetch_edx_courses] does that can be observed from outside. *)
Inductive edx_event : Type :=
| Post (attempt : Z)
| Sleep (seconds : Z).

(** The answer of the edX endpoint to the request sent at a given attempt. *)
Variable edx_post : edx_request -> Z -> post_result.

(** The loop [for attempt in range(MAX_RETRIES + 1)] of
    [fetch_edx_courses], over the attempts still to come; the result is the
    value returned ([VNone] for [None]) and the events so far. *)
Fixpoint edx_attempts (request_body : edx_request) (attempts : list Z)
  (log : list edx_event) : value * list edx_event :=
  match attempts with
  | [] => (VNone, log)
  | attempt :: rest =>
      let log := (log ++ [Post attempt])%list in
      let handler (e : exn) :=
        match e with
        | TimeoutException =>
            if attempt <? MAX_RETRIES
            then edx_attempts request_body rest (log ++ [Sleep 1])%list
            else (VNone, log)
        | _ => (VNone, log)
        end in
      match edx_post request_body attempt with
      | Failed e => handler e
      | Response status_code json =>
          if status_code =? 200 then
            match json with
            | Ok v => (v, log)
            | Raise e => handler e
            end
          else if status_code =? 429 then
            if attempt <? MAX_RETRIES
            then edx_attempts request_body rest (log ++ [Sleep (2 ^ attempt)])%list
            else (VNone, log)
          else (VNone, log)
      end
  end.

(** [range(n)]. *)
Definition range (n : Z) : list Z := map Z.of_nat (seq 0 (Z.to_nat n)).

Definition fetch_edx_courses (query lang : string) (num_items : Z)
  : value * list edx_event :=
  if String.eqb (strip query) "" then (VNone, [])
  else
    let request_body := build_edx_request_body (strip query) lang num_items in
    edx_attempts request_body (range (MAX_RETRIES + 1)) [].

(** The number of requests sent. *)
Fixpoint attempts_made (log : list edx_event) : Z :=
  match log with
  | [] => 0
  | Post _ :: rest => 1 + attempts_made rest
  | Sleep _ :: rest => attempts_made rest
  end.

Fixpoint map_outcome {A B : Type} (f : A -> outcome B) (l : list A) : outcome (list B) :=
  match l with
  | [] => Ok []
  | x :: rest =>
      y <- f x ;;
      ys <- map_outcome f rest ;;
      Ok (y :: ys)
  end.

(** The statements of the loop body of [parse_edx_response] up to the
    assignment of [provider_img]: the provider, and the local
    [provider_img] afterwards ([None] while it is unbound). *)
Definition edx_owner (provider_img : option value) (item : value)
  : outcome (value * option value) :=
  owner <- get_default item "owners" (VList []) ;;
  if truthy owner then
    o <- index0 owner ;;
    provider <- get_default o "name" VNone ;;
    img <- get_default o "logoImageUrl" VNone ;;
    Ok (provider, Some img)
  else Ok (VNone, provider_img).

(** The rest of the loop body. *)
Definition edx_build (provider : value) (provider_img : option value) (item : value)
  : outcome CourseSchema :=
  duration <- get_default item "weeks_to_complete" VNone ;;
  let duration := if truthy duration then VStr (py_str duration ++ " weeks") else duration in
  skills <- get_default item "skills" VNone ;;
  skills <- (if truthy skills
             then l <- iterate skills ;;
                  projected <- map_outcome (fun x => get x "skill") l ;;
                  Ok (VList projected)
             else Ok skills) ;;
  title <- get item "title" ;;
  title <- str_method strip title ;;
  url <- get item "marketing_url" ;;
  image_url <- get_default item "card_image_url" VNone ;;
  img <- read_local provider_img ;;
  level <- get_default item "level" (VList [VNone]) ;;
  difficulty <- index0 level ;;
  new_CourseSchema title url image_url duration provider img difficulty
    VNone VNone skills [].

(** One iteration: the local [provider_img] afterwards and what the body
    of the [try] came to. *)
Definition edx_course (provider_img : option value) (item : value)
  : option value * outcome CourseSchema :=
  match edx_owner provider_img item with
  | Raise e => (provider_img, Raise e)
  | Ok (provider, provider_img') =>
      (provider_img', edx_build provider provider_img' item)
  end.

Fixpoint edx_loop (hits : list value) (provider_img : option value)
  (courses : list CourseSchema) : list CourseSchema :=
  match hits with
  | [] => courses
  | item :: rest =>
      let (provider_img', r) := edx_course provider_img item in
      match r with
      | Ok course => edx_loop rest provider_img' (courses ++ [course])
      | Raise _ => edx_loop rest provider_img' courses
      end
  end.

Definition parse_edx_response (data : value) : list CourseSchema :=
  if negb (truthy data) then []
  else
    try_except
      (results <- get_default data "results" (VList []) ;;
       if negb (truthy results) then Ok []
       else
         r0 <- index0 results ;;
         hits <- get_default r0 "hits" (VList []) ;;
         if negb (truthy hits) then Ok []
         else
           items <- iterate hits ;;
           Ok (edx_loop items None []))
      (fun _ => []).

Definition LANGUAGE_MAP (code : string) : string :=
  if String.eqb code "es" then "Spanish" else "English".

(** [get_edx_courses]: the courses returned and the events of the fetch.
    Neither [fetch_edx_courses] nor [parse_edx_response] lets an exception
    out, so the [try] around them has nothing to catch. *)
Definition get_edx_courses (query lang : string) (num_items : Z)
  : list CourseSchema * list edx_event :=
  if String.eqb (strip query) "" then ([], [])
  else
    let query := strip query in
    let num_items := Z.max 1 (Z.min num_items MAX_ITEMS_LIMIT) in
    let lang := if Nat.eqb (String.length lang) 2 then LANGUAGE_MAP (lower lang) else lang in
    let (raw_data, log) := fetch_edx_courses query lang num_items in
    if negb (truthy raw_data) then ([], log)
    else (parse_edx_response raw_data, log).

(* ================================================================== *)
(** ** app/services/youtube.py *)

Definition is_digit (c : ascii) : bool :=
  match digit_of c with Some _ => true | None => false end.

(** The longest run of digits at the head of [s], and what follows it. *)
Fixpoint span_digits (s : string) : string * string :=
  match s with
  | EmptyString => (EmptyString, EmptyString)
  | String c r =>
      if is_digit c
      then let (ds, rest) := span_digits r in (String c ds, rest)
      else (EmptyString, s)
  end.

(** One optional group [(?:(\d+)X)?] of the pattern: the digits captured,
    if the group matches at the head of [s], and the text left. *)
Definition duration_group (unit_letter : ascii) (s : string) : option string * string :=
  match span_digits s with
  | (String d ds, String c rest) =>
      if Ascii.eqb c unit_letter then (Some (String d ds), rest) else (None, s)
  | _ => (None, s)
  end.

(** [re.match(r'PT(?:(\d+)H)?(?:(\d+)M)?(?:(\d+)S)?', s)]: the three
    groups of the match, or [None] when there is none. *)
Definition match_duration (s : string) : option (option string * option string * option string) :=
  match s with
  | String "P" (String "T" r) =>
      let (hours, r1) := duration_group "H" r in
      let (minutes, r2) := duration_group "M" r1 in
      let (seconds, _) := duration_group "S" r2 in
      Some (hours, minutes, seconds)
  | _ => None
  end.

(** [int(g) if g else 0] for a group of the match. *)
Definition int_of_group (g : option string) : Z :=
  match g with
  | Some ds => match digits_value 0 ds with Some n => n | None => 0 end
  | None => 0
  end.

Definition convert_youtube_duration (iso_duration : value) : outcome value :=
  if negb (truthy iso_duration) then Ok VNone
  else
    match iso_duration with
    | VStr s =>
        if negb (startswith "PT" s) then Ok VNone
        else
          match match_duration s with
          | None => Ok VNone
          | Some (hours, minutes, seconds) =>
              let hours := int_of_group hours in
              let minutes := int_of_group minutes in
              let seconds := int_of_group seconds in
              if 0 <? hours
              then Ok (VStr (str_of_Z hours ++ "h " ++ str_of_Z minutes ++ "m"))
              else if 0 <? minutes
              then Ok (VStr (str_of_Z minutes ++ "m"))
              else Ok (VStr (str_of_Z seconds ++ "s"))
          end
    | _ => Raise AttributeError
    end.

(** [a or b], where [b] is evaluated only when [a] is false. *)
Definition or_else (a : outcome value) (b : outcome value) : outcome value :=
  x <- a ;;
  if truthy x then Ok x else b.

(** [datetime.fromisoformat(obj).date()]. *)
Definition py_fromisoformat (obj : value) : outcome date :=
  match obj with
  | VStr s => match fromisoformat s with
              | Some d => Ok d
              | None => Raise ValueError
              end
  | _ => Raise TypeError
  end.

(** What the first part of the loop body of [parse_youtube_response] hands
    to the second. *)
Record youtube_fields : Type := mkYoutubeFields {
  yt_video_id : value;
  yt_snippet : value;
  yt_thumbnail : value;
  yt_duration : value;
  yt_publish_date : option date
}.

(** The loop body up to the assignment of [publish_date]; the result is
    [None] when the item is passed over by [continue].  [publish_date] is
    the local of that name, [None] while it is unbound. *)
Definition youtube_read (publish_date : option date) (item : value)
  : outcome (option youtube_fields) :=
  video_id <- get item "id" ;;
  snippet <- get_default item "snippet" (VDict []) ;;
  content_details <- get_default item "contentDetails" (VDict []) ;;
  skip <- (if negb (truthy video_id) then Ok true
           else t <- get snippet "title" ;; Ok (negb (truthy t))) ;;
  if (skip : bool) then Ok None
  else
    thumbnails <- get_default snippet "thumbnails" (VDict []) ;;
    thumbnail_high <-
      or_else (h <- get_default thumbnails "high" (VDict []) ;; get h "url")
        (or_else (m <- get_default thumbnails "medium" (VDict []) ;; get m "url")
           (d <- get_default thumbnails "default" (VDict []) ;; get d "url")) ;;
    duration <- get_default content_details "duration" VNone ;;
    duration <- (if truthy duration then convert_youtube_duration duration else Ok duration) ;;
    publish_date_str <- get_default snippet "publishedAt" VNone ;;
    publish_date <- (if truthy publish_date_str
                     then d <- py_fromisoformat publish_date_str ;; Ok (Some d)
                     else Ok publish_date) ;;
    Ok (Some (mkYoutubeFields video_id snippet thumbnail_high duration publish_date)).

(** The construction of the record that ends the loop body. *)
Definition youtube_build (f : youtube_fields) : outcome CourseSchema :=
  title <- get (yt_snippet f) "title" ;;
  title <- str_method strip title ;;
  let url := VStr ("https://youtube.com/watch?v=" ++ py_str (yt_video_id f)) in
  provider <- get_default (yt_snippet f) "channelTitle" VNone ;;
  publish_date <- read_local (yt_publish_date f) ;;
  new_CourseSchema title url (yt_thumbnail f) (yt_duration f) provider VNone
    VNone VNone VNone VNone [("course_date", VDate publish_date)].

(** One iteration: the local [publish_date] afterwards, and the video
    built, [Ok None] after [continue], or the exception of the [try]. *)
Definition youtube_video (publish_date : option date) (item : value)
  : option date * outcome (option CourseSchema) :=
  match youtube_read publish_date item with
  | Raise e => (publish_date, Raise e)
  | Ok None => (publish_date, Ok None)
  | Ok (Some f) =>
      (yt_publish_date f, v <- youtube_build f ;; Ok (Some v))
  end.

Fixpoint youtube_loop (items : list value) (publish_date : option date)
  (videos : list CourseSchema) : list CourseSchema :=
  match items with
  | [] => videos
  | item :: rest =>
      let (publish_date', r) := youtube_video publish_date item in
      match r with
      | Ok (Some video) => youtube_loop rest publish_date' (videos ++ [video])
      | Ok None | Raise _ => youtube_loop rest publish_date' videos
      end
  end.

Definition parse_youtube_response (data : value) : outcome (list CourseSchema) :=
  items <- get_default data "items" (VList []) ;;
  l <- iterate items ;;
  Ok (youtube_loop l None []).

End Adapters.

(* ================================================================== *)
(** ** app/routers/resources.py *)

(** [class Language(str, Enum)]. *)
Inductive Language : Type := SPANISH | ENGLISH.

Definition Language_value (lang : Language) : string :=
  match lang with
  | SPANISH => "es"
  | ENGLISH => "en"
  end.

Definition Language_eqb (a b : Language) : bool :=
  match a, b with
  | SPANISH, SPANISH | ENGLISH, ENGLISH => true
  | _, _ => false
  end.

(** The characters [urllib.parse.quote] leaves as they are: letters,
    digits, [_.-~] and the default safe character [/]. *)
Definition quote_safe (c : ascii) : bool :=
  let n := nat_of_ascii c in
  (((65 <=? n) && (n <=? 90)) || ((97 <=? n) && (n <=? 122))
   || ((48 <=? n) && (n <=? 57))
   || (n =? 95) || (n =? 46) || (n =? 45) || (n =? 126) || (n =? 47))%nat.

Definition hex_digit (n : nat) : ascii :=
  if (n <? 10)%nat then ascii_of_nat (48 + n) else ascii_of_nat (55 + n).

(** [quote(s)], byte by byte over the UTF-8 encoding of [s]. *)
Fixpoint quote (s : string) : string :=
  match s with
  | EmptyString => EmptyString
  | String c r =>
      if quote_safe c then String c (quote r)
      else
        let n := nat_of_ascii c in
        String "%" (String (hex_digit (n / 16)) (String (hex_digit (n mod 16)) (quote r)))
  end.

(** One entry of the answer: the courses of a platform and the link to
    its own search page. *)
Record platform_result : Type := mkPlatformResult {
  courses : list CourseSchema;
  redirect_url : string
}.

(** The dict returned: its only key, ["results"], holds the platforms in
    the order of insertion. *)
Record search_response : Type := mkSearchResponse {
  results : list (string * platform_result)
}.

Section Router.

(** The state of whatever lies outside the process (the event loop, the
    upstream services, the clock): an awaited call starts in one state and
    ends in another. *)
Variable W : Type.

Definition awaited : Type := W -> outcome (list CourseSchema) * W.

(** [await get_coursera_courses(query, lang=..., num_items=...)] and the
    three other calls. *)
Variable await_get_coursera_courses : string -> string -> Z -> awaited.
Variable await_get_edx_courses : string -> string -> Z -> awaited.
Variable await_get_udemy_courses : string -> string -> Z -> awaited.
Variable await_get_youtube_courses : string -> string -> Z -> awaited.

Definition lang_codes (lang : Language) (platform : string) : string :=
  if String.eqb platform "coursera"
  then (if Language_eqb lang SPANISH then "Spanish" else "English")
  else if String.eqb platform "edx"
  then (if Language_eqb lang SPANISH then "Spanish" else "English")
  else if String.eqb platform "udemy"
  then upper (Language_value lang)
  else (if Language_eqb lang SPANISH then "curso+completo+espa√±ol" else "full+course").

(** [try: courses = await call / except Exception: courses = []]. *)
Definition guarded (call : awaited) (w : W) : list CourseSchema * W :=
  let (r, w') := call w in (try_except r (fun _ => []), w').

Definition search_courses (q : string) (lang : Language) (num_items : Z) (w : W)
  : outcome search_response * W :=
  if String.eqb (strip q) "" then (Raise (HTTPException 400), w)
  else
    let query := strip q in
    let encoded_query := quote query in
    let (coursera_courses, w1) :=
      guarded (await_get_coursera_courses query (lang_codes lang "coursera") num_items) w in
    let (edx_courses, w2) :=
      guarded (await_get_edx_courses query (lang_codes lang "edx") num_items) w1 in
    let (udemy_courses, w3) :=
      guarded (await_get_udemy_courses query (lang_codes lang "udemy") num_items) w2 in
    let (youtube_courses, w4) :=
      guarded (await_get_youtube_courses query (Language_value lang) num_items) w3 in
    let coursera_url :=
      "https://coursera.org/search?query=" ++ encoded_query
        ++ "&language=" ++ lang_codes lang "coursera" in
    let edx_url :=
      "https://www.edx.org/search?q=" ++ encoded_query
        ++ "&language=" ++ lang_codes lang "edx" ++ "&availability=Available+now" in
    let udemy_url :=
      "https://www.udemy.com/courses/search/?lang=" ++ lang_codes lang "udemy"
        ++ "&price=price-free&q=" ++ encoded_query in
    let youtube_url :=
      "https://www.youtube.com/results?search_query=" ++ encoded_query
        ++ "+" ++ lang_codes lang "youtube" in
    (Ok (mkSearchResponse
           [("coursera", mkPlatformResult coursera_courses coursera_url);
            ("edx", mkPlatformResult edx_courses edx_url);
            ("udemy", mkPlatformResult udemy_courses udemy_url);
            ("youtube", mkPlatformResult youtube_courses youtube_url)]),
     w4).

End Router.

Arguments search_courses {W}.
Arguments guarded {W}.

(** An awaited call that does not depend on the state outside and leaves
    it as it is. *)
Definition pure_call {W : Type} (r : outcome (list CourseSchema)) : awaited W :=
  fun w => (r, w).

(** A state outside that consists of a clock and of the times at which
    the calls began. *)
Record timeline : Type := mkTimeline {
  now : Z;
  started : list (string * Z)
}.

(** A call for platform [name] that takes [seconds] to reach its outcome
    [r]. *)
Definition timed_call (name : string) (seconds : Z) (r : outcome (list CourseSchema))
  : awaited timeline :=
  fun w => (r, mkTimeline (now w + seconds) (started w ++ [(name, now w)])).

(* ================================================================== *)
(** ** The requests of the Coursera and YouTube adapters *)

Definition is_list (v : value) : bool :=
  match v with VList _ => true | _ => false end.

(** The part of the body sent by [fetch_coursera_courses] that depends on
    its arguments. *)
Record coursera_request : Type := mkCourseraRequest {
  coursera_limit : Z;
  coursera_language : string;
  coursera_query : string
}.

(** The part of [youtube.search().list(...)] that depends on the arguments
    of [fetch_youtube_courses]. *)
Record youtube_search_request : Type := mkYoutubeSearch {
  maxResults : Z;
  search_q : string
}.

(** [LANGUAGE_TERMS.get(lang, LANGUAGE_TERMS["es"])]. *)
Definition LANGUAGE_TERMS (lang : string) : string :=
  if String.eqb lang "en" then "full course" else "curso completo español".

(** [{"items": []}]. *)
Definition empty_items : value := VDict [("items", VList [])].

(** [",".join(ids)]: every element has to be a [str]. *)
Fixpoint join_comma (ids : list value) : outcome string :=
  match ids with
  | [] => Ok ""
  | VStr s :: rest =>
      match rest with
      | [] => Ok s
      | _ :: _ => r <- join_comma rest ;; Ok (s ++ "," ++ r)
      end
  | _ :: _ => Raise TypeError
  end.

(** The loop of [get_youtube_courses] that collects the ids of the videos
    found. *)
Fixpoint collect_video_ids (items : list value) (video_ids : list value)
  : outcome (list value) :=
  match items with
  | [] => Ok video_ids
  | item :: rest =>
      id <- get_default item "id" (VDict []) ;;
      video_id <- get id "videoId" ;;
      collect_video_ids rest
        (if truthy video_id then video_ids ++ [video_id] else video_ids)
  end.

Section Fetches.

Context {L : Library}.

(** Whether [response.raise_for_status()] raises, by status code, and the
    answer of the Coursera endpoint to a request. *)
Variable raises_for_status : Z -> bool.
Variable coursera_post : coursera_request -> post_result.

(** The [except] clauses of [fetch_coursera_courses]: an
    [HTTPStatusError] is raised anew, a [RequestError] (a timeout is one)
    comes out as [RequestError], anything else passes. *)
Definition coursera_reraise (e : exn) : exn :=
  match e with
  | HTTPStatusError => HTTPStatusError
  | RequestError | TimeoutException => RequestError
  | other => other
  end.

Definition fetch_coursera_courses (query lang : string) (num_items : Z) : outcome value :=
  if String.eqb (strip query) "" then Raise ValueError
  else if num_items <=? 0 then Raise ValueError
  else
    let body :=
      match coursera_post (mkCourseraRequest num_items lang query) with
      | Failed e => Raise e
      | Response status_code json =>
          if raises_for_status status_code then Raise HTTPStatusError
          else
            json_response <- json ;;
            if negb (truthy json_response) || negb (is_list json_response)
            then Raise ValueError
            else index0 json_response
      end in
    match body with
    | Ok v => Ok v
    | Raise e => Raise (coursera_reraise e)
    end.

(** [os.getenv("API_KEY")], what [build("youtube", "v3", ...)] comes to,
    and the answers of the two calls of the YouTube API. *)
Variable API_KEY : option string.
Variable youtube_build : outcome unit.
Variable youtube_search : youtube_search_request -> outcome value.
Variable youtube_videos : string -> outcome value.

Definition get_youtube_client : outcome unit :=
  match API_KEY with
  | None | Some EmptyString => Raise ValueError
  | Some _ => youtube_build
  end.

Definition fetch_youtube_courses (query lang : string) (num_items : Z) : value :=
  try_except
    (_ <- get_youtube_client ;;
     let lang_string := LANGUAGE_TERMS lang in
     youtube_search (mkYoutubeSearch (Z.min num_items 50) (query ++ " " ++ lang_string)))
    (fun _ => empty_items).

Definition fetch_detailed_video_info (video_ids : list value) : value :=
  try_except
    (_ <- get_youtube_client ;;
     id <- join_comma video_ids ;;
     youtube_videos id)
    (fun _ => empty_items).

Definition get_youtube_courses (query lang : string) (num_items : Z) : list CourseSchema :=
  if String.eqb (strip query) "" then []
  else
    let query := strip query in
    let lang := if String.eqb lang "" then "en" else lower lang in
    let num_items := Z.max 1 (Z.min num_items 50) in
    try_except
      (let raw_data := fetch_youtube_courses query lang num_items in
       items <- get_default raw_data "items" (VList []) ;;
       l <- iterate items ;;
       video_ids <- collect_video_ids l [] ;;
       match video_ids with
       | [] => Ok []
       | _ :: _ =>
           let detailed_data := fetch_detailed_video_info video_ids in
           parse_youtube_response detailed_data
       end)
      (fun _ => []).

End Fetches.

(* ================================================================== *)
(** ** Vocabulary of the statements *)

(** A Coursera answer whose hits are [elements]. *)
Definition coursera_response (elements : list value) : value :=
  VDict [("data", VDict [("SearchResult",
    VDict [("search", VList [VDict [("elements", VList elements)]])])])].

(** A Udemy answer whose results are [elements]. *)
Definition udemy_response (elements : list value) : value :=
  VDict [("data", VDict [("courseSearch", VDict [("results", VList elements)])])].

(** The rating object of a Udemy item, as the loop body of
    [parse_udemy_response] looks it up. *)
Definition udemy_rating (item : value) : outcome value :=
  course_data <- get_default item "course" (VDict []) ;;
  get_default course_data "rating" VNone.

(** How an attempt of the edX fetch can end: with a decoded body; with a
    timeout, of the request or of the decoding; with the status 429; or
    with anything else, which is every other status, every other exception
    and a body that cannot be decoded. *)
Definition succeeded (r : post_result) (v : value) : Prop :=
  r = Response 200 (Ok v).

Definition timed_out (r : post_result) : Prop :=
  r = Failed TimeoutException \/ r = Response 200 (Raise TimeoutException).

Definition rate_limited (r : post_result) : Prop :=
  exists json, r = Response 429 json.

Definition fatal (r : post_result) : Prop :=
  match r with
  | Failed e => e <> TimeoutException
  | Response status_code json =>
      if status_code =? 200
      then exists e, json = Raise e /\ e <> TimeoutException
      else status_code <> 429
  end.

(** Exponential backoff in the words of the specification: the pause
    before the retry that follows attempt [attempt], from a base. *)
Definition exponential_backoff (base attempt : Z) : Z := base * 2 ^ attempt.

(** An edX answer whose hits are [hits], and a hit that has a title, a
    link and an owner. *)
Definition edx_answer (hits : list value) : value :=
  VDict [("results", VList [VDict [("hits", VList hits)]])].

Definition edx_plain_hit (t link owner : string) : value :=
  VDict [("title", VStr t); ("marketing_url", VStr link);
         ("owners", VList [VDict [("name", VStr owner)]])].

(** The rationals that are doubles: a significand of 53 binary digits at
    most and an exponent within the range of the format.  [max_double] is
    the largest of them. *)
Definition is_double (q : Q) : Prop :=
  exists m e : Z,
    Z.abs m < 2 ^ 53 /\ -1074 <= e <= 971 /\ (q == inject_Z m * pow2 e)%Q.

Definition max_double : Q := inject_Z (2 ^ 53 - 1) * pow2 971.

(** Whether the courses of an answer are those of the outcome of the call:
    the list returned, or none after an exception. *)
Definition delivered (r : outcome (list CourseSchema)) (cs : list CourseSchema) : Prop :=
  match r with
  | Ok l => cs = l
  | Raise _ => cs = []
  end.

(** A duration as YouTube writes it, [PT#H#M#S], each part being optional. *)
Definition duration_part (n : option Z) (unit_letter : string) : string :=
  match n with
  | Some z => str_of_Z z ++ unit_letter
  | None => ""
  end.

Definition iso_duration (h m s : option Z) : string :=
  "PT" ++ duration_part h "H" ++ duration_part m "M" ++ duration_part s "S".

(** A duration as the specification has it shown: hours and minutes when
    there are hours, else minutes when there are minutes, else seconds. *)
Definition readable_duration (h m s : Z) : string :=
  if 0 <? h then str_of_Z h ++ "h " ++ str_of_Z m ++ "m"
  else if 0 <? m then str_of_Z m ++ "m"
  else str_of_Z s ++ "s".

Definition part_value (n : option Z) : Z :=
  match n with
  | Some z => z
  | None => 0
  end.

Definition part_ok (n : option Z) : Prop :=
  match n with
  | Some z => 0 <= z
  | None => True
  end.

(** The number that a run of decimal digits denotes, read from the left
    with [acc] for what was read before. *)
Fixpoint uint_value (acc : Z) (d : Decimal.uint) : Z :=
  match d with
  | Decimal.Nil => acc
  | Decimal.D0 l => uint_value (10 * acc + 0) l
  | Decimal.D1 l => uint_value (10 * acc + 1) l
  | Decimal.D2 l => uint_value (10 * acc + 2) l
  | Decimal.D3 l => uint_value (10 * acc + 3) l
  | Decimal.D4 l => uint_value (10 * acc + 4) l
  | Decimal.D5 l => uint_value (10 * acc + 5) l
  | Decimal.D6 l => uint_value (10 * acc + 6) l
  | Decimal.D7 l => uint_value (10 * acc + 7) l
  | Decimal.D8 l => uint_value (10 * acc + 8) l
  | Decimal.D9 l => uint_value (10 * acc + 9) l
  end.

Fixpoint all_digits (s : string) : bool :=
  match s with
  | EmptyString => true
  | String c r => is_digit c && all_digits r
  end.

(** Whether [s] is empty or begins with something else than a digit. *)
Definition no_digit_ahead (s : string) : bool :=
  match s with
  | EmptyString => true
  | String c _ => negb (is_digit c)
  end.

(** The url of the thumbnail of a given size, among the thumbnails of a
    YouTube snippet; the first true value of three, or the third; and
    whether the thumbnail of a size is missing or is a dict. *)
Definition thumbnail_url (th : list (string * value)) (size : string) : value :=
  match lookup size th with
  | Some (VDict x) => dict_get "url" x VNone
  | _ => VNone
  end.

Definition first_truthy (a b c : value) : value :=
  if truthy a then a else if truthy b then b else c.

Definition size_ok (th : list (string * value)) (size : string) : Prop :=
  match lookup size th with
  | None | Some (VDict _) => True
  | Some _ => False
  end.

(** The request that [get_edx_courses] has [fetch_edx_courses] send, and
    the one that [get_youtube_courses] has [fetch_youtube_courses] send. *)
Definition edx_request_sent (query lang : string) (num_items : Z) : edx_request :=
  mkEdxRequest
    (if Nat.eqb (String.length lang) 2 then LANGUAGE_MAP (lower lang) else lang)
    (Z.max 1 (Z.min num_items 50))
    (strip query).

Definition youtube_request_sent (query lang : string) (num_items : Z)
  : youtube_search_request :=
  mkYoutubeSearch
    (Z.max 1 (Z.min num_items 50))
    (strip query ++ " "
       ++ LANGUAGE_TERMS (if String.eqb lang "" then "en" else lower lang)).

(* ================================================================== *)
(** ** Sample upstream data *)

(** The no-break space U+00A0 and the ideographic space U+3000. *)
Definition nbsp : string := bytes [194; 160]%nat.
Definition ideographic_space : string := bytes [227; 128; 128]%nat.

(** Two Coursera hits, the first of them without a name. *)
Definition coursera_nameless_batch : value :=
  coursera_response
    [VDict [("url", VStr "/learn/algebra")];
     VDict [("name", VStr "Logic"); ("url", VStr "/learn/logic")]].

(** Two Udemy results, the first of them without a title. *)
Definition udemy_untitled_batch : value :=
  udemy_response
    [VDict [("course", VDict
       [("urlCourseLanding", VStr "https://www.udemy.com/course/algebra/");
        ("images", VDict [("px240x135", VStr "https://img-c.udemycdn.com/a.jpg")]);
        ("rating", VDict [("average", VFloat (9 # 2)); ("count", VInt 12)])])];
     VDict [("course", VDict
       [("title", VStr "Logic");
        ("urlCourseLanding", VStr "https://www.udemy.com/course/logic/");
        ("images", VDict [("px240x135", VStr "https://img-c.udemycdn.com/l.jpg")]);
        ("rating", VDict [("average", VFloat (4 # 1)); ("count", VInt 3)])])]].

(** Two edX hits and two YouTube videos of the same kind. *)
Definition edx_untitled_batch : value :=
  VDict [("results", VList [VDict [("hits", VList
    [VDict [("marketing_url", VStr "https://www.edx.org/learn/algebra");
            ("owners", VList [VDict [("name", VStr "MITx")]])];
     VDict [("title", VStr "Logic");
            ("marketing_url", VStr "https://www.edx.org/learn/logic");
            ("owners", VList [VDict [("name", VStr "MITx")]])]])]])].

Definition youtube_untitled_batch : value :=
  VDict [("items", VList
    [VDict [("id", VStr "a1");
            ("snippet", VDict [("publishedAt", VStr "2023-05-01T10:00:00")])];
     VDict [("id", VStr "b2");
            ("snippet", VDict [("title", VStr "Logic");
                               ("publishedAt", VStr "2023-05-01T10:00:00")])]])].

(** A Coursera hit whose name is the empty string, and a YouTube video
    whose title is made of spaces. *)
Definition coursera_empty_name_batch : value :=
  coursera_response [VDict [("name", VStr ""); ("url", VStr "/learn/algebra")]].

Definition youtube_blank_title_batch : value :=
  VDict [("items", VList
    [VDict [("id", VStr "a1");
            ("snippet", VDict [("title", VStr "   ");
                               ("publishedAt", VStr "2023-05-01T10:00:00")])]])].

(** A Coursera hit whose arrays of partners are empty. *)
Definition coursera_no_partner_batch : value :=
  coursera_response
    [VDict [("name", VStr "Algebra"); ("url", VStr "/learn/algebra");
            ("partners", VList []); ("partnerLogos", VList [])]].

(** A Udemy course, to which [updatedOn] is added or not.  Its average
    rating is 4.666666666666667, the double nearest to 14/3. *)
Definition udemy_algebra : list (string * value) :=
  [("title", VStr "Algebra");
   ("urlCourseLanding", VStr "https://www.udemy.com/course/algebra/");
   ("images", VDict [("px240x135", VStr "https://img-c.udemycdn.com/a.jpg")]);
   ("durationInSeconds", VInt 5400);
   ("rating", VDict [("average", VFloat (5254199565265579 # 1125899906842624));
                     ("count", VInt 12)])].

Definition udemy_dated_batch : value :=
  udemy_response [VDict [("course", VDict (("updatedOn", VStr "2024-05-01") :: udemy_algebra))]].

Definition udemy_undated_batch : value :=
  udemy_response [VDict [("course", VDict udemy_algebra)]].

(** A YouTube video without [publishedAt]. *)
Definition youtube_undated_batch : value :=
  VDict [("items", VList
    [VDict [("id", VStr "a1"); ("snippet", VDict [("title", VStr "Algebra")])]])].

(** Two Udemy results: the first has a rating, the second has none; and
    the same two the other way round. *)
Definition udemy_logic_unrated : value :=
  VDict [("course", VDict
    [("title", VStr "Logic");
     ("urlCourseLanding", VStr "https://www.udemy.com/course/logic/");
     ("images", VDict [])])].

Definition udemy_rated_then_unrated : value :=
  udemy_response [VDict [("course", VDict udemy_algebra)]; udemy_logic_unrated].

Definition udemy_unrated_then_rated : value :=
  udemy_response [udemy_logic_unrated; VDict [("course", VDict udemy_algebra)]].

(** An edX endpoint that answers 429 once and then 200 with [data]; one
    that never answers in time. *)
Definition edx_busy_once (data : value) : edx_request -> Z -> post_result :=
  fun _ attempt => if attempt =? 0 then Response 429 (Ok VNone) else Response 200 (Ok data).

Definition edx_silent : edx_request -> Z -> post_result :=
  fun _ _ => Failed TimeoutException.

Definition edx_one_hit : value :=
  VDict [("results", VList [VDict [("hits", VList
    [VDict [("title", VStr "Logic");
            ("marketing_url", VStr "https://www.edx.org/learn/logic");
            ("owners", VList [VDict [("name", VStr "MITx")]])]])]])].

(** An edX hit with every field that [parse_edx_response] reads, and one
    without owners. *)
Definition edx_rich_hit : value :=
  VDict [("title", VStr (" Logic" ++ nbsp));
         ("marketing_url", VStr "https://www.edx.org/learn/logic");
         ("weeks_to_complete", VInt 6);
         ("level", VList [VStr "Introductory"]);
         ("owners", VList [VDict [("name", VStr "MITx");
                                  ("logoImageUrl", VStr "https://www.edx.org/mitx.png")]]);
         ("skills", VList [VDict [("skill", VStr "Proof")];
                           VDict [("skill", VStr "Sets")]])].

Definition edx_ownerless_hit : list (string * value) :=
  [("title", VStr "Sets"); ("marketing_url", VStr "https://www.edx.org/learn/sets")].

(** A YouTube video with its details, the answer that holds it, and the
    answer of a search that found it. *)
Definition youtube_snippet : list (string * value) :=
  [("title", VStr (ideographic_space ++ "Algebra "));
   ("channelTitle", VStr "Open Lectures");
   ("publishedAt", VStr "2023-05-01T10:00:00");
   ("thumbnails", VDict
      [("default", VDict [("url", VStr "https://i.ytimg.com/vi/a1/default.jpg")]);
       ("medium", VDict [("url", VStr "https://i.ytimg.com/vi/a1/mqdefault.jpg")])])].

Definition youtube_rich_video : list (string * value) :=
  [("id", VStr "a1");
   ("snippet", VDict youtube_snippet);
   ("contentDetails", VDict [("duration", VStr "PT1H5M")])].

Definition youtube_details : value :=
  VDict [("items", VList [VDict youtube_rich_video])].

Definition youtube_found : value :=
  VDict [("items", VList [VDict [("id", VDict [("videoId", VStr "a1")])]])].

(** A Udemy result and a Coursera hit with the fields that the parsers
    read. *)
Definition udemy_rich_result : value :=
  VDict [("course", VDict
    (("title", VStr (nbsp ++ "Algebra" ++ ideographic_space))
     :: ("level", VStr "ALL_LEVELS")
     :: ("instructors", VList [VDict [("name", VStr "Ann Lee")]])
     :: ("learningOutcomes", VList [VStr "Groups"; VStr "Rings"])
     :: udemy_algebra))].

Definition coursera_rich_hit : list (string * value) :=
  [("name", VStr "Logic"); ("url", VStr "/learn/logic");
   ("productDifficultyLevel", VStr "BEGINNER");
   ("productDuration", VStr "ONE_TO_THREE_MONTHS");
   ("partners", VList [VStr "Stanford"]);
   ("partnerLogos", VList [VStr "https://www.coursera.org/stanford.png"])].

(** [raise_for_status] that raises outside 200..299, and a Coursera
    endpoint that answers 200 with one hit. *)
Definition outside_2xx (status_code : Z) : bool :=
  negb ((200 <=? status_code) && (status_code <=? 299)).

Definition coursera_up : coursera_request -> post_result :=
  fun _ => Response 200 (Ok (VList [coursera_response [VDict coursera_rich_hit]])).

(* ================================================================== *)
(** ** Properties *)

(** *** The error monad and the schema *)

Lemma bind_Ok_inv {A B : Type} (m : outcome A) (k : A -> outcome B) (b : B) :
  bind m k = Ok b -> exists a, m = Ok a /\ k a = Ok b.
Proof.
  destruct m as [a | e]; simpl; intros H; [eauto | discriminate].
Qed.

(** Splits a hypothesis [x <- m ;; k = Ok b] into [m = Ok x] and
    [k x = Ok b]. *)
Ltac bind_inv H :=
  let x := fresh "x" in
  let Hx := fresh "Hx" in
  apply bind_Ok_inv in H; destruct H as (x & Hx & H).

Section SchemaFacts.

Context {L : Library}.

Lemma field_Ok_inv {A : Type} (check : value -> option A) (v : value) (a : A) :
  field check v = Ok a -> check v = Some a.
Proof.
  unfold field; destruct (check v); intros H; inversion H; reflexivity.
Qed.

(** A record that was built has passed the validation of each field. *)
Lemma new_CourseSchema_inv t u i du p pi di a c s extra r :
  new_CourseSchema t u i du p pi di a c s extra = Ok r ->
  validate_str t = Some (title r) /\
  validate_url u = Some (url r) /\
  optional validate_url i = Some (image_url r) /\
  optional validate_str du = Some (duration r) /\
  optional validate_str p = Some (provider r) /\
  optional validate_url pi = Some (provider_img r) /\
  optional validate_str di = Some (difficulty r) /\
  optional validate_float a = Some (avg_rating r) /\
  optional validate_int c = Some (count_rating r) /\
  optional validate_str_list s = Some (skills r).
Proof.
  unfold new_CourseSchema; intros H.
  do 10 (bind_inv H; match goal with Hf : field _ _ = Ok _ |- _ =>
                       apply field_Ok_inv in Hf end).
  inversion H; subst; simpl.
  repeat split; assumption.
Qed.

(** The url of a record is not empty. *)
Lemma new_CourseSchema_url t u i du p pi di a c s extra r :
  new_CourseSchema t u i du p pi di a c s extra = Ok r ->
  url r <> "".
Proof.
  intros H; apply new_CourseSchema_inv in H.
  destruct H as (_ & Hu & _).
  exact (validate_url_nonempty _ _ Hu).
Qed.

Lemma optional_str (s : string) : optional validate_str (VStr s) = Some (Some s).
Proof. simpl; rewrite validate_str_str; reflexivity. Qed.

End SchemaFacts.

(** *** Coursera *)

Section CourseraFacts.

Context {L : Library}.

Lemma round_half_even_int (z : Z) : round_half_even (inject_Z z * 10) = z * 10.
Proof.
  unfold round_half_even.
  assert (E : (inject_Z z * 10 == inject_Z (z * 10))%Q).
  { unfold Qeq, inject_Z, Qmult; simpl; lia. }
  assert (F : Qfloor (inject_Z z * 10) = z * 10).
  { rewrite (Qfloor_comp _ _ E); apply Qfloor_Z. }
  rewrite F.
  assert (C : (inject_Z z * 10 - inject_Z (z * 10) ?= 1 # 2)%Q = Lt).
  { rewrite <- Qlt_alt. rewrite E. unfold Qlt, Qminus, Qplus, Qopp, inject_Z; simpl; lia. }
  rewrite C; reflexivity.
Qed.

(** Rounding a whole number leaves it as it is. *)
Lemma round1_int (z : Z) : (inject_Z z == round1 (inject_Z z))%Q.
Proof.
  unfold round1; rewrite round_half_even_int.
  unfold Qeq, inject_Z; simpl; lia.
Qed.

(** What [round(v, 1)] hands to the schema, and what the schema keeps. *)
Lemma rounded_rating (v w : value) (a : option Q) :
  py_round1 v = Ok w ->
  optional validate_float w = Some a ->
  (forall x, v = VFloat x -> a = Some (to_double (round1 x))) /\
  (forall z, v = VInt z -> Z.abs z <= 2 ^ 53 -> a = Some (inject_Z z)).
Proof.
  intros Hr Hv; split.
  - intros x ->; cbn [py_round1] in Hr; injection Hr as <-.
    cbn [optional option_map] in Hv.
    rewrite validate_float_float in Hv; now injection Hv as <-.
  - intros z -> B; cbn [py_round1] in Hr; injection Hr as <-.
    cbn [optional option_map] in Hv.
    rewrite (validate_float_int z B) in Hv; now injection Hv as <-.
Qed.

(** The statements of the loop body that can fail, and the validation that
    ends it, for a course that was built. *)
Lemma coursera_course_inv (d : list (string * value)) (c : CourseSchema) :
  coursera_course (VDict d) = Ok c ->
  exists difficulty duration avg_rating provider provider_img,
    (let v := dict_get "productDifficultyLevel" d VNone in
     if truthy v then str_method lower v else Ok VNone) = Ok difficulty /\
    (let v := dict_get "productDuration" d VNone in
     if truthy v
     then x <- str_method lower v ;; str_method replace_underscore x
     else Ok v) = Ok duration /\
    (match dict_get "avgProductRating" d VNone with
     | VNone => Ok VNone
     | _ => py_round1 (dict_get "avgProductRating" d VNone)
     end) = Ok avg_rating /\
    index0 (dict_get "partners" d (VList [VNone])) = Ok provider /\
    index0 (dict_get "partnerLogos" d (VList [VNone])) = Ok provider_img /\
    new_CourseSchema (dict_get "name" d VNone)
      (let url_path := dict_get "url" d VNone in
       if truthy url_path
       then VStr ("https://www.coursera.org" ++ py_str url_path) else VNone)
      (dict_get "imageUrl" d VNone) duration provider provider_img difficulty
      avg_rating (dict_get "numProductRatings" d VNone)
      (dict_get "skills" d VNone) [] = Ok c.
Proof.
  intros H.
  unfold coursera_course, get, get_default in H; cbn [bind] in H.
  do 5 bind_inv H.
  do 5 eexists; repeat split; eassumption.
Qed.

Lemma coursera_rating (d : list (string * value)) (c : CourseSchema) (v : value) :
  coursera_course (VDict d) = Ok c ->
  lookup "avgProductRating" d = Some v ->
  (forall x, v = VFloat x -> avg_rating c = Some (to_double (round1 x))) /\
  (forall z, v = VInt z -> Z.abs z <= 2 ^ 53 -> avg_rating c = Some (inject_Z z)).
Proof.
  intros H Hv.
  apply coursera_course_inv in H.
  destruct H as (di & du & a & p & pi & _ & _ & Ha & _ & _ & H).
  apply new_CourseSchema_inv in H.
  unfold dict_get in Ha; rewrite Hv in Ha.
  destruct v; try (split; intros; discriminate);
    apply (rounded_rating _ a _ Ha); tauto.
Qed.

(** The url, the difficulty, the duration and the provider of a Coursera
    course, when the item has them as text: the url is what the schema makes
    of the path appended to the address of the site. *)
Lemma coursera_mapping (d : list (string * value)) (c : CourseSchema) :
  coursera_course (VDict d) = Ok c ->
  (forall path, lookup "url" d = Some (VStr path) -> path <> "" ->
     validate_url (VStr ("https://www.coursera.org" ++ path)) = Some (url c)) /\
  (forall level, lookup "productDifficultyLevel" d = Some (VStr level) ->
     level <> "" -> difficulty c = Some (lower level)) /\
  (forall text, lookup "productDuration" d = Some (VStr text) ->
     text <> "" -> duration c = Some (replace_underscore (lower text))) /\
  (forall name others, lookup "partners" d = Some (VList (VStr name :: others)) ->
     provider c = Some name) /\
  (forall logo others, lookup "partnerLogos" d = Some (VList (VStr logo :: others)) ->
     exists u, validate_url (VStr logo) = Some u /\ provider_img c = Some u) /\
  (lookup "partners" d = None -> provider c = None) /\
  (lookup "partnerLogos" d = None -> provider_img c = None).
Proof.
  intros H.
  apply coursera_course_inv in H.
  destruct H as (di & du & a & p & pi & Hdi & Hdu & _ & Hp & Hpi & H).
  apply new_CourseSchema_inv in H.
  destruct H as (_ & Hurl & _ & Vdu & Vp & Vpi & Vdi & _).
  unfold dict_get in *; cbv zeta in *.
  split; [| repeat split].
  - intros path E N; rewrite E in Hurl; cbn [truthy py_str] in Hurl.
    apply String.eqb_neq in N; rewrite N in Hurl; exact Hurl.
  - intros level E N; rewrite E in Hdi; simpl in Hdi.
    apply String.eqb_neq in N; rewrite N in Hdi; simpl in Hdi.
    injection Hdi as <-. rewrite optional_str in Vdi; now inversion Vdi.
  - intros text E N; rewrite E in Hdu; simpl in Hdu.
    apply String.eqb_neq in N; rewrite N in Hdu; simpl in Hdu.
    injection Hdu as <-. rewrite optional_str in Vdu; now inversion Vdu.
  - intros name others E; rewrite E in Hp; simpl in Hp.
    injection Hp as <-. rewrite optional_str in Vp; now inversion Vp.
  - intros logo others E; rewrite E in Hpi; simpl in Hpi.
    injection Hpi as <-.
    simpl in Vpi. destruct (validate_url (VStr logo)) as [u |] eqn:V; [| discriminate].
    exists u; split; [reflexivity | now inversion Vpi].
  - intros E; rewrite E in Hp; simpl in Hp.
    injection Hp as <-. simpl in Vp; now inversion Vp.
  - intros E; rewrite E in Hpi; simpl in Hpi.
    injection Hpi as <-. simpl in Vpi; now inversion Vpi.
Qed.

Lemma coursera_loop_spec (l : list value) (acc rs : list CourseSchema) :
  coursera_loop l acc = Ok rs ->
  exists cs, rs = (acc ++ cs)%list /\
    Forall2 (fun item c => coursera_course item = Ok c) (filter is_dict l) cs.
Proof.
  revert acc; induction l as [| item l IH]; intros acc H; simpl in H.
  - inversion H; subst; exists []; split; [now rewrite app_nil_r | constructor].
  - simpl; destruct (is_dict item); simpl in H.
    + bind_inv H. destruct (IH _ H) as (cs & -> & F).
      exists (x :: cs); split; [now rewrite <- app_assoc | now constructor].
    + apply IH; assumption.
Qed.

(** Every course in the answer of [parse_coursera_response] was built by
    the loop body from a dict among the elements. *)
Lemma parse_coursera_courses (data : value) (rs : list CourseSchema) (c : CourseSchema) :
  parse_coursera_response data = Ok rs -> In c rs ->
  exists l d, coursera_elements data = Ok (VList l) /\ In (VDict d) l /\
    coursera_course (VDict d) = Ok c.
Proof.
  unfold parse_coursera_response; intros H Hc.
  destruct (coursera_elements data) as [elements | e].
  - destruct elements; try (inversion H; subst; contradiction).
    apply coursera_loop_spec in H; destruct H as (cs & -> & F); simpl in Hc.
    assert (G : forall items, Forall2 (fun item c => coursera_course item = Ok c) items cs ->
                exists item, In item items /\ coursera_course item = Ok c).
    { clear F; induction cs as [| c' cs IH]; [contradiction |].
      intros items F; inversion F; subst; destruct Hc as [-> | Hc].
      - eexists; split; [left; reflexivity | assumption].
      - destruct (IH Hc _ H3) as (item & Hi & Hb).
        exists item; split; [right |]; assumption. }
    destruct (G _ F) as (item & Hi & Hb).
    apply filter_In in Hi; destruct Hi as [Hi Hd].
    destruct item; try discriminate.
    exists l, d; auto.
  - destruct e; inversion H; subst; contradiction.
Qed.

End CourseraFacts.

(** *** Udemy *)

Section UdemyFacts.

Context {L : Library}.

Lemma udemy_course_inv (locals locals' : udemy_locals) (item : value) (c : CourseSchema) :
  udemy_course locals item = Ok (locals', c) ->
  exists f, udemy_read locals item = Ok f /\ udemy_build f = Ok c /\ locals' = ud_locals f.
Proof.
  unfold udemy_course; intros H.
  do 2 bind_inv H. inversion H; subst; eauto.
Qed.

(** The statements of the loop body, one by one, when none of them raises. *)
Lemma udemy_read_inv (locals : udemy_locals) (item : value) (f : udemy_fields) :
  udemy_read locals item = Ok f ->
  exists cd,
    get_default item "course" (VDict []) = Ok (VDict cd) /\
    ud_course_data f = VDict cd /\
    udemy_duration (dict_get "durationInSeconds" cd VNone) = Ok (ud_duration f) /\
    (let p := dict_get "instructors" cd VNone in
     if truthy p then p0 <- index0 p ;; get p0 "name" else Ok p) = Ok (ud_provider f) /\
    (let v := dict_get "level" cd VNone in
     if truthy v
     then x <- str_method lower v ;; str_method replace_underscore x
     else Ok v) = Ok (ud_difficulty f) /\
    (let rating := dict_get "rating" cd VNone in
     if truthy rating
     then average <- get rating "average" ;;
          avg <- py_round1 average ;;
          count <- get rating "count" ;;
          Ok (mkUdemyLocals (Some avg) (Some count))
     else Ok locals) = Ok (ud_locals f) /\
    (let v := dict_get "updatedOn" cd VNone in
     if truthy v then py_strptime v else Ok v) = Ok (ud_course_date f).
Proof.
  unfold udemy_read; intros H.
  bind_inv H.
  destruct x as [| | | | | | cd |]; try discriminate.
  unfold get_default in H; cbn [bind] in H.
  do 5 bind_inv H.
  inversion H; subst; simpl.
  exists cd; repeat split; assumption.
Qed.

Lemma udemy_build_inv (f : udemy_fields) (cd : list (string * value)) (c : CourseSchema) :
  ud_course_data f = VDict cd ->
  udemy_build f = Ok c ->
  exists title images avg_rating count_rating,
    str_method strip (dict_get "title" cd VNone) = Ok title /\
    get (dict_get "images" cd VNone) "px240x135" = Ok images /\
    udemy_avg_rating (ud_locals f) = Some avg_rating /\
    udemy_count_rating (ud_locals f) = Some count_rating /\
    new_CourseSchema title (dict_get "urlCourseLanding" cd VNone) images
      (ud_duration f) (ud_provider f) VNone (ud_difficulty f)
      avg_rating count_rating (dict_get "learningOutcomes" cd VNone)
      [("course_date", ud_course_date f)] = Ok c.
Proof.
  unfold udemy_build; intros -> H.
  do 8 bind_inv H.
  injection Hx as <-; injection Hx1 as <-; injection Hx2 as <-; injection Hx6 as <-.
  destruct (udemy_avg_rating (ud_locals f)); [| discriminate].
  destruct (udemy_count_rating (ud_locals f)); [| discriminate].
  injection Hx4 as <-; injection Hx5 as <-.
  do 4 eexists; repeat split; eassumption.
Qed.

(** The ratings of a course that was built are the locals [avg_rating]
    and [count_rating] as the iteration left them. *)
Lemma udemy_course_ratings (locals locals' : udemy_locals) (item : value) (c : CourseSchema) :
  udemy_course locals item = Ok (locals', c) ->
  exists a k,
    udemy_avg_rating locals' = Some a /\ udemy_count_rating locals' = Some k /\
    optional validate_float a = Some (avg_rating c) /\
    optional validate_int k = Some (count_rating c).
Proof.
  intros H; apply udemy_course_inv in H; destruct H as (f & Hr & Hb & ->).
  apply udemy_read_inv in Hr; destruct Hr as (cd & _ & Hcd & _).
  destruct (udemy_build_inv _ _ _ Hcd Hb) as (t & i & a & k & _ & _ & Ha & Hk & Hn).
  apply new_CourseSchema_inv in Hn.
  exists a, k; tauto.
Qed.

(** The assignment of the two locals, in terms of the rating object. *)
Lemma udemy_read_locals (locals : udemy_locals) (item : value) (f : udemy_fields) (r : value) :
  udemy_read locals item = Ok f ->
  udemy_rating item = Ok r ->
  (if truthy r
   then average <- get r "average" ;;
        avg <- py_round1 average ;;
        count <- get r "count" ;;
        Ok (mkUdemyLocals (Some avg) (Some count))
   else Ok locals) = Ok (ud_locals f).
Proof.
  intros Hr Hi; apply udemy_read_inv in Hr.
  destruct Hr as (cd & Hc & _ & _ & _ & _ & Hl & _).
  unfold udemy_rating in Hi; rewrite Hc in Hi; simpl in Hi.
  injection Hi as <-; exact Hl.
Qed.

(** An item without a rating leaves the two locals as they were. *)
Lemma udemy_no_rating_locals (locals locals' : udemy_locals) (item r : value) (c : CourseSchema) :
  udemy_course locals item = Ok (locals', c) ->
  udemy_rating item = Ok r -> truthy r = false ->
  locals' = locals.
Proof.
  intros H Hi Hf; apply udemy_course_inv in H; destruct H as (f & Hr & _ & ->).
  pose proof (udemy_read_locals _ _ _ _ Hr Hi) as Hl.
  rewrite Hf in Hl; now inversion Hl.
Qed.

(** With both locals unbound and no rating in the item, no course is
    built. *)
Lemma udemy_first_without_rating (item r : value) :
  udemy_rating item = Ok r -> truthy r = false ->
  exists e, udemy_course (mkUdemyLocals None None) item = Raise e.
Proof.
  intros Hi Hf.
  destruct (udemy_course (mkUdemyLocals None None) item) as [[locals' c] | e] eqn:H;
    [| eauto].
  pose proof (udemy_no_rating_locals _ _ _ _ _ H Hi Hf) as ->.
  apply udemy_course_ratings in H; destruct H as (a & k & Ha & _); discriminate.
Qed.

(** The exception is the one of the unbound local when the statements
    before its use go through. *)
Lemma udemy_unbound_local (item r : value) (f : udemy_fields)
  (cd images : list (string * value)) (t : string) :
  udemy_read (mkUdemyLocals None None) item = Ok f ->
  udemy_rating item = Ok r -> truthy r = false ->
  ud_course_data f = VDict cd ->
  lookup "title" cd = Some (VStr t) ->
  lookup "images" cd = Some (VDict images) ->
  udemy_course (mkUdemyLocals None None) item = Raise NameError.
Proof.
  intros Hr Hi Hf Hcd Ht Him.
  pose proof (udemy_read_locals _ _ _ _ Hr Hi) as Hl.
  rewrite Hf in Hl; injection Hl as Hl.
  unfold udemy_course; rewrite Hr; cbn [bind].
  unfold udemy_build; rewrite Hcd, <- Hl.
  unfold get, get_default, dict_get; rewrite Ht, Him; reflexivity.
Qed.

Lemma udemy_loop_raise (item : value) (rest : list value) (locals : udemy_locals)
  (acc : list CourseSchema) (e : exn) :
  is_dict item = true ->
  udemy_course locals item = Raise e ->
  udemy_loop (item :: rest) locals acc = Raise e.
Proof.
  intros Hd H; simpl; rewrite Hd, H; reflexivity.
Qed.

Lemma udemy_loop_spec (l : list value) (locals : udemy_locals) (acc rs : list CourseSchema) :
  udemy_loop l locals acc = Ok rs ->
  exists cs, rs = (acc ++ cs)%list /\
    forall c, In c cs ->
      exists item before after, In item l /\ is_dict item = true /\
        udemy_course before item = Ok (after, c).
Proof.
  revert locals acc; induction l as [| item l IH]; intros locals acc H; simpl in H.
  - inversion H; subst; exists []; split; [now rewrite app_nil_r | contradiction].
  - destruct (is_dict item) eqn:Hd; simpl in H.
    + bind_inv H. destruct x as [locals' c']; simpl in H.
      destruct (IH _ _ H) as (cs & -> & F).
      exists (c' :: cs); split; [now rewrite <- app_assoc |].
      intros c [<- | Hc].
      * exists item, locals, locals'; simpl; auto.
      * destruct (F c Hc) as (i & b & a & Hi & Hdi & Hb).
        exists i, b, a; simpl; auto.
    + destruct (IH _ _ H) as (cs & -> & F).
      exists cs; split; [reflexivity |].
      intros c Hc; destruct (F c Hc) as (i & b & a & Hi & Hdi & Hb).
      exists i, b, a; simpl; auto.
Qed.

(** Every course in the answer of [parse_udemy_response] was built by the
    loop body from a dict among the elements. *)
Lemma parse_udemy_courses (data : value) (rs : list CourseSchema) (c : CourseSchema) :
  parse_udemy_response data = Ok rs -> In c rs ->
  exists l item before after, udemy_elements data = Ok (VList l) /\ In item l /\
    udemy_course before item = Ok (after, c).
Proof.
  unfold parse_udemy_response; intros H Hc.
  destruct (udemy_elements data) as [elements | e].
  - destruct elements; try (inversion H; subst; contradiction).
    apply udemy_loop_spec in H; destruct H as (cs & -> & F); simpl in Hc.
    destruct (F c Hc) as (i & b & a & Hi & _ & Hb).
    exists l, i, b, a; auto.
  - destruct e; inversion H; subst; contradiction.
Qed.

(** The rating of a Udemy course whose item carries one. *)
Lemma udemy_rating_rounded (locals locals' : udemy_locals) (item : value)
  (c : CourseSchema) (r : list (string * value)) (v : value) :
  udemy_course locals item = Ok (locals', c) ->
  udemy_rating item = Ok (VDict r) ->
  lookup "average" r = Some v ->
  (forall x, v = VFloat x -> avg_rating c = Some (to_double (round1 x))) /\
  (forall z, v = VInt z -> Z.abs z <= 2 ^ 53 -> avg_rating c = Some (inject_Z z)).
Proof.
  intros H Hi Hv.
  destruct (udemy_course_ratings _ _ _ _ H) as (a & k & Ha & _ & Va & _).
  apply udemy_course_inv in H; destruct H as (f & Hr & _ & ->).
  pose proof (udemy_read_locals _ _ _ _ Hr Hi) as Hl.
  assert (T : truthy (VDict r) = true) by (destruct r; [discriminate | reflexivity]).
  rewrite T in Hl; unfold get, get_default, dict_get in Hl; rewrite Hv in Hl.
  cbn [bind] in Hl. bind_inv Hl. injection Hl as Hl.
  rewrite <- Hl in Ha; simpl in Ha; injection Ha as <-.
  exact (rounded_rating v x _ Hx Va).
Qed.

(** The duration of a Udemy course whose item gives it as a number of
    seconds other than zero. *)
Lemma udemy_duration_format (locals locals' : udemy_locals) (item : value)
  (c : CourseSchema) (cd : list (string * value)) (seconds : Z) :
  udemy_course locals item = Ok (locals', c) ->
  get_default item "course" (VDict []) = Ok (VDict cd) ->
  lookup "durationInSeconds" cd = Some (VInt seconds) ->
  seconds <> 0 ->
  duration c =
    Some (str_of_Z (seconds / 3600) ++ "h " ++ str_of_Z (seconds mod 3600 / 60) ++ "m").
Proof.
  intros H Hc Hs Hn.
  apply udemy_course_inv in H; destruct H as (f & Hr & Hb & ->).
  apply udemy_read_inv in Hr; destruct Hr as (cd' & Hc' & Hcd & Hdu & _).
  rewrite Hc in Hc'; injection Hc' as <-.
  destruct (udemy_build_inv _ _ _ Hcd Hb) as (t & i & a & k & _ & _ & _ & _ & Hnew).
  apply new_CourseSchema_inv in Hnew; destruct Hnew as (_ & _ & _ & Vdu & _).
  unfold dict_get in Hdu; rewrite Hs in Hdu.
  unfold udemy_duration in Hdu; simpl in Hdu.
  apply Z.eqb_neq in Hn; rewrite Hn in Hdu; simpl in Hdu.
  injection Hdu as Hdu; rewrite <- Hdu in Vdu.
  rewrite optional_str in Vdu; now inversion Vdu.
Qed.

End UdemyFacts.

(** *** The router *)

Section RouterFacts.

Variable W : Type.
Variables cs ed ud yt : string -> string -> Z -> awaited W.

(** The four calls are made one after the other, each from the state the
    one before left, and their outcomes are put together. *)
Lemma search_courses_run (q : string) (lang : Language) (n : Z) (w w1 w2 w3 w4 : W)
  (r1 r2 r3 r4 : outcome (list CourseSchema)) :
  strip q <> "" ->
  cs (strip q) (lang_codes lang "coursera") n w = (r1, w1) ->
  ed (strip q) (lang_codes lang "edx") n w1 = (r2, w2) ->
  ud (strip q) (lang_codes lang "udemy") n w2 = (r3, w3) ->
  yt (strip q) (Language_value lang) n w3 = (r4, w4) ->
  search_courses cs ed ud yt q lang n w =
    (Ok (mkSearchResponse
       [("coursera", mkPlatformResult (try_except r1 (fun _ => []))
           ("https://coursera.org/search?query=" ++ quote (strip q)
              ++ "&language=" ++ lang_codes lang "coursera"));
        ("edx", mkPlatformResult (try_except r2 (fun _ => []))
           ("https://www.edx.org/search?q=" ++ quote (strip q)
              ++ "&language=" ++ lang_codes lang "edx" ++ "&availability=Available+now"));
        ("udemy", mkPlatformResult (try_except r3 (fun _ => []))
           ("https://www.udemy.com/courses/search/?lang=" ++ lang_codes lang "udemy"
              ++ "&price=price-free&q=" ++ quote (strip q)));
        ("youtube", mkPlatformResult (try_except r4 (fun _ => []))
           ("https://www.youtube.com/results?search_query=" ++ quote (strip q)
              ++ "+" ++ lang_codes lang "youtube"))]),
     w4).
Proof.
  intros Hq H1 H2 H3 H4.
  unfold search_courses, guarded.
  apply String.eqb_neq in Hq; rewrite Hq.
  rewrite H1, H2, H3, H4; reflexivity.
Qed.

End RouterFacts.

(** *** Stripping *)

Lemma rstrip_idempotent (s : string) : rstrip (rstrip s) = rstrip s.
Proof.
  induction s as [| c r IH]; [reflexivity |].
  cbn [rstrip].
  destruct (is_space (String c (rstrip r))) eqn:E; [reflexivity |].
  cbn [rstrip]; rewrite IH, E; reflexivity.
Qed.

Lemma lstrip_fixed (s : string) : space_width s = 0%nat -> lstrip s = s.
Proof.
  destruct s as [| a [| b [| c r3]]]; cbn [space_width lstrip]; intros H;
    repeat match goal with
           | |- context [if is_space ?x then _ else _] =>
               destruct (is_space x); try discriminate
           end; reflexivity.
Qed.

Lemma lstrip_width (s : string) : space_width (lstrip s) = 0%nat.
Proof.
  remember (String.length s) as n eqn:Hn.
  assert (Hle : (String.length s <= n)%nat) by (subst; auto).
  clear Hn; revert s Hle.
  induction n as [| n IH]; intros s Hle.
  - destruct s; [reflexivity | cbn in Hle; lia].
  - destruct s as [| a r1]; [reflexivity |].
    cbn [String.length] in Hle.
    cbn [lstrip].
    destruct (is_space (String a "")) eqn:E1; [apply IH; lia |].
    destruct r1 as [| b r2]; [cbn [space_width]; now rewrite E1 |].
    cbn [String.length] in Hle.
    destruct (is_space (String a (String b ""))) eqn:E2; [apply IH; lia |].
    destruct r2 as [| c r3]; [cbn [space_width]; now rewrite E1, E2 |].
    cbn [String.length] in Hle.
    destruct (is_space (String a (String b (String c "")))) eqn:E3; [apply IH; lia |].
    cbn [space_width]; now rewrite E1, E2, E3.
Qed.

Lemma rstrip_cons_inv (s : string) (c : ascii) (r' : string) :
  rstrip s = String c r' -> exists r, s = String c r /\ r' = rstrip r.
Proof.
  destruct s as [| a r]; cbn [rstrip]; [discriminate |].
  destruct (is_space (String a (rstrip r))); [discriminate |].
  intros [= -> <-]; eauto.
Qed.

Lemma rstrip_width (s : string) : space_width s = 0%nat -> space_width (rstrip s) = 0%nat.
Proof.
  destruct s as [| a r1]; [reflexivity |].
  intros H; cbn [rstrip].
  destruct (is_space (String a (rstrip r1))) eqn:E; [reflexivity |].
  cbn [space_width] in H |- *.
  destruct (is_space (String a "")); [discriminate |].
  destruct (rstrip r1) as [| b r2'] eqn:R1; [reflexivity |].
  apply rstrip_cons_inv in R1; destruct R1 as (r2 & -> & ->).
  destruct (is_space (String a (String b ""))); [discriminate |].
  destruct (rstrip r2) as [| c r3'] eqn:R2; [reflexivity |].
  apply rstrip_cons_inv in R2; destruct R2 as (r3 & -> & ->).
  destruct (is_space (String a (String b (String c "")))); [discriminate | reflexivity].
Qed.

Lemma strip_idempotent (s : string) : strip (strip s) = strip s.
Proof.
  unfold strip.
  rewrite (lstrip_fixed (rstrip (lstrip s))).
  - apply rstrip_idempotent.
  - apply rstrip_width, lstrip_width.
Qed.

(** Stripping removes the white space at either end, whatever its number
    of bytes. *)
Lemma rstrip_space (s w : string) : is_space w = true -> rstrip (s ++ w) = rstrip s.
Proof.
  intros Hw; induction s as [| c r IH]; cbn [append rstrip].
  - unfold is_space, white_space in Hw; cbn [map existsb] in Hw.
    repeat (apply orb_true_iff in Hw; destruct Hw as [Hw | Hw];
            [apply String.eqb_eq in Hw; subst w; reflexivity |]).
    discriminate.
  - now rewrite IH.
Qed.

Lemma lstrip_space (w s : string) : is_space w = true -> lstrip (w ++ s) = lstrip s.
Proof.
  intros Hw.
  unfold is_space, white_space in Hw; cbn [map existsb] in Hw.
  repeat (apply orb_true_iff in Hw; destruct Hw as [Hw | Hw];
          [apply String.eqb_eq in Hw; subst w; reflexivity |]).
  discriminate.
Qed.

(** *** edX *)

Section EdxFacts.

Context {L : Library}.
Variable post : edx_request -> Z -> post_result.

Lemma attempts_made_app (l l' : list edx_event) :
  attempts_made (l ++ l') = attempts_made l + attempts_made l'.
Proof.
  induction l as [| [a | t] l IH]; cbn [attempts_made app]; lia.
Qed.

Lemma attempts_made_nonneg (l : list edx_event) : 0 <= attempts_made l.
Proof.
  induction l as [| [a | t] l IH]; cbn [attempts_made]; lia.
Qed.

(** Each attempt still to come adds at most one request. *)
Lemma edx_attempts_bound (req : edx_request) (attempts : list Z) (log : list edx_event) :
  attempts_made (snd (edx_attempts post req attempts log))
    <= attempts_made log + Z.of_nat (length attempts).
Proof.
  revert log; induction attempts as [| attempt rest IH]; intros log.
  - simpl; lia.
  - assert (Hlog : attempts_made (log ++ [Post attempt]) = attempts_made log + 1)
      by (rewrite attempts_made_app; reflexivity).
    assert (Hrec : forall t,
      attempts_made (snd (edx_attempts post req rest ((log ++ [Post attempt]) ++ [Sleep t])))
        <= attempts_made log + Z.of_nat (length (attempt :: rest))).
    { intros t; etransitivity; [apply IH |].
      rewrite attempts_made_app, Hlog; simpl attempts_made.
      change (length (attempt :: rest)) with (S (length rest)); lia. }
    assert (Hstop : attempts_made (log ++ [Post attempt])
                      <= attempts_made log + Z.of_nat (length (attempt :: rest))).
    { rewrite Hlog; change (length (attempt :: rest)) with (S (length rest)); lia. }
    assert (Hh : forall e,
      attempts_made (snd (match e with
        | TimeoutException =>
            if attempt <? MAX_RETRIES
            then edx_attempts post req rest ((log ++ [Post attempt]) ++ [Sleep 1])
            else (VNone, (log ++ [Post attempt])%list)
        | _ => (VNone, (log ++ [Post attempt])%list)
        end)) <= attempts_made log + Z.of_nat (length (attempt :: rest))).
    { intros e; destruct e; try exact Hstop.
      destruct (attempt <? MAX_RETRIES); [apply Hrec | exact Hstop]. }
    cbn [edx_attempts].
    destruct (post req attempt) as [status json | e]; [| apply Hh].
    destruct (status =? 200).
    + destruct json as [v | e]; [exact Hstop | apply Hh].
    + destruct (status =? 429); [| exact Hstop].
      destruct (attempt <? MAX_RETRIES); [apply Hrec | exact Hstop].
Qed.

(** No more than [MAX_RETRIES + 1] requests are sent. *)
Lemma fetch_edx_attempts (query lang : string) (n : Z) :
  attempts_made (snd (fetch_edx_courses post query lang n)) <= MAX_RETRIES + 1.
Proof.
  unfold fetch_edx_courses.
  destruct (String.eqb (strip query) ""); [simpl; unfold MAX_RETRIES; lia |].
  etransitivity; [apply edx_attempts_bound |]; reflexivity.
Qed.

End EdxFacts.

(** *** The date of a Udemy course *)

Section UdemyDate.

Context {L : Library}.

(** The keyword [course_date] is not a field of the schema: what is passed
    for it does not show in the record. *)
Lemma new_CourseSchema_extra t u i du p pi di a c s (extra extra' : list (string * value)) :
  new_CourseSchema t u i du p pi di a c s extra
  = new_CourseSchema t u i du p pi di a c s extra'.
Proof. reflexivity. Qed.

Lemma dict_get_other (k k' : string) (v : value) (d : list (string * value)) (default : value) :
  String.eqb k k' = false -> dict_get k ((k', v) :: d) default = dict_get k d default.
Proof.
  intros H; unfold dict_get; simpl; now rewrite H.
Qed.

Lemma dict_get_here (k : string) (v : value) (d : list (string * value)) (default : value) :
  dict_get k ((k, v) :: d) default = v.
Proof.
  unfold dict_get; simpl; now rewrite String.eqb_refl.
Qed.

(** An item with a date to parse yields what the same item without
    [updatedOn] yields. *)
Lemma udemy_date_dropped (locals : udemy_locals) (cd : list (string * value))
  (s : string) (d : date) :
  lookup "updatedOn" cd = None ->
  s <> "" ->
  strptime_ymd s = Some d ->
  udemy_course locals (VDict [("course", VDict (("updatedOn", VStr s) :: cd))])
  = udemy_course locals (VDict [("course", VDict cd)]).
Proof.
  intros Hn Hs Hd.
  assert (E : dict_get "updatedOn" cd VNone = VNone)
    by (unfold dict_get; now rewrite Hn).
  apply String.eqb_neq in Hs.
  unfold udemy_course, udemy_read; cbn [get_default bind].
  rewrite !dict_get_here; cbn [get_default bind].
  rewrite !(dict_get_other _ "updatedOn") by reflexivity.
  rewrite E, dict_get_here.
  destruct (udemy_duration _) as [du |]; [| reflexivity]; cbn [bind].
  destruct (if truthy (dict_get "instructors" cd VNone) then _ else _) as [pr |];
    [| reflexivity]; cbn [bind].
  destruct (if truthy (dict_get "level" cd VNone) then _ else _) as [di |];
    [| reflexivity]; cbn [bind].
  destruct (if truthy (dict_get "rating" cd VNone) then _ else _) as [lo |];
    [| reflexivity]; cbn [bind].
  cbn [truthy py_strptime]; rewrite Hs, Hd; cbn [negb bind].
  unfold udemy_build, get, get_default;
    cbn [ud_course_data ud_duration ud_provider ud_difficulty
         ud_locals ud_course_date bind].
  rewrite !(dict_get_other _ "updatedOn") by reflexivity.
  reflexivity.
Qed.

End UdemyDate.

(** *** The answer of the router *)

Lemma redirect_nonempty (prefix rest : string) : prefix <> "" -> prefix ++ rest <> "".
Proof.
  destruct prefix; [congruence | simpl; discriminate].
Qed.

(** C1. For a query that is not blank, [search_courses] returns its answer
    without raising, whatever the four calls do: the answer lists
    coursera, edx, udemy and youtube, in this order and nothing else; each
    entry has the courses the call returned, or none when the call raised;
    each entry has a redirect url that is not empty. *)
Theorem search_courses_complete (W : Type)
  (cs ed ud yt : string -> string -> Z -> awaited W)
  (q : string) (lang : Language) (n : Z) (w : W) :
  strip q <> "" ->
  exists r1 w1 r2 w2 r3 w3 r4 w4 p1 p2 p3 p4,
    cs (strip q) (lang_codes lang "coursera") n w = (r1, w1) /\
    ed (strip q) (lang_codes lang "edx") n w1 = (r2, w2) /\
    ud (strip q) (lang_codes lang "udemy") n w2 = (r3, w3) /\
    yt (strip q) (Language_value lang) n w3 = (r4, w4) /\
    search_courses cs ed ud yt q lang n w =
      (Ok (mkSearchResponse
             [("coursera", p1); ("edx", p2); ("udemy", p3); ("youtube", p4)]), w4) /\
    delivered r1 (courses p1) /\ delivered r2 (courses p2) /\
    delivered r3 (courses p3) /\ delivered r4 (courses p4) /\
    redirect_url p1 <> "" /\ redirect_url p2 <> "" /\
    redirect_url p3 <> "" /\ redirect_url p4 <> "".
Proof.
  intros Hq.
  destruct (cs (strip q) (lang_codes lang "coursera") n w) as [r1 w1] eqn:H1.
  destruct (ed (strip q) (lang_codes lang "edx") n w1) as [r2 w2] eqn:H2.
  destruct (ud (strip q) (lang_codes lang "udemy") n w2) as [r3 w3] eqn:H3.
  destruct (yt (strip q) (Language_value lang) n w3) as [r4 w4] eqn:H4.
  exists r1, w1, r2, w2, r3, w3, r4, w4.
  do 4 eexists.
  split; [reflexivity |]. split; [exact H2 |]. split; [exact H3 |]. split; [exact H4 |].
  split; [exact (search_courses_run W cs ed ud yt q lang n w w1 w2 w3 w4
                   r1 r2 r3 r4 Hq H1 H2 H3 H4) |].
  cbn [courses redirect_url].
  repeat split;
    try (match goal with |- delivered ?r _ => destruct r; reflexivity end);
    apply redirect_nonempty; discriminate.
Qed.

(** The same for the query " python" followed by a no-break space, in
    English, with a Coursera call and a Udemy call that raise. *)
Lemma search_courses_complete_witness :
  strip (" python" ++ nbsp) = "python" /\
  (exists resp,
     search_courses (fun _ _ _ => pure_call (Raise RequestError))
       (fun _ _ _ => pure_call (Ok [])) (fun _ _ _ => pure_call (Raise NameError))
       (fun _ _ _ => pure_call (Ok [])) (" python" ++ nbsp) ENGLISH 6 tt = (Ok resp, tt) /\
     map fst (results resp) = ["coursera"; "edx"; "udemy"; "youtube"]) /\
  search_courses (fun _ _ _ => pure_call (Raise RequestError))
    (fun _ _ _ => pure_call (Ok [])) (fun _ _ _ => pure_call (Raise NameError))
    (fun _ _ _ => pure_call (Ok [])) (" python" ++ nbsp) ENGLISH 6 tt
  = (Ok (mkSearchResponse
       [("coursera",
         mkPlatformResult [] "https://coursera.org/search?query=python&language=English");
        ("edx",
         mkPlatformResult []
           "https://www.edx.org/search?q=python&language=English&availability=Available+now");
        ("udemy",
         mkPlatformResult []
           "https://www.udemy.com/courses/search/?lang=EN&price=price-free&q=python");
        ("youtube",
         mkPlatformResult []
           "https://www.youtube.com/results?search_query=python+full+course")]), tt).
Proof.
  assert (Hq : strip (" python" ++ nbsp) <> "") by discriminate.
  split; [reflexivity |]. split; [| reflexivity].
  destruct (search_courses_complete unit
              (fun _ _ _ => pure_call (Raise RequestError))
              (fun _ _ _ => pure_call (Ok [])) (fun _ _ _ => pure_call (Raise NameError))
              (fun _ _ _ => pure_call (Ok [])) (" python" ++ nbsp) ENGLISH 6 tt Hq)
    as (r1 & w1 & r2 & w2 & r3 & w3 & r4 & w4 & p1 & p2 & p3 & p4 & _ & _ & _ & _ & H & _).
  destruct w4.
  eexists; split; [exact H | reflexivity].
Defined.

(** Each call begins when the one before it has come to its outcome. *)
Lemma search_courses_one_after_another (q : string) (lang : Language) (n t0 d1 d2 d3 d4 : Z)
  (r1 r2 r3 r4 : outcome (list CourseSchema)) :
  strip q <> "" ->
  snd (search_courses
         (fun _ _ _ => timed_call "coursera" d1 r1) (fun _ _ _ => timed_call "edx" d2 r2)
         (fun _ _ _ => timed_call "udemy" d3 r3) (fun _ _ _ => timed_call "youtube" d4 r4)
         q lang n (mkTimeline t0 []))
  = mkTimeline (t0 + d1 + d2 + d3 + d4)
      [("coursera", t0); ("edx", t0 + d1); ("udemy", t0 + d1 + d2);
       ("youtube", t0 + d1 + d2 + d3)].
Proof.
  intros Hq.
  erewrite search_courses_run; try reflexivity; assumption.
Qed.

(** C4. With calls that take 10, 20, 30 and 40 seconds, the edX call
    begins at second 10, the Udemy call at second 30 and the YouTube call at
    second 60, and the answer is there at second 100: the calls are made
    one after the other, not side by side. *)
Theorem search_courses_sequential :
  snd (search_courses
         (fun _ _ _ => timed_call "coursera" 10 (Ok []))
         (fun _ _ _ => timed_call "edx" 20 (Ok []))
         (fun _ _ _ => timed_call "udemy" 30 (Ok []))
         (fun _ _ _ => timed_call "youtube" 40 (Ok []))
         "python" ENGLISH 6 (mkTimeline 0 []))
  = mkTimeline 100 [("coursera", 0); ("edx", 10); ("udemy", 30); ("youtube", 60)].
Proof. reflexivity. Qed.

(** A call to Udemy that raises leaves the udemy entry without courses. *)
Lemma search_courses_udemy_raises (W : Type)
  (cs ed ud yt : string -> string -> Z -> awaited W)
  (q : string) (lang : Language) (n : Z) (w : W) (e : exn) :
  strip q <> "" ->
  (forall w', ud (strip q) (lang_codes lang "udemy") n w' = (Raise e, w')) ->
  exists resp w' url,
    search_courses cs ed ud yt q lang n w = (Ok resp, w') /\
    In ("udemy", mkPlatformResult [] url) (results resp).
Proof.
  intros Hq Hu.
  destruct (cs (strip q) (lang_codes lang "coursera") n w) as [r1 w1] eqn:H1.
  destruct (ed (strip q) (lang_codes lang "edx") n w1) as [r2 w2] eqn:H2.
  destruct (yt (strip q) (Language_value lang) n w2) as [r4 w4] eqn:H4.
  do 3 eexists; split.
  - exact (search_courses_run W cs ed ud yt q lang n w w1 w2 w2 w4
             r1 r2 (Raise e) r4 Hq H1 H2 (Hu w2) H4).
  - cbn [results try_except]; right; right; left; reflexivity.
Qed.

(** *** Items that cannot be mapped *)

Section Malformed.

Context {L : Library}.

Lemma Forall2_In_left {A B : Type} (P : A -> B -> Prop) (l : list A) (l' : list B) (a : A) :
  Forall2 P l l' -> In a l -> exists b, In b l' /\ P a b.
Proof.
  induction 1 as [| x y l l' Hxy F IH]; [contradiction |].
  intros [-> | Ha].
  - exists y; simpl; auto.
  - destruct (IH Ha) as (b & Hb & Pb); exists b; simpl; auto.
Qed.

(** A Coursera hit without a name makes [parse_coursera_response] raise,
    wherever it stands among the elements. *)
Lemma coursera_nameless_raises (data : value) (l : list value) (d : list (string * value)) :
  coursera_elements data = Ok (VList l) ->
  In (VDict d) l ->
  lookup "name" d = None ->
  exists e, parse_coursera_response data = Raise e.
Proof.
  intros He Hi Hn.
  destruct (parse_coursera_response data) as [rs | e] eqn:H; [| eauto].
  exfalso.
  unfold parse_coursera_response in H; rewrite He in H.
  apply coursera_loop_spec in H; destruct H as (cs & _ & F).
  assert (Hf : In (VDict d) (filter is_dict l)) by (apply filter_In; auto).
  destruct (Forall2_In_left _ _ _ _ F Hf) as (c & _ & Hc).
  apply coursera_course_inv in Hc.
  destruct Hc as (di & du & a & p & pi & _ & _ & _ & _ & _ & Hc).
  apply new_CourseSchema_inv in Hc; destruct Hc as (Ht & _).
  unfold dict_get in Ht; rewrite Hn, validate_str_None in Ht; discriminate.
Qed.

(** The url of every Coursera course and of every Udemy course is a text
    that is not empty. *)
Lemma coursera_url_nonempty (data : value) (rs : list CourseSchema) (c : CourseSchema) :
  parse_coursera_response data = Ok rs -> In c rs -> url c <> "".
Proof.
  intros H Hc.
  destruct (parse_coursera_courses _ _ _ H Hc) as (l & d & _ & _ & Hb).
  apply coursera_course_inv in Hb.
  destruct Hb as (di & du & a & p & pi & _ & _ & _ & _ & _ & Hn).
  now apply new_CourseSchema_url in Hn.
Qed.

Lemma udemy_url_nonempty (data : value) (rs : list CourseSchema) (c : CourseSchema) :
  parse_udemy_response data = Ok rs -> In c rs -> url c <> "".
Proof.
  intros H Hc.
  destruct (parse_udemy_courses _ _ _ H Hc) as (l & item & b & a & _ & _ & Hb).
  apply udemy_course_inv in Hb; destruct Hb as (f & Hr & Hb & _).
  apply udemy_read_inv in Hr; destruct Hr as (cd & _ & Hcd & _).
  destruct (udemy_build_inv _ _ _ Hcd Hb) as (t & i & av & k & _ & _ & _ & _ & Hn).
  now apply new_CourseSchema_url in Hn.
Qed.

Lemma udemy_loop_item (l : list value) (locals : udemy_locals)
  (acc rs : list CourseSchema) (item : value) :
  udemy_loop l locals acc = Ok rs -> In item l -> is_dict item = true ->
  exists before after c, udemy_course before item = Ok (after, c).
Proof.
  revert locals acc; induction l as [| x l IH]; intros locals acc H Hi Hd;
    [contradiction |].
  simpl in H; destruct Hi as [-> | Hi].
  - rewrite Hd in H; simpl in H. bind_inv H.
    destruct x as [after c]; eauto.
  - destruct (is_dict x); simpl in H.
    + bind_inv H. eapply IH; eassumption.
    + eapply IH; eassumption.
Qed.

(** A Udemy result without a title makes [parse_udemy_response] raise,
    wherever it stands among the elements. *)
Lemma udemy_untitled_raises (data : value) (l : list value) (item : value)
  (cd : list (string * value)) :
  udemy_elements data = Ok (VList l) ->
  In item l ->
  get_default item "course" (VDict []) = Ok (VDict cd) ->
  lookup "title" cd = None ->
  exists e, parse_udemy_response data = Raise e.
Proof.
  intros He Hi Hc Ht.
  destruct (parse_udemy_response data) as [rs | e] eqn:H; [| eauto].
  exfalso.
  unfold parse_udemy_response in H; rewrite He in H.
  assert (Hd : is_dict item = true) by (destruct item; try discriminate; reflexivity).
  destruct (udemy_loop_item _ _ _ _ _ H Hi Hd) as (b & a & c & Hb).
  apply udemy_course_inv in Hb; destruct Hb as (f & Hr & Hb & _).
  apply udemy_read_inv in Hr; destruct Hr as (cd' & Hc' & Hcd & _).
  rewrite Hc in Hc'; injection Hc' as <-.
  destruct (udemy_build_inv _ _ _ Hcd Hb) as (t & i & av & k & Hs & _).
  unfold dict_get in Hs; rewrite Ht in Hs; discriminate.
Qed.

(** A Coursera hit whose array of partners is empty yields no course. *)
Lemma coursera_empty_partners (d : list (string * value)) :
  lookup "partners" d = Some (VList []) ->
  exists e, coursera_course (VDict d) = Raise e.
Proof.
  intros Hp.
  destruct (coursera_course (VDict d)) as [c | e] eqn:H; [| eauto].
  apply coursera_course_inv in H.
  destruct H as (di & du & a & p & pi & _ & _ & _ & Hi & _).
  unfold dict_get in Hi; rewrite Hp in Hi; discriminate.
Qed.

(** C2. Of the two Coursera hits of [coursera_nameless_batch] the first has
    no name, and of the two Udemy results of [udemy_untitled_batch] the
    first has no title: [parse_coursera_response] and
    [parse_udemy_response] raise, and return no list of length one; the
    exception leaves [get_coursera_courses] and [get_udemy_courses]. *)
Theorem malformed_item_aborts_batch :
  parse_coursera_response coursera_nameless_batch = Raise ValidationError /\
  parse_udemy_response udemy_untitled_batch = Raise AttributeError /\
  get_coursera_courses (fun _ _ _ => Ok coursera_nameless_batch) "algebra" "English" 6
    = Raise ValidationError /\
  get_udemy_courses (fun _ _ _ => Ok udemy_untitled_batch) "algebra" "EN" 6
    = Raise AttributeError.
Proof.
  assert (H : parse_coursera_response coursera_nameless_batch = Raise ValidationError);
    [| split; [exact H |]; split; [reflexivity |]; split;
       [unfold get_coursera_courses; cbn [bind]; exact H | reflexivity]].
  unfold parse_coursera_response, coursera_nameless_batch, coursera_response.
  cbn [coursera_elements get_default dict_get lookup String.eqb Ascii.eqb Bool.eqb
       andb index0 bind coursera_loop is_dict negb].
  unfold coursera_course, new_CourseSchema, field.
  cbn [get get_default dict_get lookup String.eqb Ascii.eqb Bool.eqb andb bind truthy
       index0 negb].
  rewrite validate_str_None; reflexivity.
Qed.

(** C7. The hit of [coursera_no_partner_batch] has a name, a url and
    empty arrays of partners and of logos: [parse_coursera_response] raises
    [IndexError] on it, rather than to return a course without provider. *)
Theorem coursera_empty_partners_abort :
  parse_coursera_response coursera_no_partner_batch = Raise IndexError.
Proof. reflexivity. Qed.

End Malformed.

(** The parsers of edX and of YouTube pass over an item of that kind and
    keep the one after it (validation as in [reference_library]). *)
Lemma siblings_skip_item :
  length (parse_edx_response edx_untitled_batch) = 1%nat /\
  option_map (@length CourseSchema)
    (match parse_youtube_response youtube_untitled_batch with
     | Ok videos => Some videos
     | Raise _ => None
     end) = Some 1%nat.
Proof. split; reflexivity. Qed.

(** C3. The only hit of [coursera_empty_name_batch] has the empty string
    for a name, and the only video of [youtube_blank_title_batch] a title
    made of three spaces: each yields a course, whose title is empty
    (validation as in [reference_library]). *)
Theorem empty_title_included :
  parse_coursera_response coursera_empty_name_batch
    = Ok [mkCourse "" "https://www.coursera.org/learn/algebra"
            None None None None None None None None] /\
  parse_youtube_response youtube_blank_title_batch
    = Ok [mkCourse "" "https://youtube.com/watch?v=a1"
            None None None None None None None None].
Proof. split; reflexivity. Qed.

(** C8. A Udemy course with [updatedOn] yields the record that the same
    course without it yields, and that record has no field for a date; a
    YouTube video without [publishedAt], when it comes first, yields no
    record at all (validation and dates as in [reference_library]). *)
Theorem course_date_not_recorded :
  parse_udemy_response udemy_dated_batch = parse_udemy_response udemy_undated_batch /\
  parse_udemy_response udemy_dated_batch
    = Ok [mkCourse "Algebra" "https://www.udemy.com/course/algebra/"
            (Some "https://img-c.udemycdn.com/a.jpg") (Some "1h 30m")
            None None None (Some (to_double (47 # 10))) (Some 12) None] /\
  parse_youtube_response youtube_undated_batch = Ok [].
Proof. repeat split; reflexivity. Qed.

(** *** The two locals of the Udemy loop *)

Section UdemyLocals.

Context {L : Library}.

Lemma parse_udemy_response_loop (elements : list value) :
  parse_udemy_response (udemy_response elements)
  = udemy_loop elements (mkUdemyLocals None None) [].
Proof. reflexivity. Qed.

Lemma udemy_batch_aborted (item : value) (rest : list value) (r : value) :
  is_dict item = true ->
  udemy_rating item = Ok r -> truthy r = false ->
  exists e, parse_udemy_response (udemy_response (item :: rest)) = Raise e.
Proof.
  intros Hd Hr Hf.
  destruct (udemy_first_without_rating item r Hr Hf) as (e & He).
  exists e; rewrite parse_udemy_response_loop.
  now apply udemy_loop_raise.
Qed.

Lemma udemy_ratings_reused (l0 l1 l2 : udemy_locals) (item1 item2 r : value)
  (c1 c2 : CourseSchema) :
  udemy_course l0 item1 = Ok (l1, c1) ->
  udemy_course l1 item2 = Ok (l2, c2) ->
  udemy_rating item2 = Ok r -> truthy r = false ->
  avg_rating c2 = avg_rating c1 /\ count_rating c2 = count_rating c1 /\ l2 = l1.
Proof.
  intros H1 H2 Hr Hf.
  pose proof (udemy_no_rating_locals _ _ _ _ _ H2 Hr Hf) as ->.
  destruct (udemy_course_ratings _ _ _ _ H1) as (a & k & Ha & Hk & Va & Vk).
  destruct (udemy_course_ratings _ _ _ _ H2) as (a' & k' & Ha' & Hk' & Va' & Vk').
  rewrite Ha in Ha'; rewrite Hk in Hk'.
  injection Ha' as <-; injection Hk' as <-.
  rewrite Va in Va'; rewrite Vk in Vk'.
  injection Va' as <-; injection Vk' as <-; auto.
Qed.

(** C10, as amended. [avg_rating] and [count_rating] are assigned under
    [if rating:] only.  (1) When the first item of a batch has no rating,
    [parse_udemy_response] raises and returns no course of the batch;
    (2) the exception is the [NameError] of the unbound local when the
    statements before its use succeed; (3) [search_courses] then answers
    with no course for udemy; (4) an item without rating that comes after
    another gets the [avg_rating] and the [count_rating] of the course
    built before it. *)
Theorem udemy_rating_locals_leak :
  (forall item rest r,
     is_dict item = true -> udemy_rating item = Ok r -> truthy r = false ->
     exists e, parse_udemy_response (udemy_response (item :: rest)) = Raise e) /\
  (forall item rest r f cd images t,
     is_dict item = true -> udemy_rating item = Ok r -> truthy r = false ->
     udemy_read (mkUdemyLocals None None) item = Ok f ->
     ud_course_data f = VDict cd ->
     lookup "title" cd = Some (VStr t) ->
     lookup "images" cd = Some (VDict images) ->
     parse_udemy_response (udemy_response (item :: rest)) = Raise NameError) /\
  (forall (W : Type) (cs ed yt : string -> string -> Z -> awaited W)
          (fetch : string -> string -> Z -> outcome value) q lang n w item rest r,
     strip q <> "" ->
     is_dict item = true -> udemy_rating item = Ok r -> truthy r = false ->
     fetch (strip q) (lang_codes lang "udemy") n = Ok (udemy_response (item :: rest)) ->
     exists resp w' redirect,
       search_courses cs ed
         (fun query lang n => pure_call (get_udemy_courses fetch query lang n)) yt
         q lang n w = (Ok resp, w') /\
       In ("udemy", mkPlatformResult [] redirect) (results resp)) /\
  (forall l0 l1 l2 item1 item2 r c1 c2,
     udemy_course l0 item1 = Ok (l1, c1) ->
     udemy_course l1 item2 = Ok (l2, c2) ->
     udemy_rating item2 = Ok r -> truthy r = false ->
     avg_rating c2 = avg_rating c1 /\ count_rating c2 = count_rating c1).
Proof.
  split; [| split; [| split]].
  - intros item rest r; apply udemy_batch_aborted.
  - intros item rest r f cd images t Hd Hr Hf Hread Hcd Ht Hi.
    rewrite parse_udemy_response_loop; apply udemy_loop_raise; [assumption |].
    exact (udemy_unbound_local item r f cd images t Hread Hr Hf Hcd Ht Hi).
  - intros W cs ed yt fetch q lang n w item rest r Hq Hd Hr Hf Hfetch.
    destruct (udemy_batch_aborted item rest r Hd Hr Hf) as (e & He).
    apply (search_courses_udemy_raises W cs ed _ yt q lang n w e Hq).
    intros w'; unfold pure_call, get_udemy_courses; rewrite Hfetch; cbn [bind].
    now rewrite He.
  - intros l0 l1 l2 item1 item2 r c1 c2 H1 H2 Hr Hf.
    destruct (udemy_ratings_reused _ _ _ _ _ _ _ _ H1 H2 Hr Hf) as (Ha & Hc & _); auto.
Qed.

End UdemyLocals.

(** The two cases on the batches [udemy_unrated_then_rated] and
    [udemy_rated_then_unrated]. *)
Lemma udemy_rating_locals_leak_witness :
  parse_udemy_response udemy_unrated_then_rated = Raise NameError /\
  (exists c1 c2, parse_udemy_response udemy_rated_then_unrated = Ok [c1; c2] /\
     avg_rating c2 = avg_rating c1 /\ count_rating c2 = count_rating c1).
Proof.
  destruct (@udemy_rating_locals_leak reference_library) as (_ & Hname & _ & Hreuse).
  split.
  - eapply (Hname udemy_logic_unrated _ VNone); reflexivity.
  - destruct (udemy_course (mkUdemyLocals None None) (VDict [("course", VDict udemy_algebra)]))
      as [[l1 c1] | e] eqn:H1; [| discriminate].
    destruct (udemy_course l1 udemy_logic_unrated) as [[l2 c2] | e] eqn:H2.
    + exists c1, c2; split.
      * unfold udemy_rated_then_unrated; rewrite parse_udemy_response_loop.
        cbn [udemy_loop is_dict negb]; rewrite H1; cbn [bind fst snd].
        rewrite H2; reflexivity.
      * eapply (Hreuse _ l1 l2 _ udemy_logic_unrated VNone); try eassumption; reflexivity.
    + injection H1 as <- <-; discriminate.
Defined.

(** A first item without rating whose course has no title either: the
    exception is the [AttributeError] of [None.strip()], raised before the
    unbound local is read. *)
Lemma udemy_first_item_other_error :
  udemy_rating (VDict [("course", VDict [])]) = Ok VNone /\
  parse_udemy_response (udemy_response [VDict [("course", VDict [])]])
    = Raise AttributeError /\
  parse_udemy_response (udemy_response [VDict [("course", VDict [])]])
    <> Raise NameError.
Proof. split; [reflexivity | split; [reflexivity | discriminate]]. Qed.

(** *** The retries of the edX fetch *)

Section EdxRetry.

Context {L : Library}.
Variable post : edx_request -> Z -> post_result.

(** One turn of the loop of [fetch_edx_courses], by the way the attempt
    ends. *)
Lemma edx_attempt_succeeded (req : edx_request) (k : Z) (rest : list Z)
  (log : list edx_event) (v : value) :
  succeeded (post req k) v ->
  edx_attempts post req (k :: rest) log = (v, (log ++ [Post k])%list).
Proof.
  unfold succeeded; intros H; cbn [edx_attempts]; rewrite H; reflexivity.
Qed.

Lemma edx_attempt_fatal (req : edx_request) (k : Z) (rest : list Z) (log : list edx_event) :
  fatal (post req k) ->
  edx_attempts post req (k :: rest) log = (VNone, (log ++ [Post k])%list).
Proof.
  unfold fatal; intros H; cbn [edx_attempts].
  destruct (post req k) as [st j | e].
  - destruct (st =? 200).
    + destruct H as (e & -> & He); destruct e; try reflexivity; congruence.
    + apply Z.eqb_neq in H; rewrite H; reflexivity.
  - destruct e; try reflexivity; congruence.
Qed.

Lemma edx_attempt_timed_out (req : edx_request) (k : Z) (rest : list Z)
  (log : list edx_event) :
  timed_out (post req k) -> k < MAX_RETRIES ->
  edx_attempts post req (k :: rest) log
  = edx_attempts post req rest (log ++ [Post k; Sleep 1])%list.
Proof.
  intros H Hk; apply Z.ltb_lt in Hk; cbn [edx_attempts].
  replace (log ++ [Post k; Sleep 1])%list with ((log ++ [Post k]) ++ [Sleep 1])%list
    by (rewrite <- app_assoc; reflexivity).
  destruct H as [-> | ->]; cbn [Z.eqb Pos.eqb]; rewrite Hk; reflexivity.
Qed.

Lemma edx_attempt_rate_limited (req : edx_request) (k : Z) (rest : list Z)
  (log : list edx_event) :
  rate_limited (post req k) -> k < MAX_RETRIES ->
  edx_attempts post req (k :: rest) log
  = edx_attempts post req rest (log ++ [Post k; Sleep (2 ^ k)])%list.
Proof.
  intros (j & H) Hk; apply Z.ltb_lt in Hk; cbn [edx_attempts].
  replace (log ++ [Post k; Sleep (2 ^ k)])%list
    with ((log ++ [Post k]) ++ [Sleep (2 ^ k)])%list
    by (rewrite <- app_assoc; reflexivity).
  rewrite H; cbn [Z.eqb Pos.eqb]; rewrite Hk; reflexivity.
Qed.

(** The last turn: whatever is not a decoded body ends the fetch with
    [None]. *)
Lemma edx_attempt_last (req : edx_request) (log : list edx_event) :
  (forall v, ~ succeeded (post req MAX_RETRIES) v) ->
  edx_attempts post req [MAX_RETRIES] log = (VNone, (log ++ [Post MAX_RETRIES])%list).
Proof.
  unfold succeeded; intros H; cbn [edx_attempts].
  destruct (post req MAX_RETRIES) as [st j | e].
  - destruct (st =? 200) eqn:E.
    + apply Z.eqb_eq in E; subst st.
      destruct j as [v | e]; [now destruct (H v) |].
      destruct e; reflexivity.
    + destruct (st =? 429); reflexivity.
  - destruct e; reflexivity.
Qed.

(** An attempt ends in one of the four ways. *)
Lemma post_result_cases (r : post_result) :
  (exists v, succeeded r v) \/ fatal r \/ timed_out r \/ rate_limited r.
Proof.
  unfold succeeded, fatal, timed_out, rate_limited.
  destruct r as [st j | e].
  - destruct (st =? 200) eqn:E200.
    + apply Z.eqb_eq in E200; subst st.
      destruct j as [v | e]; [left; eauto |].
      destruct e; try (right; left; eexists; split; [reflexivity | discriminate]).
      right; right; left; right; reflexivity.
    + destruct (Z.eq_dec st 429) as [-> | N]; [right; right; right; eauto |].
      right; left; exact N.
  - destruct e; try (right; left; discriminate).
    right; right; left; left; reflexivity.
Qed.

Lemma fetch_edx_loop (query lang : string) (n : Z) :
  strip query <> "" ->
  fetch_edx_courses post query lang n
  = edx_attempts post (build_edx_request_body (strip query) lang n) [0; 1; 2] [].
Proof.
  intros Hq; unfold fetch_edx_courses.
  apply String.eqb_neq in Hq; rewrite Hq; reflexivity.
Qed.

(** [get_edx_courses] is the fetch of [edx_request_sent], followed by the
    parse of what it returns. *)
Lemma get_edx_courses_loop (query lang : string) (n : Z) :
  strip query <> "" ->
  get_edx_courses post query lang n
  = (let (raw_data, log) :=
       edx_attempts post (edx_request_sent query lang n) [0; 1; 2] [] in
     if negb (truthy raw_data) then ([], log) else (parse_edx_response raw_data, log)).
Proof.
  intros Hq; unfold get_edx_courses.
  pose proof Hq as Hq'; apply String.eqb_neq in Hq'; rewrite Hq'.
  rewrite fetch_edx_loop by (now rewrite strip_idempotent).
  unfold build_edx_request_body, MAX_ITEMS_LIMIT.
  rewrite !strip_idempotent.
  replace (Z.min (Z.max 1 (Z.min n 50)) 50) with (Z.max 1 (Z.min n 50)) by lia.
  reflexivity.
Qed.

(** The courses of an answer with one hit that has a title, a link and an
    owner. *)
Lemma parse_edx_plain_hit (t link u owner : string) :
  validate_url (VStr link) = Some u ->
  parse_edx_response (edx_answer [edx_plain_hit t link owner])
  = [mkCourse (strip t) u None None (Some owner) None None None None None].
Proof.
  intros Hu.
  unfold parse_edx_response, edx_answer, edx_plain_hit.
  cbn [truthy negb try_except get_default dict_get lookup String.eqb Ascii.eqb Bool.eqb
       bind index0 iterate edx_loop].
  unfold edx_course, edx_owner, get_default.
  cbn [dict_get lookup String.eqb Ascii.eqb Bool.eqb bind index0 truthy negb].
  unfold edx_build, get, get_default.
  cbn [dict_get lookup String.eqb Ascii.eqb Bool.eqb bind index0 truthy negb
       str_method read_local].
  unfold new_CourseSchema, field.
  rewrite validate_str_str, Hu; cbn [bind optional option_map].
  rewrite validate_str_str; reflexivity.
Qed.

(** C5, as amended.  [fetch_edx_courses] sends at most
    [MAX_RETRIES + 1 = 3] requests.  At each of the first two attempts a
    decoded body ends the fetch with that body, a timeout leads to the next
    attempt after one second (the same pause at either attempt), a status
    429 leads to it after [2 ** attempt] seconds (one second, then two), and
    anything else ends the fetch with [None]; at the third attempt a decoded
    body is returned and anything else ends the fetch with [None].  After
    three attempts that time out or are answered 429, [get_edx_courses]
    returns no course.  When the first answer is 429 and the second is 200
    with data, [get_edx_courses] returns the courses parsed from the second
    answer after two requests and a pause of one second: for data with one
    hit, the course of that hit.  [req] is the request of the fetch called
    on its own, [sent] the one that [get_edx_courses] has it send. *)
Theorem edx_retry_policy (query lang : string) (n : Z) :
  strip query <> "" ->
  let req := build_edx_request_body (strip query) lang n in
  let sent := edx_request_sent query lang n in
  let fetch := fetch_edx_courses post query lang n in
  let retried r := timed_out r \/ rate_limited r in
  attempts_made (snd fetch) <= 1 + 2 /\
  (forall v, succeeded (post req 0) v -> fetch = (v, [Post 0])) /\
  (fatal (post req 0) -> fetch = (VNone, [Post 0])) /\
  (retried (post req 0) ->
   (forall v, succeeded (post req 1) v -> fetch = (v, [Post 0; Sleep 1; Post 1])) /\
   (fatal (post req 1) -> fetch = (VNone, [Post 0; Sleep 1; Post 1])) /\
   (timed_out (post req 1) ->
    (forall v, succeeded (post req 2) v ->
       fetch = (v, [Post 0; Sleep 1; Post 1; Sleep 1; Post 2])) /\
    ((forall v, ~ succeeded (post req 2) v) ->
       fetch = (VNone, [Post 0; Sleep 1; Post 1; Sleep 1; Post 2]))) /\
   (rate_limited (post req 1) ->
    (forall v, succeeded (post req 2) v ->
       fetch = (v, [Post 0; Sleep 1; Post 1; Sleep 2; Post 2])) /\
    ((forall v, ~ succeeded (post req 2) v) ->
       fetch = (VNone, [Post 0; Sleep 1; Post 1; Sleep 2; Post 2])))) /\
  (retried (post sent 0) -> retried (post sent 2) ->
   (timed_out (post sent 1) ->
    get_edx_courses post query lang n
    = ([], [Post 0; Sleep 1; Post 1; Sleep 1; Post 2])) /\
   (rate_limited (post sent 1) ->
    get_edx_courses post query lang n
    = ([], [Post 0; Sleep 1; Post 1; Sleep 2; Post 2]))) /\
  (forall v,
     rate_limited (post sent 0) -> succeeded (post sent 1) v -> truthy v = true ->
     get_edx_courses post query lang n
       = (parse_edx_response v, [Post 0; Sleep 1; Post 1]) /\
     attempts_made (snd (get_edx_courses post query lang n)) = 2) /\
  (forall t link u owner,
     validate_url (VStr link) = Some u ->
     rate_limited (post sent 0) ->
     succeeded (post sent 1) (edx_answer [edx_plain_hit t link owner]) ->
     get_edx_courses post query lang n
       = ([mkCourse (strip t) u None None (Some owner) None None None None None],
          [Post 0; Sleep 1; Post 1])).
Proof.
  intros Hq req sent fetch retried.
  assert (F : fetch = edx_attempts post req [0; 1; 2] []) by (now apply fetch_edx_loop).
  assert (G := get_edx_courses_loop query lang n Hq); fold sent in G.
  assert (K0 : 0 < MAX_RETRIES) by reflexivity.
  assert (K1 : 1 < MAX_RETRIES) by reflexivity.
  assert (R0 : forall rq, retried (post rq 0) ->
            edx_attempts post rq [0; 1; 2] [] = edx_attempts post rq [1; 2] [Post 0; Sleep 1]).
  { intros rq [H | H].
    - now rewrite (edx_attempt_timed_out rq 0 _ _ H K0).
    - now rewrite (edx_attempt_rate_limited rq 0 _ _ H K0). }
  assert (T1 : forall rq log, timed_out (post rq 1) ->
            edx_attempts post rq [1; 2] log
            = edx_attempts post rq [2] (log ++ [Post 1; Sleep 1])%list).
  { intros rq log H; now rewrite (edx_attempt_timed_out rq 1 _ _ H K1). }
  assert (L1 : forall rq log, rate_limited (post rq 1) ->
            edx_attempts post rq [1; 2] log
            = edx_attempts post rq [2] (log ++ [Post 1; Sleep 2])%list).
  { intros rq log H; now rewrite (edx_attempt_rate_limited rq 1 _ _ H K1). }
  assert (N2 : forall rq, retried (post rq 2) -> forall v, ~ succeeded (post rq 2) v).
  { unfold succeeded; intros rq [[H | H] | (j & H)] v E; rewrite H in E; discriminate. }
  split; [apply fetch_edx_attempts |].
  split; [intros v H; rewrite F; exact (edx_attempt_succeeded req 0 _ [] v H) |].
  split; [intros H; rewrite F; exact (edx_attempt_fatal req 0 _ [] H) |].
  split; [| split; [| split]].
  - intros H0; rewrite F, (R0 req H0).
    split; [intros v H; exact (edx_attempt_succeeded req 1 _ [Post 0; Sleep 1] v H) |].
    split; [intros H; exact (edx_attempt_fatal req 1 _ [Post 0; Sleep 1] H) |].
    split; intros H1; [rewrite (T1 req _ H1) | rewrite (L1 req _ H1)]; cbn [app];
      (split; [intros v H; exact (edx_attempt_succeeded req 2 _ _ v H)
              | intros H; exact (edx_attempt_last req _ H)]).
  - intros H0 H2; rewrite G, (R0 sent H0).
    split; intros H1; [rewrite (T1 sent _ H1) | rewrite (L1 sent _ H1)]; cbn [app];
      rewrite (edx_attempt_last sent _ (N2 sent H2)); reflexivity.
  - intros v H0 H1 Hv; rewrite G, (R0 sent (or_intror H0)).
    rewrite (edx_attempt_succeeded sent 1 _ _ v H1), Hv; split; reflexivity.
  - intros t link u owner Hu H0 H1; rewrite G, (R0 sent (or_intror H0)).
    rewrite (edx_attempt_succeeded sent 1 _ _ _ H1).
    cbn [truthy negb edx_answer]; rewrite <- (parse_edx_plain_hit t link u owner Hu).
    reflexivity.
Qed.

End EdxRetry.

(** The retry that succeeds, on [edx_busy_once], and the one that gives
    up, on [edx_silent]. *)
Lemma edx_retry_policy_witness :
  strip " logic " <> "" /\
  get_edx_courses (edx_busy_once (edx_answer [edx_plain_hit "Logic"
                     "https://www.edx.org/learn/logic" "MITx"])) " logic " "en" 6
    = ([mkCourse "Logic" "https://www.edx.org/learn/logic" None None (Some "MITx")
          None None None None None],
       [Post 0; Sleep 1; Post 1]) /\
  get_edx_courses edx_silent " logic " "en" 6
    = ([], [Post 0; Sleep 1; Post 1; Sleep 1; Post 2]).
Proof.
  assert (Hq : strip " logic " <> "") by discriminate.
  split; [exact Hq |]. split.
  - destruct (@edx_retry_policy reference_library
                (edx_busy_once (edx_answer [edx_plain_hit "Logic"
                   "https://www.edx.org/learn/logic" "MITx"])) " logic " "en" 6 Hq)
      as (_ & _ & _ & _ & _ & _ & H).
    apply (H "Logic" "https://www.edx.org/learn/logic" "https://www.edx.org/learn/logic"
             "MITx"); [reflexivity | eexists; reflexivity | reflexivity].
  - destruct (@edx_retry_policy reference_library edx_silent " logic " "en" 6 Hq)
      as (_ & _ & _ & _ & H & _).
    destruct (H (or_introl (or_introl eq_refl)) (or_introl (or_introl eq_refl))) as [Ht _].
    exact (Ht (or_introl eq_refl)).
Defined.

(** The pauses after two timeouts are one second and one second, where a
    backoff that doubles from a base of one second has one second and two
    seconds. *)
Lemma edx_timeout_pause_constant :
  fetch_edx_courses edx_silent "logic" "English" 6
    = (VNone, [Post 0; Sleep 1; Post 1; Sleep 1; Post 2]) /\
  snd (fetch_edx_courses edx_silent "logic" "English" 6)
    <> [Post 0; Sleep (exponential_backoff 1 0); Post 1;
        Sleep (exponential_backoff 1 1); Post 2].
Proof. split; [reflexivity | discriminate]. Qed.

(** *** Rounding *)

Lemma round_half_even_near (y : Q) :
  (- (1 # 2) <= inject_Z (round_half_even y) - y <= 1 # 2)%Q.
Proof.
  unfold round_half_even.
  pose proof (Qfloor_le y) as Hlo.
  pose proof (Qlt_floor y) as Hhi.
  rewrite inject_Z_plus in Hhi. change (inject_Z 1) with 1%Q in Hhi.
  destruct (Qcompare (y - inject_Z (Qfloor y)) (1 # 2)) eqn:C.
  - apply Qeq_alt in C.
    destruct (Z.even (Qfloor y)).
    + lra.
    + rewrite inject_Z_plus. change (inject_Z 1) with 1%Q. lra.
  - apply Qlt_alt in C. lra.
  - apply Qgt_alt in C.
    rewrite inject_Z_plus. change (inject_Z 1) with 1%Q. lra.
Qed.

(** [round1 x] has one digit after the point and is a nearest such number
    to [x]. *)
Lemma round1_nearest (x : Q) :
  (exists k : Z, round1 x = Qmake k 10) /\ (Qabs (round1 x - x) <= 1 # 20)%Q.
Proof.
  split; [eexists; reflexivity |].
  apply Qabs_Qle_condition.
  unfold round1.
  pose proof (round_half_even_near (x * 10)) as H.
  rewrite (Qmake_Qdiv (round_half_even (x * 10)) 10).
  change (inject_Z (Z.pos 10)) with 10%Q.
  set (k := inject_Z (round_half_even (x * 10))) in *.
  assert (E : (k / 10 == k * (1 # 10))%Q) by (unfold Qdiv; reflexivity).
  rewrite E.
  lra.
Qed.

Lemma pow2_pos (e : Z) : (0 < pow2 e)%Q.
Proof. apply Qpower_0_lt; reflexivity. Qed.

Lemma pow2_add (a b : Z) : (pow2 (a + b) == pow2 a * pow2 b)%Q.
Proof. apply Qpower_plus; discriminate. Qed.

Lemma pow2_le (a b : Z) : a <= b -> (pow2 a <= pow2 b)%Q.
Proof. intros H; apply Qpower_le_compat_l; [exact H | discriminate]. Qed.

Lemma pow2_Z (e : Z) : 0 <= e -> (pow2 e == inject_Z (2 ^ e))%Q.
Proof. intros H; unfold pow2; now rewrite Zpower_Qpower. Qed.

(** [floor_log2 q] is the integer part of the binary logarithm of the
    magnitude of [q]. *)
Lemma floor_log2_spec (q : Q) :
  ~ (q == 0)%Q ->
  (pow2 (floor_log2 q) <= Qabs q)%Q /\ (Qabs q < pow2 (floor_log2 q + 1))%Q.
Proof.
  intros Hq.
  destruct q as [n d].
  assert (Hn : 0 < Z.abs n).
  { assert (n <> 0); [| lia].
    intros ->; apply Hq; reflexivity. }
  set (a := Z.log2 (Z.abs n)).
  set (b := Z.log2 (Z.pos d)).
  assert (Ha : 0 <= a) by apply Z.log2_nonneg.
  assert (Hb : 0 <= b) by apply Z.log2_nonneg.
  destruct (Z.log2_spec (Z.abs n) Hn) as [Ha1 Ha2]; fold a in Ha1, Ha2.
  destruct (Z.log2_spec (Z.pos d) eq_refl) as [Hb1 Hb2]; fold b in Hb1, Hb2.
  set (N := inject_Z (Z.abs n)).
  set (D := inject_Z (Z.pos d)).
  assert (HN1 : (pow2 a <= N)%Q) by (rewrite pow2_Z by lia; unfold N; now rewrite <- Zle_Qle).
  assert (HN2 : (N < pow2 (a + 1))%Q).
  { rewrite pow2_Z by lia; unfold N; rewrite <- Zlt_Qlt; replace (a + 1) with (Z.succ a) by lia; exact Ha2. }
  assert (HD1 : (pow2 b <= D)%Q) by (rewrite pow2_Z by lia; unfold D; now rewrite <- Zle_Qle).
  assert (HD2 : (D < pow2 (b + 1))%Q).
  { rewrite pow2_Z by lia; unfold D; rewrite <- Zlt_Qlt; replace (b + 1) with (Z.succ b) by lia; exact Hb2. }
  assert (HD : (0 < D)%Q) by (pose proof (pow2_pos b); lra).
  assert (E : (Qabs (n # d) == N / D)%Q).
  { unfold N, D; rewrite <- Qmake_Qdiv; reflexivity. }
  assert (Hup : (Qabs (n # d) < pow2 (a - b + 1))%Q).
  { rewrite E; apply Qlt_shift_div_r; [exact HD |].
    apply Qlt_le_trans with (pow2 (a + 1)); [exact HN2 |].
    replace (a + 1) with ((a - b + 1) + b) by lia.
    rewrite pow2_add.
    apply Qmult_le_l; [apply pow2_pos | exact HD1]. }
  assert (Hlo : (pow2 (a - b - 1) <= Qabs (n # d))%Q).
  { rewrite E; apply Qle_shift_div_l; [exact HD |].
    apply Qle_trans with (pow2 a); [| exact HN1].
    replace a with ((a - b - 1) + (b + 1)) at 2 by lia.
    rewrite pow2_add.
    apply Qmult_le_l; [apply pow2_pos | apply Qlt_le_weak; exact HD2]. }
  unfold floor_log2; cbn [Qnum Qden]; fold a b.
  destruct (Qle_bool (pow2 (a - b)) (Qabs (n # d))) eqn:C.
  - apply Qle_bool_iff in C; split; assumption.
  - split; [exact Hlo |].
    replace (a - b - 1 + 1) with (a - b) by lia.
    apply Qnot_le_lt; intros H; apply Qle_bool_iff in H; congruence.
Qed.

(** No integer is nearer to [y] than [round_half_even y]. *)
Lemma round_half_even_nearest (y : Q) (z : Z) :
  (Qabs (inject_Z (round_half_even y) - y) <= Qabs (inject_Z z - y))%Q.
Proof.
  pose proof (round_half_even_near y) as H.
  set (m := round_half_even y) in *.
  apply Qabs_Qle_condition.
  destruct (Z.lt_trichotomy z m) as [Hz | [-> | Hz]].
  - assert (Hq : (inject_Z z + 1 <= inject_Z m)%Q).
    { change 1%Q with (inject_Z 1); rewrite <- inject_Z_plus, <- Zle_Qle; lia. }
    rewrite Qabs_neg by lra. lra.
  - apply Qabs_Qle_condition, Qle_refl.
  - assert (Hq : (inject_Z m + 1 <= inject_Z z)%Q).
    { change 1%Q with (inject_Z 1); rewrite <- inject_Z_plus, <- Zle_Qle; lia. }
    rewrite Qabs_pos by lra. lra.
Qed.

Lemma to_double_eq (q : Q) :
  ~ (q == 0)%Q ->
  (to_double q == inject_Z (round_half_even (q / pow2 (ulp_exponent q))) * pow2 (ulp_exponent q))%Q.
Proof.
  intros Hq; unfold to_double.
  destruct (Qeq_bool q 0) eqn:E; [apply Qeq_bool_iff in E; contradiction |].
  apply Qred_correct.
Qed.

Lemma to_double_0 (q : Q) : (q == 0)%Q -> to_double q = 0%Q.
Proof.
  intros Hq; unfold to_double.
  apply Qeq_bool_iff in Hq; now rewrite Hq.
Qed.

(** Scaling by the unit in the last place. *)
Lemma scaled_diff (a q : Q) (e : Z) :
  (Qabs (a - q) == Qabs (a / pow2 e - q / pow2 e) * pow2 e)%Q.
Proof.
  pose proof (pow2_pos e) as Hp.
  rewrite <- (Qabs_pos (pow2 e)) at 3 by lra.
  rewrite <- Qabs_Qmult.
  apply Qabs_wd. field. lra.
Qed.

Lemma scaled_abs (q : Q) (e : Z) : (Qabs (q / pow2 e) == Qabs q / pow2 e)%Q.
Proof.
  pose proof (pow2_pos e) as Hp.
  unfold Qdiv; rewrite Qabs_Qmult, Qabs_Qinv, (Qabs_pos (pow2 e)) by lra.
  reflexivity.
Qed.

Lemma scaled_lower (q : Q) :
  ~ (q == 0)%Q -> -1074 < ulp_exponent q ->
  (pow2 52 <= Qabs (q / pow2 (ulp_exponent q)))%Q.
Proof.
  intros Hq He.
  destruct (floor_log2_spec q Hq) as [Hlo _].
  assert (E : ulp_exponent q = floor_log2 q - 52) by (unfold ulp_exponent in *; lia).
  rewrite scaled_abs, E.
  apply Qle_shift_div_l; [apply pow2_pos |].
  rewrite <- pow2_add.
  now replace (52 + (floor_log2 q - 52)) with (floor_log2 q) by lia.
Qed.

Lemma scaled_upper (q : Q) :
  ~ (q == 0)%Q -> (Qabs (q / pow2 (ulp_exponent q)) < pow2 53)%Q.
Proof.
  intros Hq.
  destruct (floor_log2_spec q Hq) as [_ Hhi].
  rewrite scaled_abs.
  apply Qlt_shift_div_r; [apply pow2_pos |].
  rewrite <- pow2_add.
  apply Qlt_le_trans with (1 := Hhi).
  apply pow2_le; unfold ulp_exponent; lia.
Qed.

Lemma pow2_52 : (pow2 52 == inject_Z (2 ^ 52))%Q.
Proof. apply pow2_Z; lia. Qed.

(** No double is nearer to [q] than [to_double q]. *)
Lemma to_double_nearest (q d : Q) :
  is_double d -> (Qabs (to_double q - q) <= Qabs (d - q))%Q.
Proof.
  intros (m' & e' & Hm' & He' & Hd).
  destruct (Qeq_dec q 0) as [Hq | Hq].
  - rewrite (to_double_0 q Hq), Hq.
    setoid_replace (0 - 0)%Q with 0%Q by ring.
    apply Qabs_nonneg.
  - set (e := ulp_exponent q).
    set (y := (q / pow2 e)%Q).
    pose proof (pow2_pos e) as Hp.
    rewrite (scaled_diff (to_double q) q e), (scaled_diff d q e).
    apply Qmult_le_compat_r; [| lra].
    fold y.
    assert (Et : (to_double q / pow2 e == inject_Z (round_half_even y))%Q).
    { rewrite (to_double_eq q Hq); fold e y. field. lra. }
    rewrite Et.
    destruct (Z_le_gt_dec e e') as [Hle | Hgt].
    + assert (Ed : (d / pow2 e == inject_Z (m' * 2 ^ (e' - e)))%Q).
      { rewrite Hd, inject_Z_mult, <- pow2_Z by lia.
        replace e' with ((e' - e) + e) at 1 by lia.
        rewrite pow2_add. field. lra. }
      rewrite Ed; apply round_half_even_nearest.
    + assert (Hy : (pow2 52 <= Qabs y)%Q) by (apply scaled_lower; [exact Hq | fold e; lia]).
      rewrite pow2_52 in Hy.
      set (t := (d / pow2 e)%Q).
      assert (Ht : (Qabs t < inject_Z (2 ^ 52))%Q).
      { unfold t; rewrite scaled_abs, Hd, Qabs_Qmult.
        rewrite (Qabs_pos (pow2 e')) by (pose proof (pow2_pos e'); lra).
        apply Qlt_shift_div_r; [exact Hp |].
        assert (Hm : (Qabs (inject_Z m') < inject_Z (2 ^ 53))%Q).
        { apply Qabs_Qlt_condition; split.
          - change (- inject_Z (2 ^ 53))%Q with (inject_Z (- 2 ^ 53)).
            rewrite <- Zlt_Qlt; lia.
          - rewrite <- Zlt_Qlt; lia. }
        assert (Hpe : (pow2 e' * 2 <= pow2 e)%Q).
        { apply Qle_trans with (pow2 (e' + 1)); [| apply pow2_le; lia].
          rewrite pow2_add; change (pow2 1) with 2%Q; apply Qle_refl. }
        pose proof (pow2_pos e') as Hp'.
        pose proof (Qabs_nonneg (inject_Z m')) as Hm0.
        change (inject_Z (2 ^ 53)) with (inject_Z (2 ^ 52) * 2)%Q in Hm.
        apply Qle_lt_trans with (Qabs (inject_Z m') * (pow2 e * (1 # 2)))%Q.
        - apply Qmult_le_compat_nonneg; [split; [exact Hm0 | apply Qle_refl] |].
          split; lra.
        - setoid_replace (inject_Z (2 ^ 52) * pow2 e)%Q
            with (inject_Z (2 ^ 52) * 2 * (pow2 e * (1 # 2)))%Q by ring.
          apply Qmult_lt_compat_r; [lra | exact Hm]. }
      apply Qabs_Qlt_condition in Ht.
      destruct (Qlt_le_dec y 0) as [Hneg | Hpos].
      * rewrite Qabs_neg in Hy by lra.
        pose proof (round_half_even_nearest y (- 2 ^ 52)) as Hn.
        change (inject_Z (- 2 ^ 52)) with (- inject_Z (2 ^ 52))%Q in Hn.
        rewrite (Qabs_pos (- inject_Z (2 ^ 52) - y)) in Hn by lra.
        rewrite (Qabs_pos (t - y)) by lra. lra.
      * rewrite Qabs_pos in Hy by lra.
        pose proof (round_half_even_nearest y (2 ^ 52)) as Hn.
        rewrite (Qabs_neg (inject_Z (2 ^ 52) - y)) in Hn by lra.
        rewrite (Qabs_neg (t - y)) by lra. lra.
Qed.

Lemma round_half_even_bound (y : Q) (k : Z) :
  (Qabs y <= inject_Z k)%Q -> Z.abs (round_half_even y) <= k.
Proof.
  intros H; apply Qabs_Qle_condition in H.
  pose proof (round_half_even_near y) as Hn.
  set (m := round_half_even y) in *.
  assert (H1 : (inject_Z m < inject_Z (k + 1))%Q)
    by (rewrite inject_Z_plus; change (inject_Z 1) with 1%Q; lra).
  assert (H2 : (inject_Z (- k - 1) < inject_Z m)%Q).
  { unfold Z.sub; rewrite inject_Z_plus, inject_Z_opp.
    change (inject_Z (- (1))) with (- (1))%Q; lra. }
  rewrite <- Zlt_Qlt in H1, H2; lia.
Qed.

Lemma round_half_even_bound_lt (y : Q) (k : Z) :
  (Qabs y < inject_Z k)%Q -> Z.abs (round_half_even y) <= k.
Proof. intros H; apply round_half_even_bound, Qlt_le_weak, H. Qed.

Lemma pow2_lt_inv (a b : Z) : (pow2 a < pow2 b)%Q -> a < b.
Proof. intros H; apply Qpower_lt_compat_l_inv in H; [exact H | reflexivity]. Qed.

Lemma max_double_lt : (max_double < pow2 1024)%Q.
Proof.
  unfold max_double.
  replace 1024 with (53 + 971) by lia.
  rewrite pow2_add, (pow2_Z 53) by lia.
  apply Qmult_lt_compat_r; [apply pow2_pos |].
  rewrite <- Zlt_Qlt; lia.
Qed.

(** [to_double q] is a double, for [q] within the range of the doubles. *)
Lemma to_double_is_double (q : Q) :
  (Qabs q <= max_double)%Q -> is_double (to_double q).
Proof.
  intros Hmax.
  destruct (Qeq_dec q 0) as [Hq | Hq].
  - rewrite (to_double_0 q Hq); exists 0, 0; repeat split; try lia; reflexivity.
  - set (e := ulp_exponent q).
    set (y := (q / pow2 e)%Q).
    set (m := round_half_even y).
    assert (Ed : (to_double q == inject_Z m * pow2 e)%Q) by apply (to_double_eq q Hq).
    pose proof (pow2_pos e) as Hp.
    destruct (floor_log2_spec q Hq) as [Hlo _].
    assert (Hfl : floor_log2 q < 1024).
    { apply pow2_lt_inv.
      apply Qle_lt_trans with (1 := Hlo), Qle_lt_trans with (1 := Hmax), max_double_lt. }
    assert (He : -1074 <= e <= 971) by (unfold e, ulp_exponent; lia).
    assert (Hy : (Qabs y < inject_Z (2 ^ 53))%Q).
    { rewrite <- pow2_Z by lia; apply scaled_upper, Hq. }
    assert (Hm : Z.abs m <= 2 ^ 53) by (apply round_half_even_bound_lt, Hy).
    destruct (Z.eq_dec (Z.abs m) (2 ^ 53)) as [Htop | Hlow].
    + assert (He' : e <> 971).
      { intros E971.
        assert (Hy' : (Qabs y <= inject_Z (2 ^ 53 - 1))%Q).
        { unfold y; rewrite scaled_abs.
          apply Qle_shift_div_r; [exact Hp |].
          unfold max_double in Hmax; fold e; rewrite E971; exact Hmax. }
        apply round_half_even_bound in Hy'; fold m in Hy'; lia. }
      exists (m / 2), (e + 1); repeat split; try lia.
      * apply Z.abs_lt; split.
        -- apply Z.lt_le_trans with (- 2 ^ 52); [lia |].
           apply Z.div_le_lower_bound; lia.
        -- apply Z.div_lt_upper_bound; lia.
      * rewrite Ed, pow2_add; change (pow2 1) with 2%Q.
        assert (Em : m = 2 * (m / 2)).
        { assert (m = 2 ^ 53 \/ m = - 2 ^ 53) as [-> | ->] by lia; reflexivity. }
        rewrite Em at 1; rewrite inject_Z_mult; change (inject_Z 2) with 2%Q; ring.
    + exists m, e; repeat split; try lia; exact Ed.
Qed.

Lemma is_double_bound (x : Q) : is_double x -> (Qabs x <= max_double)%Q.
Proof.
  intros (m & e & Hm & He & Hx).
  rewrite Hx, Qabs_Qmult, (Qabs_pos (pow2 e)) by (pose proof (pow2_pos e); lra).
  unfold max_double.
  apply Qmult_le_compat_nonneg; split.
  - apply Qabs_nonneg.
  - apply Qabs_Qle_condition; split.
    + rewrite <- inject_Z_opp, <- Zle_Qle; lia.
    + rewrite <- Zle_Qle; lia.
  - apply Qlt_le_weak, pow2_pos.
  - apply pow2_le; lia.
Qed.

Lemma round1_eq (x : Q) : (round1 x == inject_Z (round_half_even (x * 10)) * (1 # 10))%Q.
Proof.
  unfold round1; rewrite (Qmake_Qdiv _ 10).
  unfold Qdiv; reflexivity.
Qed.

(** Rounding to one decimal stays within the range of the doubles. *)
Lemma round1_bound (x : Q) : (Qabs x <= max_double)%Q -> (Qabs (round1 x) <= max_double)%Q.
Proof.
  intros H.
  assert (E : (max_double == inject_Z ((2 ^ 53 - 1) * 2 ^ 971))%Q).
  { unfold max_double; rewrite inject_Z_mult, pow2_Z by lia; reflexivity. }
  rewrite E in H |- *.
  set (M := (2 ^ 53 - 1) * 2 ^ 971) in *.
  assert (Hk : Z.abs (round_half_even (x * 10)) <= M * 10).
  { apply round_half_even_bound.
    rewrite Qabs_Qmult, inject_Z_mult.
    change (Qabs 10) with 10%Q; change (inject_Z 10) with 10%Q.
    apply Qmult_le_compat_r; [exact H | discriminate]. }
  rewrite round1_eq, Qabs_Qmult.
  change (Qabs (1 # 10)) with (1 # 10)%Q.
  set (k := round_half_even (x * 10)) in *.
  assert (Hq : (Qabs (inject_Z k) <= inject_Z (M * 10))%Q).
  { apply Qabs_Qle_condition; split.
    - rewrite <- inject_Z_opp, <- Zle_Qle; lia.
    - rewrite <- Zle_Qle; lia. }
  rewrite inject_Z_mult in Hq; change (inject_Z 10) with 10%Q in Hq.
  lra.
Qed.

(** *** Ratings *)

(** [round(x, 1)] for a double [x]: a double, and one that no double beats
    in nearness to the decimal with one digit after the point that is
    nearest to [x]. *)
Lemma float_round1_spec (x : Q) :
  is_double x ->
  is_double (to_double (round1 x)) /\
  exists k : Z,
    round1 x = k # 10 /\ (Qabs ((k # 10) - x) <= 1 # 20)%Q /\
    forall d, is_double d ->
      (Qabs (to_double (round1 x) - (k # 10)) <= Qabs (d - (k # 10)))%Q.
Proof.
  intros Hx; split.
  - apply to_double_is_double, round1_bound, is_double_bound, Hx.
  - exists (round_half_even (x * 10)); split; [reflexivity |]; split.
    + apply (round1_nearest x).
    + intros d Hd; apply (to_double_nearest (round1 x) d Hd).
Qed.

Section Ratings.

Context {L : Library}.

(** A Coursera hit with a name, a path and an average, and a Udemy
    result with a title, a link and an average, each yield a course. *)
Lemma coursera_rated_course (name path u : string) (x : Q) :
  path <> "" ->
  validate_url (VStr ("https://www.coursera.org" ++ path)) = Some u ->
  parse_coursera_response
    (coursera_response
       [VDict [("name", VStr name); ("url", VStr path); ("avgProductRating", VFloat x)]])
  = Ok [mkCourse name u None None None None None (Some (to_double (round1 x))) None None].
Proof.
  intros Hp Hu.
  destruct path as [| a p]; [contradiction |].
  unfold parse_coursera_response, coursera_response.
  cbn [coursera_elements get_default dict_get lookup String.eqb Ascii.eqb Bool.eqb bind index0
       coursera_loop is_dict negb].
  unfold coursera_course, get, get_default.
  cbn [dict_get lookup String.eqb Ascii.eqb Bool.eqb bind index0 truthy negb py_str
       py_round1 str_method].
  unfold new_CourseSchema, field.
  rewrite validate_str_str, Hu; cbn [bind optional].
  cbn [option_map]; rewrite validate_float_float; reflexivity.
Qed.

Lemma udemy_rated_course (t link u : string) (x : Q) :
  validate_url (VStr link) = Some u ->
  parse_udemy_response
    (udemy_response
       [VDict [("course", VDict [("title", VStr t); ("urlCourseLanding", VStr link);
                                 ("images", VDict []);
                                 ("rating", VDict [("average", VFloat x)])])]])
  = Ok [mkCourse (strip t) u None None None None None (Some (to_double (round1 x))) None None].
Proof.
  intros Hu.
  unfold parse_udemy_response, udemy_response.
  cbn [udemy_elements get_default dict_get lookup String.eqb Ascii.eqb Bool.eqb bind
       udemy_loop is_dict negb].
  unfold udemy_course, udemy_read, udemy_duration, get, get_default.
  cbn [dict_get lookup String.eqb Ascii.eqb Bool.eqb bind truthy negb py_round1].
  unfold udemy_build, get, get_default.
  cbn [ud_course_data ud_locals ud_duration ud_provider ud_difficulty ud_course_date
       udemy_avg_rating udemy_count_rating read_local
       dict_get lookup String.eqb Ascii.eqb Bool.eqb bind str_method].
  unfold new_CourseSchema, field.
  rewrite validate_str_str, Hu; cbn [bind optional].
  cbn [option_map]; rewrite validate_float_float; reflexivity.
Qed.

(** C9. Every course that [parse_coursera_response] returns comes from a
    hit among the elements, and when the hit has a float for
    [avgProductRating], the [avg_rating] of the course is
    [round(x, 1)] of it: the double nearest to the decimal with one digit
    after the point that is nearest to the float (ties to even); an int is
    kept as it is, being its own rounding.  A hit with a name, a path
    and an average does yield such a course.  The same holds of
    [parse_udemy_response] and the [average] of the [rating] of a result.
    For a double [x] the rating kept is a double, the decimal [k/10] lies
    within a twentieth of [x], and no double is nearer to [k/10] than the
    rating kept.  The average 4.666666666666667, the double nearest to
    14/3, becomes 4.7, that is the double nearest to 47/10. *)
Theorem rating_rounded_to_one_decimal :
  (forall data rs c,
     parse_coursera_response data = Ok rs -> In c rs ->
     exists l d,
       coursera_elements data = Ok (VList l) /\ In (VDict d) l /\
       coursera_course (VDict d) = Ok c /\
       (forall x, lookup "avgProductRating" d = Some (VFloat x) ->
          avg_rating c = Some (to_double (round1 x))) /\
       (forall z, lookup "avgProductRating" d = Some (VInt z) -> Z.abs z <= 2 ^ 53 ->
          avg_rating c = Some (inject_Z z) /\ (inject_Z z == round1 (inject_Z z))%Q)) /\
  (forall name path u x,
     path <> "" ->
     validate_url (VStr ("https://www.coursera.org" ++ path)) = Some u ->
     parse_coursera_response
       (coursera_response
          [VDict [("name", VStr name); ("url", VStr path); ("avgProductRating", VFloat x)]])
     = Ok [mkCourse name u None None None None None
             (Some (to_double (round1 x))) None None]) /\
  (forall data rs c,
     parse_udemy_response data = Ok rs -> In c rs ->
     exists l item before after,
       udemy_elements data = Ok (VList l) /\ In item l /\
       udemy_course before item = Ok (after, c) /\
       forall rating,
         udemy_rating item = Ok (VDict rating) ->
         (forall x, lookup "average" rating = Some (VFloat x) ->
            avg_rating c = Some (to_double (round1 x))) /\
         (forall z, lookup "average" rating = Some (VInt z) -> Z.abs z <= 2 ^ 53 ->
            avg_rating c = Some (inject_Z z) /\ (inject_Z z == round1 (inject_Z z))%Q)) /\
  (forall t link u x,
     validate_url (VStr link) = Some u ->
     parse_udemy_response
       (udemy_response
          [VDict [("course", VDict [("title", VStr t); ("urlCourseLanding", VStr link);
                                    ("images", VDict []);
                                    ("rating", VDict [("average", VFloat x)])])]])
     = Ok [mkCourse (strip t) u None None None None None
             (Some (to_double (round1 x))) None None]) /\
  (forall x, is_double x ->
     is_double (to_double (round1 x)) /\
     exists k : Z,
       round1 x = k # 10 /\ (Qabs ((k # 10) - x) <= 1 # 20)%Q /\
       forall d, is_double d ->
         (Qabs (to_double (round1 x) - (k # 10)) <= Qabs (d - (k # 10)))%Q) /\
  to_double (14 # 3) = (5254199565265579 # 1125899906842624)%Q /\
  round1 (5254199565265579 # 1125899906842624) = (47 # 10)%Q /\
  to_double (47 # 10) = (5291729562160333 # 1125899906842624)%Q.
Proof.
  split; [| split; [| split; [| split; [| split; [| split; [| split]]]]]].
  - intros data rs c H Hc.
    destruct (parse_coursera_courses _ _ _ H Hc) as (l & d & He & Hi & Hb).
    exists l, d; repeat split; try assumption.
    + intros x Hx; now apply (coursera_rating d c (VFloat x) Hb Hx).
    + now apply (coursera_rating d c (VInt z) Hb H0).
    + apply round1_int.
  - apply coursera_rated_course.
  - intros data rs c H Hc.
    destruct (parse_udemy_courses _ _ _ H Hc) as (l & item & b & a & He & Hi & Hb).
    exists l, item, b, a; repeat split; try assumption.
    + intros x Hx; now apply (udemy_rating_rounded b a item c rating (VFloat x) Hb H0 Hx).
    + now apply (udemy_rating_rounded b a item c rating (VInt z) Hb H0 H1).
    + apply round1_int.
  - apply udemy_rated_course.
  - apply float_round1_spec.
  - reflexivity.
  - reflexivity.
  - reflexivity.
Qed.

End Ratings.

(** The hit "Logic" with the average 4.666666666666667, on Coursera and
    on Udemy, and the rating 47/10 as a double. *)
Lemma rating_rounded_to_one_decimal_witness :
  parse_coursera_response
    (coursera_response
       [VDict [("name", VStr "Logic"); ("url", VStr "/learn/logic");
               ("avgProductRating", VFloat (5254199565265579 # 1125899906842624))]])
  = Ok [mkCourse "Logic" "https://www.coursera.org/learn/logic" None None None None None
          (Some (5291729562160333 # 1125899906842624)%Q) None None] /\
  (exists c, parse_udemy_response udemy_undated_batch = Ok [c] /\
     avg_rating c = Some (5291729562160333 # 1125899906842624)%Q) /\
  is_double (5254199565265579 # 1125899906842624) /\
  is_double (5291729562160333 # 1125899906842624).
Proof.
  destruct (@rating_rounded_to_one_decimal reference_library)
    as (_ & Hc & Hu & _ & Hd & _).
  assert (D : is_double (5254199565265579 # 1125899906842624)).
  { exists 5254199565265579, (-50); repeat split; try lia; reflexivity. }
  split; [| split; [| split]].
  - apply (Hc "Logic" "/learn/logic" "https://www.coursera.org/learn/logic"
             (5254199565265579 # 1125899906842624)%Q); [discriminate | reflexivity].
  - destruct (parse_udemy_response udemy_undated_batch) as [rs | e] eqn:E;
      [| vm_compute in E; discriminate].
    destruct rs as [| c [| c' rs]]; try (vm_compute in E; discriminate).
    exists c; split; [reflexivity |].
    destruct (Hu udemy_undated_batch [c] c E (or_introl eq_refl))
      as (l & item & b & a & He & Hi & Hb & Hr).
    injection He as <-.
    destruct Hi as [<- | []].
    destruct (Hr [("average", VFloat (5254199565265579 # 1125899906842624));
                  ("count", VInt 12)] eq_refl) as [Hf _].
    apply (Hf (5254199565265579 # 1125899906842624)%Q); reflexivity.
  - exact D.
  - exact (proj1 (Hd _ D)).
Defined.

(** *** Durations *)

Lemma uint_value_pos (d : Decimal.uint) (acc : positive) :
  uint_value (Z.pos acc) d = Z.pos (Pos.of_uint_acc d acc).
Proof.
  revert acc; induction d; intros acc; cbn [uint_value Pos.of_uint_acc];
    try reflexivity;
    match goal with
    | |- uint_value ?z _ = Z.pos (Pos.of_uint_acc _ ?p) =>
        replace z with (Z.pos p) by lia; apply IHd
    end.
Qed.

Lemma uint_value_of_uint (d : Decimal.uint) : uint_value 0 d = Z.of_N (Pos.of_uint d).
Proof.
  induction d; cbn [uint_value Pos.of_uint]; try reflexivity;
    try exact IHd; apply uint_value_pos.
Qed.

Lemma digits_value_uint (d : Decimal.uint) (acc : Z) :
  digits_value acc (NilEmpty.string_of_uint d) = Some (uint_value acc d).
Proof.
  revert acc; induction d; intros acc; simpl; try reflexivity; apply IHd.
Qed.

Lemma all_digits_uint (d : Decimal.uint) : all_digits (NilEmpty.string_of_uint d) = true.
Proof.
  induction d; simpl; try reflexivity; exact IHd.
Qed.

(** The text of a number that is not negative: digits, at least one, that
    read back as the number. *)
Lemma str_of_Z_digits (z : Z) :
  0 <= z ->
  exists c ds, str_of_Z z = String c ds /\ all_digits (String c ds) = true /\
               digits_value 0 (String c ds) = Some z.
Proof.
  intros Hz; destruct z as [| p | p]; [| | lia].
  - exists "0"%char, ""; repeat split.
  - unfold str_of_Z; simpl Z.to_int; simpl NilZero.string_of_int.
    pose proof (DecimalPos.Unsigned.of_to p) as Hp.
    assert (E : NilZero.string_of_uint (Pos.to_uint p) = NilEmpty.string_of_uint (Pos.to_uint p)).
    { destruct (Pos.to_uint p); [discriminate | reflexivity ..]. }
    rewrite E.
    assert (V : digits_value 0 (NilEmpty.string_of_uint (Pos.to_uint p)) = Some (Z.pos p)).
    { rewrite digits_value_uint, uint_value_of_uint, Hp; reflexivity. }
    pose proof (all_digits_uint (Pos.to_uint p)) as A.
    destruct (NilEmpty.string_of_uint (Pos.to_uint p)) as [| c ds]; [discriminate |].
    exists c, ds; auto.
Qed.

Lemma span_digits_app (ds rest : string) :
  all_digits ds = true -> no_digit_ahead rest = true ->
  span_digits (ds ++ rest) = (ds, rest).
Proof.
  intros Hd Hr; induction ds as [| c ds IH]; cbn [append span_digits].
  - destruct rest as [| c r]; [reflexivity |].
    cbn [no_digit_ahead] in Hr; apply negb_true_iff in Hr.
    cbn [span_digits]; now rewrite Hr.
  - cbn [all_digits] in Hd; apply andb_true_iff in Hd; destruct Hd as [Hc Hd].
    rewrite Hc, (IH Hd); reflexivity.
Qed.

(** A group of the pattern, before a part of the duration that is there
    and before one that is not. *)
Lemma duration_group_there (u : ascii) (z : Z) (rest : string) :
  0 <= z -> is_digit u = false ->
  duration_group u (str_of_Z z ++ String u rest) = (Some (str_of_Z z), rest).
Proof.
  intros Hz Hu.
  destruct (str_of_Z_digits z Hz) as (c & ds & E & A & _).
  unfold duration_group.
  rewrite span_digits_app; [| now rewrite E | simpl; now rewrite Hu].
  rewrite E, Ascii.eqb_refl; reflexivity.
Qed.

Lemma duration_group_absent (u v : ascii) (z : Z) (rest : string) :
  0 <= z -> is_digit v = false -> Ascii.eqb v u = false ->
  duration_group u (str_of_Z z ++ String v rest) = (None, str_of_Z z ++ String v rest).
Proof.
  intros Hz Hv Huv.
  destruct (str_of_Z_digits z Hz) as (c & ds & E & A & _).
  unfold duration_group.
  rewrite span_digits_app; [| now rewrite E | simpl; now rewrite Hv].
  rewrite E, Huv; reflexivity.
Qed.

Lemma int_of_group_str (z : Z) : 0 <= z -> int_of_group (Some (str_of_Z z)) = z.
Proof.
  intros Hz; destruct (str_of_Z_digits z Hz) as (c & ds & E & _ & V).
  unfold int_of_group; rewrite E, V; reflexivity.
Qed.

Lemma app_String (a : string) (c : ascii) (r : string) :
  (a ++ String c "") ++ r = a ++ String c r.
Proof.
  induction a as [| x a IH]; simpl; [reflexivity | now rewrite IH].
Qed.

(** What the pattern captures in a duration that is written as the
    pattern expects. *)
Lemma match_duration_iso (h m s : option Z) :
  part_ok h -> part_ok m -> part_ok s ->
  match_duration (iso_duration h m s)
  = Some (option_map str_of_Z h, option_map str_of_Z m, option_map str_of_Z s).
Proof.
  intros Hh Hm Hs; unfold iso_duration; cbn [append match_duration].
  assert (Gs : duration_group "S" (duration_part s "S")
               = (option_map str_of_Z s, "")).
  { destruct s as [z |]; [| reflexivity].
    exact (duration_group_there "S" z "" Hs eq_refl). }
  assert (Gm : duration_group "M" (duration_part m "M" ++ duration_part s "S")
               = (option_map str_of_Z m, duration_part s "S")).
  { destruct m as [z |]; cbn [duration_part option_map].
    - rewrite app_String. exact (duration_group_there "M" z _ Hm eq_refl).
    - destruct s as [z |]; [| reflexivity].
      exact (duration_group_absent "M" "S" z "" Hs eq_refl eq_refl). }
  assert (Gh : duration_group "H" (duration_part h "H" ++ duration_part m "M" ++ duration_part s "S")
               = (option_map str_of_Z h, duration_part m "M" ++ duration_part s "S")).
  { destruct h as [z |]; cbn [duration_part option_map].
    - rewrite app_String. exact (duration_group_there "H" z _ Hh eq_refl).
    - destruct m as [z |]; cbn [duration_part].
      + rewrite app_String. exact (duration_group_absent "H" "M" z _ Hm eq_refl eq_refl).
      + destruct s as [z |]; [| reflexivity].
        exact (duration_group_absent "H" "S" z "" Hs eq_refl eq_refl). }
  rewrite Gh, Gm, Gs; reflexivity.
Qed.

Lemma int_of_group_part (n : option Z) :
  part_ok n -> int_of_group (option_map str_of_Z n) = part_value n.
Proof.
  destruct n as [z |]; [apply int_of_group_str | reflexivity].
Qed.

(** [convert_youtube_duration] on such a duration. *)
Lemma convert_iso_duration (h m s : option Z) :
  part_ok h -> part_ok m -> part_ok s ->
  convert_youtube_duration (VStr (iso_duration h m s))
  = Ok (VStr (readable_duration (part_value h) (part_value m) (part_value s))).
Proof.
  intros Hh Hm Hs.
  unfold convert_youtube_duration.
  rewrite (match_duration_iso h m s Hh Hm Hs).
  rewrite !int_of_group_part by assumption.
  unfold readable_duration.
  assert (T : truthy (VStr (iso_duration h m s)) = true) by reflexivity.
  assert (P : startswith "PT" (iso_duration h m s) = true) by reflexivity.
  rewrite T, P; cbn [negb].
  destruct (0 <? part_value h); [reflexivity |].
  destruct (0 <? part_value m); reflexivity.
Qed.

Section Durations.

Context {L : Library}.

(** C6. Every course that [parse_udemy_response] returns comes from a
    result among the elements, and when the result gives
    [durationInSeconds] as a whole number [n] other than zero, the duration
    of the course is [n // 3600] followed by [h], a space, [n % 3600 // 60]
    and [m]: for 5400 it is "1h 30m".  [convert_youtube_duration] turns
    "PT1H5M" into "1h 5m" and "PT45S" into "45s", and any duration written
    [PT#H#M#S], each part optional, into hours and minutes when there are
    hours, else into minutes when there are minutes, else into seconds. *)
Theorem duration_formatting :
  (forall data rs c,
     parse_udemy_response data = Ok rs -> In c rs ->
     exists l item before after,
       udemy_elements data = Ok (VList l) /\ In item l /\
       udemy_course before item = Ok (after, c) /\
       forall cd,
         get_default item "course" (VDict []) = Ok (VDict cd) ->
         (lookup "durationInSeconds" cd = Some (VInt 5400) ->
          duration c = Some "1h 30m") /\
         (forall n, lookup "durationInSeconds" cd = Some (VInt n) -> n <> 0 ->
            duration c
            = Some (str_of_Z (n / 3600) ++ "h " ++ str_of_Z (n mod 3600 / 60) ++ "m"))) /\
  convert_youtube_duration (VStr "PT1H5M") = Ok (VStr "1h 5m") /\
  convert_youtube_duration (VStr "PT45S") = Ok (VStr "45s") /\
  (forall h m s,
     part_ok h -> part_ok m -> part_ok s ->
     convert_youtube_duration (VStr (iso_duration h m s))
     = Ok (VStr (readable_duration (part_value h) (part_value m) (part_value s)))).
Proof.
  split; [| split; [| split]]; try reflexivity.
  - intros data rs c H Hc.
    destruct (parse_udemy_courses _ _ _ H Hc) as (l & item & b & a & He & Hi & Hb).
    exists l, item, b, a.
    split; [assumption |]. split; [assumption |]. split; [assumption |].
    intros cd Hcd; split.
    + intros Hs.
      exact (udemy_duration_format b a item c cd 5400 Hb Hcd Hs ltac:(discriminate)).
    + intros n Hs Hn.
      exact (udemy_duration_format b a item c cd n Hb Hcd Hs Hn).
  - exact convert_iso_duration.
Qed.

End Durations.

(** The 5400 seconds of the course of [udemy_undated_batch], and two hours,
    no minute and seven seconds on YouTube. *)
Lemma duration_formatting_witness :
  (exists c, parse_udemy_response udemy_undated_batch = Ok [c] /\
             duration c = Some "1h 30m") /\
  convert_youtube_duration (VStr "PT2H0M7S") = Ok (VStr "2h 0m").
Proof.
  destruct (@duration_formatting reference_library) as (Hu & _ & _ & Hy).
  split.
  - destruct (parse_udemy_response udemy_undated_batch) as [rs | e] eqn:E; [| discriminate].
    destruct rs as [| c [| c' rs]]; try discriminate.
    exists c; split; [reflexivity |].
    destruct (Hu udemy_undated_batch [c] c E (or_introl eq_refl))
      as (l & item & b & a & He & Hi & Hb & Hd).
    injection He as <-.
    destruct Hi as [<- | []].
    apply (Hd udemy_algebra); reflexivity.
  - apply (Hy (Some 2) (Some 0) (Some 7)); simpl; lia.
Defined.

(* ================================================================== *)
(** ** Further properties of the adapters *)

(** *** edX: the parser *)

Section EdxParser.

Context {L : Library}.

Lemma edx_course_inv (st st' : option value) (item : value) (c : CourseSchema) :
  edx_course st item = (st', Ok c) ->
  exists provider,
    edx_owner st item = Ok (provider, st') /\ edx_build provider st' item = Ok c.
Proof.
  unfold edx_course; intros H.
  destruct (edx_owner st item) as [[provider st''] | e]; [| discriminate].
  injection H as <- H; eauto.
Qed.

(** What the validation at the end of the loop body was given. *)
Lemma edx_build_inv (provider : value) (st : option value) (item : value) (c : CourseSchema) :
  edx_build provider st item = Ok c ->
  exists d skills title img difficulty,
    item = VDict d /\
    (let s := dict_get "skills" d VNone in
     if truthy s
     then l <- iterate s ;;
          projected <- map_outcome (fun x => get x "skill") l ;;
          Ok (VList projected)
     else Ok s) = Ok skills /\
    str_method strip (dict_get "title" d VNone) = Ok title /\
    st = Some img /\
    index0 (dict_get "level" d (VList [VNone])) = Ok difficulty /\
    new_CourseSchema title (dict_get "marketing_url" d VNone)
      (dict_get "card_image_url" d VNone)
      (let w := dict_get "weeks_to_complete" d VNone in
       if truthy w then VStr (py_str w ++ " weeks") else w)
      provider img difficulty VNone VNone skills [] = Ok c.
Proof.
  unfold edx_build; intros H.
  bind_inv H.
  destruct item as [| | | | | | d |]; try discriminate.
  injection Hx as <-.
  cbv zeta in H. unfold get, get_default in H; cbn [bind] in H.
  do 2 bind_inv H.
  destruct st as [img |]; [| discriminate]; cbn [read_local bind] in H.
  bind_inv H.
  exists d, x, x0, img, x1; repeat split; assumption.
Qed.

Lemma edx_loop_provenance (items : list value) (st : option value)
  (acc : list CourseSchema) (c : CourseSchema) :
  In c (edx_loop items st acc) ->
  In c acc \/ exists item before after,
                In item items /\ edx_course before item = (after, Ok c).
Proof.
  revert st acc; induction items as [| item items IH]; intros st acc H;
    [left; exact H |].
  cbn [edx_loop] in H.
  destruct (edx_course st item) as [st' r] eqn:E.
  destruct r as [course | e].
  - destruct (IH _ _ H) as [Ha | (i & b & a & Hi & Hb)].
    + apply in_app_or in Ha; destruct Ha as [Ha | [<- | []]]; [left; exact Ha |].
      right; exists item, st, st'; split; [left; reflexivity | exact E].
    + right; exists i, b, a; split; [right; exact Hi | exact Hb].
  - destruct (IH _ _ H) as [Ha | (i & b & a & Hi & Hb)]; [left; exact Ha |].
    right; exists i, b, a; split; [right; exact Hi | exact Hb].
Qed.

(** Every course in the answer of [parse_edx_response] was built by the
    loop body from one of the hits of the first result. *)
Lemma parse_edx_courses (data : value) (c : CourseSchema) :
  In c (parse_edx_response data) ->
  exists results r0 hits items item before after,
    get_default data "results" (VList []) = Ok results /\
    index0 results = Ok r0 /\
    get_default r0 "hits" (VList []) = Ok hits /\
    iterate hits = Ok items /\
    In item items /\ edx_course before item = (after, Ok c).
Proof.
  unfold parse_edx_response; intros H.
  destruct (negb (truthy data)); [contradiction |].
  destruct (get_default data "results" (VList [])) as [results | e] eqn:E1;
    [| contradiction].
  cbn [bind try_except] in H.
  destruct (negb (truthy results)); [contradiction |].
  destruct (index0 results) as [r0 | e] eqn:E2; [| contradiction].
  cbn [bind try_except] in H.
  destruct (get_default r0 "hits" (VList [])) as [hits | e] eqn:E3; [| contradiction].
  cbn [bind try_except] in H.
  destruct (negb (truthy hits)); [contradiction |].
  destruct (iterate hits) as [items | e] eqn:E4; [| contradiction].
  cbn [bind try_except] in H.
  apply edx_loop_provenance in H; destruct H as [[] | (item & b & a & Hi & Hb)].
  exists results, r0, hits, items, item, b, a; repeat split; auto.
Qed.

Lemma edx_owner_absent (st : option value) (d : list (string * value)) :
  truthy (dict_get "owners" d (VList [])) = false ->
  edx_owner st (VDict d) = Ok (VNone, st).
Proof.
  intros H; unfold edx_owner, get_default; cbn [bind]; now rewrite H.
Qed.

(** X1. A course returned by [parse_edx_response] has neither an average
    rating nor a number of ratings, and its url is not empty. *)
Theorem edx_course_unrated (data : value) (c : CourseSchema) :
  In c (parse_edx_response data) ->
  avg_rating c = None /\ count_rating c = None /\ url c <> "".
Proof.
  intros H.
  destruct (parse_edx_courses data c H)
    as (results & r0 & hits & items & item & b & a & _ & _ & _ & _ & _ & Hb).
  apply edx_course_inv in Hb; destruct Hb as (provider & _ & Hb).
  apply edx_build_inv in Hb.
  destruct Hb as (d & sk & t & img & di & _ & _ & _ & _ & _ & Hn).
  pose proof (new_CourseSchema_url _ _ _ _ _ _ _ _ _ _ _ _ Hn) as Hu.
  apply new_CourseSchema_inv in Hn.
  destruct Hn as (_ & _ & _ & _ & _ & _ & _ & Ha & Hc & _).
  cbn [optional] in Ha, Hc.
  repeat split; [now inversion Ha | now inversion Hc | exact Hu].
Qed.

Lemma map_outcome_skill (l : list value) (names : list string) :
  Forall2 (fun x s => exists dx, x = VDict dx /\ lookup "skill" dx = Some (VStr s)) l names ->
  map_outcome (fun x => get x "skill") l = Ok (map VStr names).
Proof.
  induction 1 as [| x s l names (dx & -> & Hs) F IH]; [reflexivity |].
  cbn [map_outcome map]; unfold get at 1, get_default, dict_get.
  rewrite Hs; cbn [bind]; rewrite IH; reflexivity.
Qed.

Lemma validate_all_str (names : list string) :
  validate_all validate_str (map VStr names) = Some names.
Proof.
  induction names as [| s names IH]; [reflexivity |].
  cbn [map validate_all]; now rewrite validate_str_str, IH.
Qed.

(** X2. A course that the loop body of [parse_edx_response] builds from a
    hit has the title of the hit, stripped; "<n> weeks" for a duration when
    [weeks_to_complete] is a whole number other than zero; the first
    element of [level] as it stands for a difficulty; the name of the
    first owner for a provider; and for skills the [skill] of each element
    of [skills]. *)
Theorem edx_mapping (before after : option value) (item : value) (c : CourseSchema) :
  edx_course before item = (after, Ok c) ->
  exists d t,
    item = VDict d /\
    lookup "title" d = Some (VStr t) /\ title c = strip t /\
    (forall n, lookup "weeks_to_complete" d = Some (VInt n) -> n <> 0 ->
       duration c = Some (str_of_Z n ++ " weeks")) /\
    (forall level others, lookup "level" d = Some (VList (VStr level :: others)) ->
       difficulty c = Some level) /\
    (forall o name others,
       lookup "owners" d = Some (VList (VDict o :: others)) ->
       lookup "name" o = Some (VStr name) ->
       provider c = Some name) /\
    (forall l names,
       lookup "skills" d = Some (VList l) -> l <> [] ->
       Forall2 (fun x s => exists dx, x = VDict dx /\ lookup "skill" dx = Some (VStr s))
         l names ->
       skills c = Some names).
Proof.
  intros H.
  apply edx_course_inv in H; destruct H as (provider & Ho & Hb).
  apply edx_build_inv in Hb.
  destruct Hb as (d & sk & t & img & di & -> & Hsk & Ht & -> & Hdi & Hn).
  apply new_CourseSchema_inv in Hn.
  destruct Hn as (Vt & _ & _ & Vdu & Vp & _ & Vdi & _ & _ & Vsk).
  unfold dict_get in Ht.
  destruct (lookup "title" d) as [[| | | | s | | |] |] eqn:Et; try discriminate.
  injection Ht as <-. rewrite validate_str_str in Vt; injection Vt as Vt.
  exists d, s; split; [reflexivity |]. split; [exact Et |].
  split; [now symmetry |].
  split; [| split; [| split]].
  - intros n Hw Hn0; unfold dict_get in Vdu; rewrite Hw in Vdu.
    cbn [truthy py_str] in Vdu.
    apply Z.eqb_neq in Hn0; rewrite Hn0 in Vdu; cbn [negb] in Vdu.
    rewrite optional_str in Vdu; now inversion Vdu.
  - intros level others Hl; unfold dict_get in Hdi; rewrite Hl in Hdi.
    injection Hdi as <-. rewrite optional_str in Vdi; now inversion Vdi.
  - intros o name others Hw Hname.
    unfold edx_owner, get_default, dict_get in Ho; cbn [bind] in Ho.
    rewrite Hw in Ho; cbn [truthy index0 bind] in Ho; rewrite Hname in Ho.
    injection Ho as <- _.
    rewrite optional_str in Vp; now inversion Vp.
  - intros l names Hl Hne F; cbv zeta in Hsk; unfold dict_get in Hsk; rewrite Hl in Hsk.
    assert (T : truthy (VList l) = true) by (destruct l; [congruence | reflexivity]).
    rewrite T in Hsk; cbn [iterate bind] in Hsk.
    rewrite (map_outcome_skill l names F) in Hsk; cbn [bind] in Hsk.
    injection Hsk as <-.
    cbn [optional validate_str_list option_map] in Vsk.
    rewrite validate_all_str in Vsk; now inversion Vsk.
Qed.

(** X3. [provider_img] is assigned only when the hit has owners.  A hit
    without owners that comes first is passed over, whatever else it holds;
    a hit without owners that comes when the local is set yields a course
    with no provider and with the logo left by an earlier hit. *)
Theorem edx_provider_img_leak :
  (forall d rest,
     truthy (dict_get "owners" d (VList [])) = false ->
     edx_loop (VDict d :: rest) None [] = edx_loop rest None []) /\
  (forall d img after c,
     truthy (dict_get "owners" d (VList [])) = false ->
     edx_course (Some img) (VDict d) = (after, Ok c) ->
     after = Some img /\ provider c = None /\
     optional validate_url img = Some (provider_img c)).
Proof.
  split.
  - intros d rest H.
    cbn [edx_loop]; unfold edx_course; rewrite (edx_owner_absent None d H).
    destruct (edx_build VNone None (VDict d)) as [c | e] eqn:E; [| reflexivity].
    apply edx_build_inv in E.
    destruct E as (d' & sk & t & img & di & _ & _ & _ & Habs & _); discriminate.
  - intros d img after c H Hc.
    apply edx_course_inv in Hc; destruct Hc as (provider & Ho & Hb).
    rewrite (edx_owner_absent (Some img) d H) in Ho; injection Ho as <- <-.
    apply edx_build_inv in Hb.
    destruct Hb as (d' & sk & t & img' & di & _ & _ & _ & Hi & _ & Hn).
    injection Hi as <-.
    apply new_CourseSchema_inv in Hn.
    destruct Hn as (_ & _ & _ & _ & Vp & Vpi & _).
    cbn [optional] in Vp.
    repeat split; [now inversion Vp | exact Vpi].
Qed.

End EdxParser.

(** *** YouTube: the parser *)

Section YoutubeParser.

Context {L : Library}.

Lemma youtube_video_inv (st st' : option date) (item : value) (v : CourseSchema) :
  youtube_video st item = (st', Ok (Some v)) ->
  exists f, youtube_read st item = Ok (Some f) /\ st' = yt_publish_date f /\
            youtube_build f = Ok v.
Proof.
  unfold youtube_video; intros H.
  destruct (youtube_read st item) as [[f |] | e]; try discriminate.
  injection H as <- H.
  exists f; repeat split.
  destruct (youtube_build f); [now inversion H | discriminate].
Qed.

(** What the first part of the loop body leaves, for an item that is not
    passed over. *)
Lemma youtube_read_inv (st : option date) (item : value) (f : youtube_fields) :
  youtube_read st item = Ok (Some f) ->
  exists d sn du,
    item = VDict d /\
    dict_get "snippet" d (VDict []) = VDict sn /\
    yt_video_id f = dict_get "id" d VNone /\
    truthy (dict_get "id" d VNone) = true /\
    yt_snippet f = VDict sn /\
    truthy (dict_get "title" sn VNone) = true /\
    (let thumbnails := dict_get "thumbnails" sn (VDict []) in
     or_else (h <- get_default thumbnails "high" (VDict []) ;; get h "url")
       (or_else (m <- get_default thumbnails "medium" (VDict []) ;; get m "url")
          (x <- get_default thumbnails "default" (VDict []) ;; get x "url")))
    = Ok (yt_thumbnail f) /\
    get_default (dict_get "contentDetails" d (VDict [])) "duration" VNone = Ok du /\
    (if truthy du then convert_youtube_duration du else Ok du) = Ok (yt_duration f) /\
    (let p := dict_get "publishedAt" sn VNone in
     if truthy p
     then exists dt, py_fromisoformat p = Ok dt /\ yt_publish_date f = Some dt
     else yt_publish_date f = st).
Proof.
  unfold youtube_read; intros H.
  bind_inv H.
  destruct item as [| | | | | | d |]; try discriminate.
  injection Hx as <-.
  unfold get_default at 1 2 in H; cbn [bind] in H.
  bind_inv H.
  destruct x; [discriminate |].
  destruct (truthy (dict_get "id" d VNone)) eqn:Tid; cbn [negb] in Hx;
    [| discriminate].
  bind_inv Hx. injection Hx as Hx. apply negb_false_iff in Hx.
  destruct (dict_get "snippet" d (VDict [])) as [| | | | | | sn |] eqn:Esn;
    try discriminate.
  injection Hx0 as <-.
  unfold get_default at 1 in H; cbn [bind] in H.
  do 3 bind_inv H.
  unfold get_default at 1 in H; cbn [bind] in H.
  bind_inv H.
  injection H as <-; cbn [yt_video_id yt_snippet yt_publish_date yt_thumbnail yt_duration].
  exists d, sn, x0; repeat split; try assumption.
  cbv zeta.
  destruct (truthy (dict_get "publishedAt" sn VNone)).
  - bind_inv Hx3. injection Hx3 as <-. eauto.
  - now injection Hx3 as <-.
Qed.

Lemma youtube_build_inv (f : youtube_fields) (sn : list (string * value)) (v : CourseSchema) :
  yt_snippet f = VDict sn ->
  youtube_build f = Ok v ->
  exists t dt,
    str_method strip (dict_get "title" sn VNone) = Ok t /\
    yt_publish_date f = Some dt /\
    new_CourseSchema t (VStr ("https://youtube.com/watch?v=" ++ py_str (yt_video_id f)))
      (yt_thumbnail f) (yt_duration f) (dict_get "channelTitle" sn VNone)
      VNone VNone VNone VNone VNone [("course_date", VDate dt)] = Ok v.
Proof.
  unfold youtube_build; intros -> H.
  unfold get, get_default in H; cbn [bind] in H.
  bind_inv H.
  destruct (yt_publish_date f) as [dt |]; [| discriminate].
  cbn [read_local bind] in H.
  exists x, dt; repeat split; assumption.
Qed.

Lemma youtube_loop_provenance (items : list value) (st : option date)
  (acc : list CourseSchema) (v : CourseSchema) :
  In v (youtube_loop items st acc) ->
  In v acc \/ exists item before after,
                In item items /\ youtube_video before item = (after, Ok (Some v)).
Proof.
  revert st acc; induction items as [| item items IH]; intros st acc H;
    [left; exact H |].
  cbn [youtube_loop] in H.
  destruct (youtube_video st item) as [st' r] eqn:E.
  assert (K : forall acc', In v (youtube_loop items st' acc') ->
              (In v acc' -> In v acc \/ r = Ok (Some v)) ->
              In v acc \/ exists item0 before after,
                In item0 (item :: items) /\ youtube_video before item0 = (after, Ok (Some v))).
  { intros acc' Hin Hacc.
    destruct (IH _ _ Hin) as [Ha | (i & b & a & Hi & Hb)].
    - destruct (Hacc Ha) as [Ha' | ->]; [left; exact Ha' |].
      right; exists item, st, st'; split; [left; reflexivity | exact E].
    - right; exists i, b, a; split; [right; exact Hi | exact Hb]. }
  destruct r as [[video |] | e].
  - apply (K _ H); intros Ha.
    apply in_app_or in Ha; destruct Ha as [Ha | [<- | []]]; auto.
  - apply (K _ H); auto.
  - apply (K _ H); auto.
Qed.

(** Every video in the answer of [parse_youtube_response] was built by the
    loop body from one of the items. *)
Lemma parse_youtube_videos (data : value) (vs : list CourseSchema) (v : CourseSchema) :
  parse_youtube_response data = Ok vs -> In v vs ->
  exists items l item before after,
    get_default data "items" (VList []) = Ok items /\ iterate items = Ok l /\
    In item l /\ youtube_video before item = (after, Ok (Some v)).
Proof.
  unfold parse_youtube_response; intros H Hv.
  do 2 bind_inv H. injection H as <-.
  apply youtube_loop_provenance in Hv; destruct Hv as [[] | (i & b & a & Hi & Hb)].
  exists x, x0, i, b, a; auto.
Qed.

(** X4. A video returned by [parse_youtube_response] has no logo of the
    provider, no difficulty, no rating, no number of ratings and no skills,
    and its url is not empty. *)
Theorem youtube_video_bare (data : value) (vs : list CourseSchema) (v : CourseSchema) :
  parse_youtube_response data = Ok vs -> In v vs ->
  provider_img v = None /\ difficulty v = None /\ avg_rating v = None /\
  count_rating v = None /\ skills v = None /\ url v <> "".
Proof.
  intros H Hv.
  destruct (parse_youtube_videos data vs v H Hv)
    as (items & l & item & b & a & _ & _ & _ & Hb).
  apply youtube_video_inv in Hb; destruct Hb as (f & Hr & _ & Hb).
  apply youtube_read_inv in Hr.
  destruct Hr as (d & sn & du & _ & _ & _ & _ & Hsn & _).
  destruct (youtube_build_inv f sn v Hsn Hb) as (t & dt & _ & _ & Hn).
  pose proof (new_CourseSchema_url _ _ _ _ _ _ _ _ _ _ _ _ Hn) as Hu.
  apply new_CourseSchema_inv in Hn.
  destruct Hn as (_ & _ & _ & _ & _ & Vpi & Vdi & Va & Vc & Vs).
  cbn [optional] in Vpi, Vdi, Va, Vc, Vs.
  repeat split; try exact Hu; congruence.
Qed.

Lemma truthy_title (sn : list (string * value)) (t : value) :
  truthy (dict_get "title" sn VNone) = true ->
  str_method strip (dict_get "title" sn VNone) = Ok t ->
  exists s, lookup "title" sn = Some (VStr s) /\ s <> "" /\ t = VStr (strip s).
Proof.
  unfold dict_get; intros T H.
  destruct (lookup "title" sn) as [[| | | | s | | |] |]; try discriminate.
  injection H as <-; exists s; repeat split.
  cbn [truthy] in T; apply negb_true_iff in T; now apply String.eqb_neq.
Qed.

(** X5. A video that the loop body of [parse_youtube_response] builds from
    an item has the title of the snippet, which is not empty, stripped; for
    url what the schema makes of the id appended to
    https://youtube.com/watch?v=; the channel for provider; and for
    duration the readable form of a duration written [PT#H#M#S]. *)
Theorem youtube_mapping (before after : option date) (item : value) (v : CourseSchema) :
  youtube_video before item = (after, Ok (Some v)) ->
  exists d sn t,
    item = VDict d /\ lookup "snippet" d = Some (VDict sn) /\
    lookup "title" sn = Some (VStr t) /\ t <> "" /\ title v = strip t /\
    truthy (dict_get "id" d VNone) = true /\
    validate_url (VStr ("https://youtube.com/watch?v=" ++ py_str (dict_get "id" d VNone)))
      = Some (url v) /\
    (forall channel, lookup "channelTitle" sn = Some (VStr channel) ->
       provider v = Some channel) /\
    (forall cd h m s,
       lookup "contentDetails" d = Some (VDict cd) ->
       lookup "duration" cd = Some (VStr (iso_duration h m s)) ->
       part_ok h -> part_ok m -> part_ok s ->
       duration v = Some (readable_duration (part_value h) (part_value m) (part_value s))).
Proof.
  intros H.
  apply youtube_video_inv in H; destruct H as (f & Hr & _ & Hb).
  apply youtube_read_inv in Hr.
  destruct Hr as (d & sn & du & -> & Esn & Hid & Tid & Hsn & Tt & _ & Hdu & Hcv & _).
  destruct (youtube_build_inv f sn v Hsn Hb) as (t & dt & Ht & _ & Hn).
  destruct (truthy_title sn t Tt Ht) as (s & Hs & Hne & ->).
  apply new_CourseSchema_inv in Hn.
  destruct Hn as (Vt & Vu & _ & Vdu & Vp & _).
  rewrite validate_str_str in Vt; injection Vt as Vt.
  assert (Hd : lookup "snippet" d = Some (VDict sn)).
  { unfold dict_get in Esn.
    destruct (lookup "snippet" d) as [x |]; [now rewrite Esn |].
    injection Esn as <-; discriminate. }
  exists d, sn, s.
  split; [reflexivity |]. split; [exact Hd |]. split; [exact Hs |].
  split; [exact Hne |]. split; [now symmetry |]. split; [exact Tid |].
  split; [now rewrite <- Hid |]. split.
  - intros channel Hc; unfold dict_get in Vp; rewrite Hc in Vp.
    rewrite optional_str in Vp; now inversion Vp.
  - intros cd h m sec Hcd Hd' Hh Hm Hsec.
    unfold dict_get in Hdu; rewrite Hcd in Hdu.
    cbn [get_default] in Hdu; unfold dict_get in Hdu; rewrite Hd' in Hdu.
    injection Hdu as <-.
    assert (T : truthy (VStr (iso_duration h m sec)) = true) by reflexivity.
    rewrite T, (convert_iso_duration h m sec Hh Hm Hsec) in Hcv.
    injection Hcv as Hcv; rewrite <- Hcv in Vdu.
    rewrite optional_str in Vdu; now inversion Vdu.
Qed.

(** X6. The image of a video is the url of its [high] thumbnail when there
    is one, else of its [medium] thumbnail, else of its [default]
    thumbnail. *)
Theorem youtube_thumbnail_order (before after : option date) (d sn th : list (string * value))
  (v : CourseSchema) :
  youtube_video before (VDict d) = (after, Ok (Some v)) ->
  lookup "snippet" d = Some (VDict sn) ->
  dict_get "thumbnails" sn (VDict []) = VDict th ->
  size_ok th "high" -> size_ok th "medium" -> size_ok th "default" ->
  optional validate_url
    (first_truthy (thumbnail_url th "high") (thumbnail_url th "medium")
       (thumbnail_url th "default"))
  = Some (image_url v).
Proof.
  intros H Hsnip Hth Sh Sm Sd.
  apply youtube_video_inv in H; destruct H as (f & Hr & _ & Hb).
  apply youtube_read_inv in Hr.
  destruct Hr as (d' & sn' & du & Hd & Esn & _ & _ & Hsn & _ & Hthumb & _).
  injection Hd as <-.
  unfold dict_get in Esn; rewrite Hsnip in Esn; injection Esn as <-.
  destruct (youtube_build_inv f sn v Hsn Hb) as (t & dt & _ & _ & Hn).
  apply new_CourseSchema_inv in Hn; destruct Hn as (_ & _ & Vi & _).
  cbv zeta in Hthumb; rewrite Hth in Hthumb.
  assert (G : forall size, size_ok th size ->
            (x <- get_default (VDict th) size (VDict []) ;; get x "url")
            = Ok (thumbnail_url th size)).
  { intros size S; unfold size_ok in S; unfold thumbnail_url, get_default, dict_get.
    cbn [bind].
    destruct (lookup size th) as [[| | | | | | x |] |]; try contradiction; reflexivity. }
  rewrite (G "high" Sh), (G "medium" Sm), (G "default" Sd) in Hthumb.
  unfold or_else in Hthumb; cbn [bind] in Hthumb.
  unfold first_truthy.
  destruct (truthy (thumbnail_url th "high")).
  - injection Hthumb as Hthumb; rewrite Hthumb; exact Vi.
  - destruct (truthy (thumbnail_url th "medium"));
      injection Hthumb as Hthumb; rewrite Hthumb; exact Vi.
Qed.

(** X7. An item is passed over when its id is false, and when the title of
    its snippet is false; and while no publication date has been read, a
    video is built only from an item that has one. *)
Theorem youtube_skips :
  (forall st d,
     truthy (dict_get "id" d VNone) = false ->
     youtube_video st (VDict d) = (st, Ok None)) /\
  (forall st d sn,
     truthy (dict_get "id" d VNone) = true ->
     dict_get "snippet" d (VDict []) = VDict sn ->
     truthy (dict_get "title" sn VNone) = false ->
     youtube_video st (VDict d) = (st, Ok None)) /\
  (forall d sn after v,
     youtube_video None (VDict d) = (after, Ok (Some v)) ->
     dict_get "snippet" d (VDict []) = VDict sn ->
     truthy (dict_get "publishedAt" sn VNone) = true).
Proof.
  split; [| split].
  - intros st d H.
    unfold youtube_video, youtube_read, get, get_default; cbn [bind].
    rewrite H; reflexivity.
  - intros st d sn Hid Hsn Ht.
    unfold youtube_video, youtube_read, get, get_default; cbn [bind].
    rewrite Hid, Hsn; cbn [negb bind]; rewrite Ht; reflexivity.
  - intros d sn after v H Hsn.
    apply youtube_video_inv in H; destruct H as (f & Hr & _ & Hb).
    apply youtube_read_inv in Hr.
    destruct Hr as (d' & sn' & du & Hd & Esn & _ & _ & Hf & _ & _ & _ & _ & Hp).
    injection Hd as <-. rewrite Hsn in Esn; injection Esn as <-.
    cbv zeta in Hp.
    destruct (truthy (dict_get "publishedAt" sn VNone)); [reflexivity |].
    destruct (youtube_build_inv f sn v Hf Hb) as (t & dt & _ & Hdt & _).
    rewrite Hp in Hdt; discriminate.
Qed.

End YoutubeParser.

(** *** YouTube: the durations *)

Lemma startswith_PT (s : string) :
  startswith "PT" s = true -> exists r, s = String "P" (String "T" r).
Proof.
  destruct s as [| a s]; [discriminate |].
  cbn [startswith]; intros H.
  apply andb_true_iff in H; destruct H as [Ha H].
  destruct s as [| b r]; [discriminate |].
  cbn [startswith] in H.
  apply andb_true_iff in H; destruct H as [Hb _].
  apply Ascii.eqb_eq in Ha, Hb; subst a b; eauto.
Qed.

(** X8. [convert_youtube_duration] gives [None] for a false value and for a
    text that does not begin with PT, raises [AttributeError] for a true
    value that is not a text, and gives a text for every text that begins
    with PT, whatever follows: the pattern always matches. *)
Theorem convert_youtube_duration_cases (v : value) :
  (truthy v = false -> convert_youtube_duration v = Ok VNone) /\
  (forall s, v = VStr s -> startswith "PT" s = false ->
     convert_youtube_duration v = Ok VNone) /\
  (forall s, v = VStr s -> startswith "PT" s = true ->
     exists t, convert_youtube_duration v = Ok (VStr t) /\ t <> "") /\
  (truthy v = true -> (forall s, v <> VStr s) ->
     convert_youtube_duration v = Raise AttributeError).
Proof.
  split; [| split; [| split]].
  - intros H; unfold convert_youtube_duration; now rewrite H.
  - intros s -> H; unfold convert_youtube_duration.
    destruct (truthy (VStr s)); [| reflexivity]; cbn [negb]; now rewrite H.
  - intros s -> H.
    assert (T : truthy (VStr s) = true).
    { destruct s; [discriminate | reflexivity]. }
    unfold convert_youtube_duration; rewrite T, H; cbn [negb].
    destruct (startswith_PT s H) as (r & ->).
    cbn [match_duration].
    destruct (duration_group "H" r) as [hours r1].
    destruct (duration_group "M" r1) as [minutes r2].
    destruct (duration_group "S" r2) as [seconds r3].
    destruct (0 <? int_of_group hours);
      [| destruct (0 <? int_of_group minutes)];
      eexists; (split; [reflexivity |]).
    + destruct (str_of_Z (int_of_group hours)); discriminate.
    + destruct (str_of_Z (int_of_group minutes)); discriminate.
    + destruct (str_of_Z (int_of_group seconds)); discriminate.
  - intros T N; unfold convert_youtube_duration; rewrite T; cbn [negb].
    destruct v; try reflexivity. exfalso; exact (N s eq_refl).
Qed.

(** *** Udemy and Coursera: the parsers *)

Section UdemyCoursera.

Context {L : Library}.

(** X9. A course that the loop body of [parse_udemy_response] builds from a
    result has the title of the course, stripped; the landing url for url,
    which is not empty; the image of size 240x135; no logo of the provider;
    the level in lower case with spaces for underscores; the name of the
    first instructor for provider; and the learning outcomes for skills. *)
Theorem udemy_mapping (before after : udemy_locals) (item : value) (c : CourseSchema) :
  udemy_course before item = Ok (after, c) ->
  exists cd t images,
    get_default item "course" (VDict []) = Ok (VDict cd) /\
    lookup "title" cd = Some (VStr t) /\ title c = strip t /\
    validate_url (dict_get "urlCourseLanding" cd VNone) = Some (url c) /\
    url c <> "" /\
    lookup "images" cd = Some (VDict images) /\
    optional validate_url (dict_get "px240x135" images VNone) = Some (image_url c) /\
    provider_img c = None /\
    optional validate_str_list (dict_get "learningOutcomes" cd VNone) = Some (skills c) /\
    (forall level, lookup "level" cd = Some (VStr level) -> level <> "" ->
       difficulty c = Some (replace_underscore (lower level))) /\
    (forall ins name others,
       lookup "instructors" cd = Some (VList (VDict ins :: others)) ->
       lookup "name" ins = Some (VStr name) ->
       provider c = Some name).
Proof.
  intros H.
  apply udemy_course_inv in H; destruct H as (f & Hr & Hb & _).
  apply udemy_read_inv in Hr.
  destruct Hr as (cd & Hc & Hcd & _ & Hp & Hdi & _).
  destruct (udemy_build_inv _ _ _ Hcd Hb) as (t & im & av & k & Ht & Him & _ & _ & Hn).
  pose proof (new_CourseSchema_url _ _ _ _ _ _ _ _ _ _ _ _ Hn) as Hu.
  apply new_CourseSchema_inv in Hn.
  destruct Hn as (Vt & Vu & Vi & _ & Vp & Vpi & Vdi & _ & _ & Vs).
  unfold dict_get in Ht.
  destruct (lookup "title" cd) as [[| | | | s | | |] |] eqn:Et; try discriminate.
  injection Ht as <-. rewrite validate_str_str in Vt; injection Vt as Vt.
  unfold get, get_default in Him.
  destruct (dict_get "images" cd VNone) as [| | | | | | images |] eqn:Ei; try discriminate.
  injection Him as <-.
  assert (Hi : lookup "images" cd = Some (VDict images)).
  { unfold dict_get in Ei; destruct (lookup "images" cd); [now rewrite Ei | discriminate]. }
  exists cd, s, images.
  split; [exact Hc |]. split; [exact Et |]. split; [now symmetry |].
  split; [exact Vu |]. split; [exact Hu |]. split; [exact Hi |].
  split; [exact Vi |]. split; [cbn [optional] in Vpi; congruence |].
  split; [exact Vs |]. split.
  - intros level Hl Hne; cbv zeta in Hdi; unfold dict_get in Hdi; rewrite Hl in Hdi.
    cbn [truthy] in Hdi. apply String.eqb_neq in Hne; rewrite Hne in Hdi.
    cbn [negb str_method bind] in Hdi. injection Hdi as Hdi; rewrite <- Hdi in Vdi.
    rewrite optional_str in Vdi; now inversion Vdi.
  - intros ins name others Hl Hname; cbv zeta in Hp; unfold dict_get in Hp.
    rewrite Hl in Hp; cbn [truthy index0 bind] in Hp.
    unfold get, get_default, dict_get in Hp; rewrite Hname in Hp.
    injection Hp as Hp; rewrite <- Hp in Vp.
    rewrite optional_str in Vp; now inversion Vp.
Qed.

(** X10. Every course that [parse_coursera_response] returns comes from a
    hit among the elements.  Its url is what the schema makes of the path
    of the hit appended to https://www.coursera.org, and is not empty; its
    difficulty is the level of the hit in lower case; its duration is that
    of the hit in lower case with spaces for underscores; its provider and
    the logo are the first partner and the first logo, and are absent when
    the hit has no such key. *)
Theorem coursera_course_fields (data : value) (rs : list CourseSchema) (c : CourseSchema) :
  parse_coursera_response data = Ok rs -> In c rs ->
  exists l d,
    coursera_elements data = Ok (VList l) /\ In (VDict d) l /\
    url c <> "" /\
    (forall path, lookup "url" d = Some (VStr path) -> path <> "" ->
       validate_url (VStr ("https://www.coursera.org" ++ path)) = Some (url c)) /\
    (forall level, lookup "productDifficultyLevel" d = Some (VStr level) ->
       level <> "" -> difficulty c = Some (lower level)) /\
    (forall text, lookup "productDuration" d = Some (VStr text) ->
       text <> "" -> duration c = Some (replace_underscore (lower text))) /\
    (forall name others, lookup "partners" d = Some (VList (VStr name :: others)) ->
       provider c = Some name) /\
    (forall logo others, lookup "partnerLogos" d = Some (VList (VStr logo :: others)) ->
       exists u, validate_url (VStr logo) = Some u /\ provider_img c = Some u) /\
    (lookup "partners" d = None -> provider c = None) /\
    (lookup "partnerLogos" d = None -> provider_img c = None).
Proof.
  intros H Hc.
  pose proof (coursera_url_nonempty data rs c H Hc) as Hu.
  destruct (parse_coursera_courses _ _ _ H Hc) as (l & d & He & Hi & Hb).
  exists l, d.
  split; [exact He |]. split; [exact Hi |]. split; [exact Hu |].
  exact (coursera_mapping d c Hb).
Qed.

Lemma udemy_loop_length (l : list value) (st : udemy_locals) (acc rs : list CourseSchema) :
  udemy_loop l st acc = Ok rs ->
  length rs = (length acc + length (filter is_dict l))%nat.
Proof.
  revert st acc; induction l as [| item l IH]; intros st acc H; simpl in H.
  - injection H as <-; simpl; lia.
  - simpl; destruct (is_dict item); simpl in H.
    + bind_inv H. rewrite (IH _ _ H), length_app; simpl; lia.
    + exact (IH _ _ H).
Qed.

(** X11. When [parse_coursera_response] returns for elements that form a
    list, it returns one course for each element that is a dict, in the
    order of the elements, each built by the loop body from its element;
    [parse_udemy_response] too returns one course for each such element. *)
Theorem one_course_per_dict :
  (forall data l rs,
     coursera_elements data = Ok (VList l) ->
     parse_coursera_response data = Ok rs ->
     Forall2 (fun item c => coursera_course item = Ok c) (filter is_dict l) rs /\
     length rs = length (filter is_dict l)) /\
  (forall data l rs,
     udemy_elements data = Ok (VList l) ->
     parse_udemy_response data = Ok rs ->
     length rs = length (filter is_dict l)).
Proof.
  split.
  - intros data l rs He H.
    unfold parse_coursera_response in H; rewrite He in H.
    apply coursera_loop_spec in H; destruct H as (cs & -> & F).
    split; [exact F |].
    symmetry; exact (Forall2_length F).
  - intros data l rs He H.
    unfold parse_udemy_response in H; rewrite He in H.
    now apply udemy_loop_length in H.
Qed.

(** X12. The shape of the data.  [parse_coursera_response] and
    [parse_udemy_response] raise [AttributeError] for data that is not a
    dict and for data whose key [data] holds [None]; they return no course
    when the key [data] is missing and when the elements are not a list;
    [parse_coursera_response] returns no course when [search] is an empty
    list. *)
Theorem parse_shapes :
  (forall data, is_dict data = false ->
     parse_coursera_response data = Raise AttributeError /\
     parse_udemy_response data = Raise AttributeError) /\
  (forall d, lookup "data" d = Some VNone ->
     parse_coursera_response (VDict d) = Raise AttributeError /\
     parse_udemy_response (VDict d) = Raise AttributeError) /\
  (forall d, lookup "data" d = None ->
     parse_coursera_response (VDict d) = Ok [] /\
     parse_udemy_response (VDict d) = Ok []) /\
  (forall data elements, is_list elements = false ->
     (coursera_elements data = Ok elements -> parse_coursera_response data = Ok []) /\
     (udemy_elements data = Ok elements -> parse_udemy_response data = Ok [])) /\
  (forall d r, lookup "data" d = Some (VDict r) ->
     lookup "SearchResult" r = Some (VDict [("search", VList [])]) ->
     parse_coursera_response (VDict d) = Ok []).
Proof.
  split; [| split; [| split; [| split]]].
  - intros data H; destruct data; try discriminate; split; reflexivity.
  - intros d H; split.
    + unfold parse_coursera_response, coursera_elements, get_default, dict_get.
      rewrite H; reflexivity.
    + unfold parse_udemy_response, udemy_elements, get_default, dict_get.
      rewrite H; reflexivity.
  - intros d H; split.
    + unfold parse_coursera_response, coursera_elements, get_default, dict_get.
      rewrite H; reflexivity.
    + unfold parse_udemy_response, udemy_elements, get_default, dict_get.
      rewrite H; reflexivity.
  - intros data elements H; split; intros He.
    + unfold parse_coursera_response; rewrite He.
      destruct elements; try reflexivity; discriminate.
    + unfold parse_udemy_response; rewrite He.
      destruct elements; try reflexivity; discriminate.
  - intros d r Hd Hr.
    unfold parse_coursera_response, coursera_elements, get_default, dict_get.
    rewrite Hd; cbn [bind]; rewrite Hr; reflexivity.
Qed.

End UdemyCoursera.

(** *** The router: the query *)

Section RouterQuery.

Variable W : Type.
Variables cs ed ud yt : string -> string -> Z -> awaited W.

(** X13. [search_courses] raises exactly when the query is blank: the
    exception is then [HTTPException] with status 400, and the state
    outside is the one before the call, no adapter having been called. *)
Theorem search_courses_blank (q : string) (lang : Language) (n : Z) (w : W) :
  (strip q = "" ->
   search_courses cs ed ud yt q lang n w = (Raise (HTTPException 400), w)) /\
  (forall e w',
     search_courses cs ed ud yt q lang n w = (Raise e, w') ->
     strip q = "" /\ e = HTTPException 400 /\ w' = w).
Proof.
  split.
  - intros H; unfold search_courses; rewrite H; reflexivity.
  - intros e w' H.
    destruct (String.eqb (strip q) "") eqn:E.
    + apply String.eqb_eq in E.
      unfold search_courses in H; rewrite E in H; cbn in H.
      injection H as <- <-; auto.
    + apply String.eqb_neq in E.
      destruct (cs (strip q) (lang_codes lang "coursera") n w) as [r1 w1] eqn:H1.
      destruct (ed (strip q) (lang_codes lang "edx") n w1) as [r2 w2] eqn:H2.
      destruct (ud (strip q) (lang_codes lang "udemy") n w2) as [r3 w3] eqn:H3.
      destruct (yt (strip q) (Language_value lang) n w3) as [r4 w4] eqn:H4.
      rewrite (search_courses_run W cs ed ud yt q lang n w w1 w2 w3 w4
                 r1 r2 r3 r4 E H1 H2 H3 H4) in H.
      discriminate.
Qed.

(** X14. White space around the query does not count: the query and the
    query stripped have the same answer. *)
Theorem search_courses_strips (q : string) (lang : Language) (n : Z) (w : W) :
  search_courses cs ed ud yt (strip q) lang n w = search_courses cs ed ud yt q lang n w.
Proof.
  unfold search_courses; rewrite strip_idempotent; reflexivity.
Qed.

End RouterQuery.

(** *** edX: the requests *)

Section EdxRequests.

Context {L : Library}.

Lemma edx_attempts_origin (post : edx_request -> Z -> post_result) (req : edx_request)
  (attempts : list Z) (log0 log : list edx_event) (v : value) :
  edx_attempts post req attempts log0 = (v, log) ->
  v <> VNone ->
  exists attempt, In attempt attempts /\ post req attempt = Response 200 (Ok v).
Proof.
  revert log0; induction attempts as [| attempt rest IH]; intros log0 H Hv.
  - injection H as <- _; congruence.
  - cbn [edx_attempts] in H.
    assert (K : forall t, edx_attempts post req rest ((log0 ++ [Post attempt]) ++ [Sleep t])
                          = (v, log) ->
                exists a, In a (attempt :: rest) /\ post req a = Response 200 (Ok v)).
    { intros t Ht; destruct (IH _ Ht Hv) as (a & Ha & Hp); exists a; simpl; auto. }
    assert (Stop : (VNone, (log0 ++ [Post attempt])%list) = (v, log) ->
                   exists a, In a (attempt :: rest) /\ post req a = Response 200 (Ok v)).
    { intros E; injection E as <- _; congruence. }
    assert (Hh : forall e,
      match e with
      | TimeoutException =>
          if attempt <? MAX_RETRIES
          then edx_attempts post req rest ((log0 ++ [Post attempt]) ++ [Sleep 1])
          else (VNone, (log0 ++ [Post attempt])%list)
      | _ => (VNone, (log0 ++ [Post attempt])%list)
      end = (v, log) ->
      exists a, In a (attempt :: rest) /\ post req a = Response 200 (Ok v)).
    { intros e; destruct e; try exact Stop.
      destruct (attempt <? MAX_RETRIES); [apply K | exact Stop]. }
    destruct (post req attempt) as [status json | e] eqn:P; [| exact (Hh e H)].
    destruct (status =? 200) eqn:S.
    + destruct json as [v' | e]; [| exact (Hh e H)].
      injection H as <- _. apply Z.eqb_eq in S; subst status.
      exists attempt; split; [left; reflexivity | exact P].
    + destruct (status =? 429); [| exact (Stop H)].
      destruct (attempt <? MAX_RETRIES); [exact (K _ H) | exact (Stop H)].
Qed.

(** X15. What [fetch_edx_courses] returns, when it is not [None], is the
    body of an answer with status 200 to one of its three attempts. *)
Theorem fetch_edx_data_origin (post : edx_request -> Z -> post_result)
  (query lang : string) (n : Z) (v : value) (log : list edx_event) :
  fetch_edx_courses post query lang n = (v, log) ->
  v <> VNone ->
  exists attempt,
    0 <= attempt <= MAX_RETRIES /\
    post (build_edx_request_body (strip query) lang n) attempt = Response 200 (Ok v).
Proof.
  unfold fetch_edx_courses; intros H Hv.
  destruct (String.eqb (strip query) ""); [injection H as <- _; congruence |].
  destruct (edx_attempts_origin _ _ _ _ _ _ H Hv) as (a & Ha & Hp).
  exists a; split; [| exact Hp].
  change (range (MAX_RETRIES + 1)) with [0; 1; 2] in Ha.
  unfold MAX_RETRIES; simpl in Ha; lia.
Qed.

(** X16. For a query that is not blank, [fetch_edx_courses] sends one
    request; or two with a pause of one second between them; or three,
    with a pause of one second and then a pause of one or two seconds. *)
Theorem fetch_edx_trace (post : edx_request -> Z -> post_result)
  (query lang : string) (n : Z) :
  strip query <> "" ->
  let log := snd (fetch_edx_courses post query lang n) in
  log = [Post 0] \/
  log = [Post 0; Sleep 1; Post 1] \/
  log = [Post 0; Sleep 1; Post 1; Sleep 1; Post 2] \/
  log = [Post 0; Sleep 1; Post 1; Sleep 2; Post 2].
Proof.
  intros Hq; unfold fetch_edx_courses.
  apply String.eqb_neq in Hq; rewrite Hq.
  change (range (MAX_RETRIES + 1)) with [0; 1; 2].
  set (req := build_edx_request_body (strip query) lang n).
  cbn [edx_attempts app].
  destruct (post req 0) as [s0 [v0 | e0] | e0];
    [destruct (s0 =? 200); [| destruct (s0 =? 429)] | destruct (s0 =? 200); [destruct e0 | destruct (s0 =? 429)] | destruct e0];
    cbn; auto;
    (destruct (post req 1) as [s1 [v1 | e1] | e1];
     [destruct (s1 =? 200); [| destruct (s1 =? 429)] | destruct (s1 =? 200); [destruct e1 | destruct (s1 =? 429)] | destruct e1];
     cbn; auto;
     (destruct (post req 2) as [s2 [v2 | e2] | e2];
      [destruct (s2 =? 200); [| destruct (s2 =? 429)] | destruct (s2 =? 200); [destruct e2 | destruct (s2 =? 429)] | destruct e2];
      cbn; auto 6)).
Qed.

Lemma edx_attempts_ext (post post' : edx_request -> Z -> post_result) (req : edx_request)
  (attempts : list Z) (log : list edx_event) :
  (forall attempt, post req attempt = post' req attempt) ->
  edx_attempts post req attempts log = edx_attempts post' req attempts log.
Proof.
  intros E; revert log; induction attempts as [| attempt rest IH]; intros log;
    [reflexivity |].
  cbn [edx_attempts]; rewrite <- E, !IH; reflexivity.
Qed.

Lemma clamp_min (n : Z) : Z.min (Z.max 1 (Z.min n 50)) 50 = Z.max 1 (Z.min n 50).
Proof. lia. Qed.

(** X17. [get_edx_courses] has one request sent, at each attempt the same:
    the query stripped, between 1 and 50 hits per page, and the language,
    where a code of two letters stands for Spanish when it is "es" in
    either case and for English otherwise.  Two endpoints that answer this
    request alike give the same courses.  A blank query gives no course and
    no request. *)
Theorem get_edx_request (post post' : edx_request -> Z -> post_result)
  (query lang : string) (n : Z) :
  1 <= hitsPerPage (edx_request_sent query lang n) <= 50 /\
  ((forall attempt,
      post (edx_request_sent query lang n) attempt
      = post' (edx_request_sent query lang n) attempt) ->
   get_edx_courses post query lang n = get_edx_courses post' query lang n) /\
  (strip query = "" -> get_edx_courses post query lang n = ([], [])).
Proof.
  split; [cbn [edx_request_sent hitsPerPage]; lia |]. split.
  - intros E; unfold get_edx_courses, fetch_edx_courses.
    destruct (String.eqb (strip query) "") eqn:Q; [reflexivity |].
    rewrite strip_idempotent, Q.
    unfold build_edx_request_body, MAX_ITEMS_LIMIT.
    rewrite !strip_idempotent, clamp_min.
    fold (edx_request_sent query lang n).
    rewrite (edx_attempts_ext post post' _ _ _ E); reflexivity.
  - intros H; unfold get_edx_courses; rewrite H; reflexivity.
Qed.

End EdxRequests.

(** *** Coursera: the request *)

Section CourseraFetch.

Context {L : Library}.
Variable raises_for_status : Z -> bool.
Variable post : coursera_request -> post_result.

(** X18. [fetch_coursera_courses] returns a value exactly when the query
    is not blank, [num_items] is positive, the status of the answer does not
    make [raise_for_status] raise and the body is a list that is not empty;
    the value is then the first element of the list, and
    [get_coursera_courses] returns what [parse_coursera_response] makes of
    it. *)
Theorem fetch_coursera_success (query lang : string) (n : Z) (v : value) :
  (fetch_coursera_courses raises_for_status post query lang n = Ok v <->
   strip query <> "" /\ 0 < n /\
   exists status_code rest,
     post (mkCourseraRequest n lang query) = Response status_code (Ok (VList (v :: rest))) /\
     raises_for_status status_code = false) /\
  (fetch_coursera_courses raises_for_status post query lang n = Ok v ->
   get_coursera_courses (fetch_coursera_courses raises_for_status post) query lang n
   = parse_coursera_response v).
Proof.
  split; [split |].
  - unfold fetch_coursera_courses; intros H.
    destruct (String.eqb (strip query) "") eqn:Q; [discriminate |].
    destruct (n <=? 0) eqn:N; [discriminate |].
    apply String.eqb_neq in Q; apply Z.leb_gt in N.
    split; [exact Q |]. split; [exact N |].
    destruct (post (mkCourseraRequest n lang query)) as [status json | e]; [| discriminate].
    destruct (raises_for_status status) eqn:R; [discriminate |].
    destruct json as [body | e]; [| discriminate].
    cbn [bind] in H.
    destruct body as [| | | | | [| first rest] | |];
      cbn [truthy is_list negb orb index0] in H;
      rewrite ?orb_true_r in H; try discriminate.
    injection H as <-.
    exists status, rest; auto.
  - intros (Q & N & status & rest & P & R).
    unfold fetch_coursera_courses.
    apply String.eqb_neq in Q; apply Z.leb_gt in N.
    rewrite Q, N, P, R; reflexivity.
  - intros H; unfold get_coursera_courses; rewrite H; reflexivity.
Qed.

(** X19. The failures of [fetch_coursera_courses].  A blank query and a
    [num_items] that is not positive raise [ValueError]; otherwise a
    timeout and any other [RequestError] of the request come out as
    [RequestError], a status that makes [raise_for_status] raise as
    [HTTPStatusError], and a body that is not a list or is empty as
    [ValueError].  A [TimeoutException] never leaves the function. *)
Theorem fetch_coursera_failures (query lang : string) (n : Z) :
  (strip query = "" \/ n <= 0 ->
   fetch_coursera_courses raises_for_status post query lang n = Raise ValueError) /\
  (strip query <> "" -> 0 < n ->
   (post (mkCourseraRequest n lang query) = Failed TimeoutException \/
    post (mkCourseraRequest n lang query) = Failed RequestError ->
    fetch_coursera_courses raises_for_status post query lang n = Raise RequestError) /\
   (forall status_code json,
      post (mkCourseraRequest n lang query) = Response status_code json ->
      raises_for_status status_code = true ->
      fetch_coursera_courses raises_for_status post query lang n = Raise HTTPStatusError) /\
   (forall status_code body,
      post (mkCourseraRequest n lang query) = Response status_code (Ok body) ->
      raises_for_status status_code = false ->
      truthy body = false \/ is_list body = false ->
      fetch_coursera_courses raises_for_status post query lang n = Raise ValueError)) /\
  fetch_coursera_courses raises_for_status post query lang n <> Raise TimeoutException.
Proof.
  split; [| split].
  - intros [H | H]; unfold fetch_coursera_courses.
    + now rewrite H.
    + destruct (String.eqb (strip query) ""); [reflexivity |].
      apply Z.leb_le in H; now rewrite H.
  - intros Q N; apply String.eqb_neq in Q; apply Z.leb_gt in N.
    unfold fetch_coursera_courses; rewrite Q, N.
    split; [| split].
    + intros [P | P]; rewrite P; reflexivity.
    + intros status json P R; rewrite P, R; reflexivity.
    + intros status body P R B; rewrite P, R; cbn [bind].
      destruct B as [B | B]; rewrite B; [reflexivity |].
      rewrite orb_true_r; reflexivity.
  - unfold fetch_coursera_courses.
    destruct (String.eqb (strip query) ""); [discriminate |].
    destruct (n <=? 0); [discriminate |].
    match goal with |- match ?b with _ => _ end <> _ => destruct b as [v | e] end;
      [discriminate |].
    destruct e; discriminate.
Qed.

End CourseraFetch.

(** *** YouTube: the two calls *)

Section YoutubeCalls.

Context {L : Library}.
Variable youtube_build : outcome unit.
Variable youtube_search : youtube_search_request -> outcome value.
Variable youtube_videos : string -> outcome value.

Lemma clamp_bounds (n : Z) : 1 <= Z.max 1 (Z.min n 50) <= 50.
Proof. lia. Qed.

(** X20. Without an API key, be it unset or empty, and for a blank query,
    [get_youtube_courses] returns no video, whatever the API would
    answer. *)
Theorem get_youtube_courses_nothing (key : option string) (query lang : string) (n : Z) :
  key = None \/ key = Some "" \/ strip query = "" ->
  get_youtube_courses key youtube_build youtube_search youtube_videos query lang n = [].
Proof.
  intros H; unfold get_youtube_courses.
  destruct (String.eqb (strip query) "") eqn:Q; [reflexivity |].
  destruct H as [-> | [-> | H]]; [reflexivity | reflexivity |].
  rewrite H in Q; discriminate.
Qed.

(** X21. [get_youtube_courses] has one search made: for the query
    stripped, followed by a space and by the phrase of the language
    ("full course" for "en" in either case and for no language, the Spanish
    phrase for any other), and for between 1 and 50 results.  Two services
    that answer this search alike, and every lookup of details alike, give
    the same videos. *)
Theorem get_youtube_request (key : option string)
  (search' : youtube_search_request -> outcome value) (query lang : string) (n : Z) :
  1 <= maxResults (youtube_request_sent query lang n) <= 50 /\
  (youtube_search (youtube_request_sent query lang n)
   = search' (youtube_request_sent query lang n) ->
   get_youtube_courses key youtube_build youtube_search youtube_videos query lang n
   = get_youtube_courses key youtube_build search' youtube_videos query lang n).
Proof.
  split; [cbn [youtube_request_sent maxResults]; lia |].
  intros E; unfold get_youtube_courses, fetch_youtube_courses.
  destruct (String.eqb (strip query) ""); [reflexivity |].
  rewrite clamp_min.
  fold (youtube_request_sent query lang n).
  rewrite E; reflexivity.
Qed.

(** X22. When the client is there, the search answers with items that give
    ids, all of them texts, and the lookup of the ids joined by commas
    answers too, [get_youtube_courses] returns what
    [parse_youtube_response] makes of that answer, or nothing when it
    raises. *)
Theorem get_youtube_courses_details (key query lang ids : string) (n : Z)
  (raw items detailed : value) (l video_ids : list value) :
  strip query <> "" -> key <> "" ->
  youtube_build = Ok tt ->
  youtube_search (youtube_request_sent query lang n) = Ok raw ->
  get_default raw "items" (VList []) = Ok items ->
  iterate items = Ok l ->
  collect_video_ids l [] = Ok video_ids -> video_ids <> [] ->
  join_comma video_ids = Ok ids ->
  youtube_videos ids = Ok detailed ->
  get_youtube_courses (Some key) youtube_build youtube_search youtube_videos query lang n
  = try_except (parse_youtube_response detailed) (fun _ => []).
Proof.
  intros Q K B S I It C Ne J V.
  unfold get_youtube_courses, fetch_youtube_courses, fetch_detailed_video_info,
    get_youtube_client.
  apply String.eqb_neq in Q; rewrite Q.
  destruct key as [| a key]; [congruence |].
  rewrite B, clamp_min; cbn [bind].
  fold (youtube_request_sent query lang n).
  rewrite S; cbn [try_except]; rewrite I; cbn [bind]; rewrite It; cbn [bind].
  rewrite C; cbn [bind].
  destruct video_ids as [| id0 others]; [congruence |].
  rewrite J; cbn [bind]; rewrite V; reflexivity.
Qed.

(** X23. When the search fails, when its answer has no item with an id,
    and when one of the ids is not a text, [get_youtube_courses] returns no
    video. *)
Theorem get_youtube_courses_empty (key : option string) (query lang : string) (n : Z) :
  (forall e, youtube_search (youtube_request_sent query lang n) = Raise e ->
     get_youtube_courses key youtube_build youtube_search youtube_videos query lang n = []) /\
  (forall raw items l,
     youtube_search (youtube_request_sent query lang n) = Ok raw ->
     get_default raw "items" (VList []) = Ok items ->
     iterate items = Ok l -> collect_video_ids l [] = Ok [] ->
     get_youtube_courses key youtube_build youtube_search youtube_videos query lang n = []) /\
  (forall raw items l video_ids e,
     youtube_search (youtube_request_sent query lang n) = Ok raw ->
     get_default raw "items" (VList []) = Ok items ->
     iterate items = Ok l -> collect_video_ids l [] = Ok video_ids ->
     join_comma video_ids = Raise e ->
     get_youtube_courses key youtube_build youtube_search youtube_videos query lang n = []).
Proof.
  assert (G :
    get_youtube_courses key youtube_build youtube_search youtube_videos query lang n = [] \/
    (strip query <> "" /\
     get_youtube_courses key youtube_build youtube_search youtube_videos query lang n
     = try_except
         (let raw_data := try_except (youtube_search (youtube_request_sent query lang n))
                            (fun _ => empty_items) in
          items <- get_default raw_data "items" (VList []) ;;
          l <- iterate items ;;
          video_ids <- collect_video_ids l [] ;;
          match video_ids with
          | [] => Ok []
          | _ :: _ =>
              parse_youtube_response
                (fetch_detailed_video_info key youtube_build youtube_videos video_ids)
          end) (fun _ => []))).
  { destruct (String.eqb (strip query) "") eqn:Q.
    - left; unfold get_youtube_courses; now rewrite Q.
    - destruct (get_youtube_client key youtube_build) as [[] | e] eqn:C.
      + right; split; [now apply String.eqb_neq |].
        unfold get_youtube_courses, fetch_youtube_courses; rewrite Q, C, clamp_min.
        reflexivity.
      + left; unfold get_youtube_courses, fetch_youtube_courses; rewrite Q, C.
        reflexivity. }
  destruct G as [E | (Q & E)].
  - repeat split; intros; exact E.
  - rewrite E; clear E.
    split; [| split].
    + intros e S; rewrite S; reflexivity.
    + intros raw items l S I It C; rewrite S; cbn [try_except]; cbv zeta.
      rewrite I; cbn [bind]; rewrite It; cbn [bind]; rewrite C; reflexivity.
    + intros raw items l video_ids e S I It C J; rewrite S; cbn [try_except]; cbv zeta.
      rewrite I; cbn [bind]; rewrite It; cbn [bind]; rewrite C; cbn [bind].
      destruct video_ids as [| id0 others]; [reflexivity |].
      unfold fetch_detailed_video_info.
      destruct (get_youtube_client key youtube_build) as [[] | e']; cbn [bind try_except];
        [rewrite J |]; reflexivity.
Qed.

End YoutubeCalls.

(** *** Instances of the further properties *)

(** X1 on the hit of [edx_one_hit]. *)
Lemma edx_course_unrated_witness :
  exists c, In c (parse_edx_response edx_one_hit) /\
            avg_rating c = None /\ count_rating c = None /\ url c <> "".
Proof.
  eexists; split; [left; reflexivity |].
  apply (edx_course_unrated edx_one_hit); left; reflexivity.
Defined.

(** X2 on [edx_rich_hit]. *)
Lemma edx_mapping_witness :
  exists after c,
    edx_course None edx_rich_hit = (after, Ok c) /\
    title c = "Logic" /\ duration c = Some "6 weeks" /\
    difficulty c = Some "Introductory" /\ provider c = Some "MITx" /\
    skills c = Some ["Proof"; "Sets"].
Proof.
  destruct (edx_course None edx_rich_hit) as [after [c | e]] eqn:E;
    [| vm_compute in E; discriminate].
  exists after, c; split; [reflexivity |].
  destruct (edx_mapping None after edx_rich_hit c E)
    as (d & t & Hd & Ht & Htitle & Hw & Hl & Ho & Hs).
  unfold edx_rich_hit in Hd; injection Hd as <-.
  vm_compute in Ht; injection Ht as <-.
  repeat split.
  - rewrite Htitle; reflexivity.
  - apply (Hw 6); [reflexivity | discriminate].
  - eapply Hl; reflexivity.
  - eapply Ho; reflexivity.
  - eapply (Hs _ ["Proof"; "Sets"]); [reflexivity | discriminate |].
    repeat constructor; eexists; split; reflexivity.
Defined.

(** X3 on [edx_ownerless_hit], first and after [edx_rich_hit]. *)
Lemma edx_provider_img_leak_witness :
  edx_loop [VDict edx_ownerless_hit; edx_rich_hit] None [] = edx_loop [edx_rich_hit] None [] /\
  exists after c,
    edx_course (Some (VStr "https://www.edx.org/mitx.png")) (VDict edx_ownerless_hit)
      = (after, Ok c) /\
    provider c = None /\ provider_img c = Some "https://www.edx.org/mitx.png".
Proof.
  destruct (@edx_provider_img_leak reference_library) as [H1 H2].
  split; [apply H1; reflexivity |].
  destruct (edx_course (Some (VStr "https://www.edx.org/mitx.png")) (VDict edx_ownerless_hit))
    as [after [c | e]] eqn:E; [| vm_compute in E; discriminate].
  exists after, c; split; [reflexivity |].
  destruct (H2 edx_ownerless_hit _ after c eq_refl E) as (_ & Hp & Hi).
  split; [exact Hp |].
  cbv -[provider_img] in Hi; now injection Hi as <-.
Defined.

(** X4 on the video of [youtube_details]. *)
Lemma youtube_video_bare_witness :
  exists v, parse_youtube_response youtube_details = Ok [v] /\
            skills v = None /\ difficulty v = None /\ url v <> "".
Proof.
  destruct (parse_youtube_response youtube_details) as [[| v [| v' vs]] | e] eqn:E;
    try (vm_compute in E; discriminate).
  exists v; split; [reflexivity |].
  destruct (youtube_video_bare youtube_details [v] v E (or_introl eq_refl))
    as (_ & Hd & _ & _ & Hs & Hu); auto.
Defined.

(** X5 on [youtube_rich_video]. *)
Lemma youtube_mapping_witness :
  exists after v,
    youtube_video None (VDict youtube_rich_video) = (after, Ok (Some v)) /\
    title v = "Algebra" /\ provider v = Some "Open Lectures" /\
    duration v = Some "1h 5m".
Proof.
  destruct (youtube_video None (VDict youtube_rich_video)) as [after [[v |] | e]] eqn:E;
    try (vm_compute in E; discriminate).
  exists after, v; split; [reflexivity |].
  destruct (youtube_mapping None after _ v E)
    as (d & sn & t & Hd & Hsn & Ht & _ & Htitle & _ & _ & Hch & Hdu).
  injection Hd as <-.
  vm_compute in Hsn; injection Hsn as <-.
  vm_compute in Ht; injection Ht as <-.
  repeat split.
  - rewrite Htitle; reflexivity.
  - apply Hch; reflexivity.
  - apply (Hdu [("duration", VStr "PT1H5M")] (Some 1) (Some 5) None);
      try reflexivity; simpl; try lia; exact I.
Defined.

(** X6 on [youtube_rich_video], which has no [high] thumbnail. *)
Lemma youtube_thumbnail_order_witness :
  exists after v,
    youtube_video None (VDict youtube_rich_video) = (after, Ok (Some v)) /\
    image_url v = Some "https://i.ytimg.com/vi/a1/mqdefault.jpg".
Proof.
  destruct (youtube_video None (VDict youtube_rich_video)) as [after [[v |] | e]] eqn:E;
    try (vm_compute in E; discriminate).
  exists after, v; split; [reflexivity |].
  pose proof (youtube_thumbnail_order None after youtube_rich_video youtube_snippet
                [("default", VDict [("url", VStr "https://i.ytimg.com/vi/a1/default.jpg")]);
                 ("medium", VDict [("url", VStr "https://i.ytimg.com/vi/a1/mqdefault.jpg")])]
                v E eq_refl eq_refl I I I) as H.
  cbv -[image_url] in H; now injection H as <-.
Defined.

(** X7 on an item with an empty id, and on [youtube_rich_video]. *)
Lemma youtube_skips_witness :
  youtube_video None (VDict [("id", VStr "")]) = (None, Ok None) /\
  truthy (dict_get "publishedAt" youtube_snippet VNone) = true.
Proof.
  destruct (@youtube_skips reference_library) as (H1 & _ & H3).
  split; [apply H1; reflexivity |].
  destruct (youtube_video None (VDict youtube_rich_video)) as [after [[v |] | e]] eqn:E;
    try (vm_compute in E; discriminate).
  exact (H3 youtube_rich_video youtube_snippet after v E eq_refl).
Defined.

(** X8 on a number, on a duration in days and on PT followed by letters. *)
Lemma convert_youtube_duration_cases_witness :
  convert_youtube_duration (VInt 0) = Ok VNone /\
  convert_youtube_duration (VInt 90) = Raise AttributeError /\
  convert_youtube_duration (VStr "P1D") = Ok VNone /\
  exists t, convert_youtube_duration (VStr "PTxyz") = Ok (VStr t) /\ t <> "".
Proof.
  split; [| split; [| split]].
  - apply (convert_youtube_duration_cases (VInt 0)); reflexivity.
  - apply (convert_youtube_duration_cases (VInt 90)); [reflexivity | discriminate].
  - apply (convert_youtube_duration_cases (VStr "P1D") ) with (s := "P1D"); reflexivity.
  - apply (convert_youtube_duration_cases (VStr "PTxyz")) with (s := "PTxyz"); reflexivity.
Defined.

(** X9 on [udemy_rich_result]. *)
Lemma udemy_mapping_witness :
  exists after c,
    udemy_course (mkUdemyLocals None None) udemy_rich_result = Ok (after, c) /\
    title c = "Algebra" /\ provider_img c = None /\
    difficulty c = Some "all levels" /\ provider c = Some "Ann Lee".
Proof.
  destruct (udemy_course (mkUdemyLocals None None) udemy_rich_result)
    as [[after c] | e] eqn:E; [| vm_compute in E; discriminate].
  exists after, c; split; [reflexivity |].
  destruct (udemy_mapping _ after _ c E)
    as (cd & t & images & Hc & Ht & Htitle & _ & _ & _ & _ & Hpi & _ & Hl & Hi).
  vm_compute in Hc; injection Hc as <-.
  vm_compute in Ht; injection Ht as <-.
  repeat split.
  - rewrite Htitle; reflexivity.
  - exact Hpi.
  - apply (Hl "ALL_LEVELS"); [reflexivity | discriminate].
  - eapply Hi; reflexivity.
Defined.

(** X10 on [coursera_rich_hit]. *)
Lemma coursera_course_fields_witness :
  exists c,
    parse_coursera_response (coursera_response [VDict coursera_rich_hit]) = Ok [c] /\
    difficulty c = Some "beginner" /\ duration c = Some "one to three months" /\
    provider c = Some "Stanford".
Proof.
  destruct (parse_coursera_response (coursera_response [VDict coursera_rich_hit]))
    as [[| c [| c' rs]] | e] eqn:E; try (vm_compute in E; discriminate).
  exists c; split; [reflexivity |].
  destruct (coursera_course_fields _ [c] c E (or_introl eq_refl))
    as (l & d & He & Hi & _ & _ & Hdi & Hdu & Hp & _).
  vm_compute in He; injection He as <-.
  destruct Hi as [Hi | []]; injection Hi as <-.
  repeat split.
  - apply (Hdi "BEGINNER"); [reflexivity | discriminate].
  - apply (Hdu "ONE_TO_THREE_MONTHS"); [reflexivity | discriminate].
  - eapply Hp; reflexivity.
Defined.

(** X11 on elements of which one is a number and one is a dict. *)
Lemma one_course_per_dict_witness :
  exists rs,
    parse_coursera_response (coursera_response [VInt 3; VDict coursera_rich_hit]) = Ok rs /\
    length rs = 1%nat.
Proof.
  destruct (parse_coursera_response (coursera_response [VInt 3; VDict coursera_rich_hit]))
    as [rs | e] eqn:E; [| vm_compute in E; discriminate].
  exists rs; split; [reflexivity |].
  destruct (@one_course_per_dict reference_library) as [H _].
  destruct (H (coursera_response [VInt 3; VDict coursera_rich_hit])
              [VInt 3; VDict coursera_rich_hit] rs eq_refl E) as [_ Hl].
  exact Hl.
Defined.

(** X12 on a list and on an empty dict. *)
Lemma parse_shapes_witness :
  parse_coursera_response (VList []) = Raise AttributeError /\
  parse_udemy_response (VDict []) = Ok [] /\
  parse_coursera_response (VDict [("data", VNone)]) = Raise AttributeError.
Proof.
  destruct (@parse_shapes reference_library) as (H1 & H2 & H3 & _).
  split; [| split].
  - apply (H1 (VList [])); reflexivity.
  - apply (H3 []); reflexivity.
  - apply (H2 [("data", VNone)]); reflexivity.
Defined.

(** X13 on a query made of a no-break space and a space. *)
Lemma search_courses_blank_witness :
  search_courses (fun _ _ _ => pure_call (Ok [])) (fun _ _ _ => pure_call (Ok []))
    (fun _ _ _ => pure_call (Ok [])) (fun _ _ _ => pure_call (Ok []))
    (nbsp ++ " ") ENGLISH 6 tt = (Raise (HTTPException 400), tt).
Proof.
  apply (search_courses_blank unit); reflexivity.
Defined.

(** X15 and X16 on an endpoint that is busy once. *)
Lemma fetch_edx_data_origin_witness :
  exists attempt,
    0 <= attempt <= MAX_RETRIES /\
    edx_busy_once edx_one_hit (build_edx_request_body (strip "logic") "English" 6) attempt
    = Response 200 (Ok edx_one_hit).
Proof.
  apply (fetch_edx_data_origin (edx_busy_once edx_one_hit) "logic" "English" 6
           edx_one_hit [Post 0; Sleep 1; Post 1]); [reflexivity | discriminate].
Defined.

Lemma fetch_edx_trace_witness :
  strip "logic" <> "" /\
  (snd (fetch_edx_courses (edx_busy_once edx_one_hit) "logic" "English" 6) = [Post 0] \/
   snd (fetch_edx_courses (edx_busy_once edx_one_hit) "logic" "English" 6)
     = [Post 0; Sleep 1; Post 1] \/
   snd (fetch_edx_courses (edx_busy_once edx_one_hit) "logic" "English" 6)
     = [Post 0; Sleep 1; Post 1; Sleep 1; Post 2] \/
   snd (fetch_edx_courses (edx_busy_once edx_one_hit) "logic" "English" 6)
     = [Post 0; Sleep 1; Post 1; Sleep 2; Post 2]).
Proof.
  assert (Hq : strip "logic" <> "") by discriminate.
  split; [exact Hq |].
  exact (fetch_edx_trace (edx_busy_once edx_one_hit) "logic" "English" 6 Hq).
Defined.

(** X17 on two endpoints that differ on other requests only. *)
Lemma get_edx_request_witness :
  get_edx_courses (edx_busy_once edx_one_hit) " logic " "ES" 600
  = get_edx_courses
      (fun req attempt =>
         if hitsPerPage req =? 50 then edx_busy_once edx_one_hit req attempt
         else Failed RequestError)
      " logic " "ES" 600 /\
  edx_request_sent " logic " "ES" 600 = mkEdxRequest "Spanish" 50 "logic".
Proof.
  split; [| reflexivity].
  apply (@get_edx_request reference_library); intros attempt; reflexivity.
Defined.

(** X18 and X19 on [coursera_up], and on an endpoint that times out. *)
Lemma fetch_coursera_success_witness :
  fetch_coursera_courses outside_2xx coursera_up "logic" "English" 6
  = Ok (coursera_response [VDict coursera_rich_hit]).
Proof.
  apply (@fetch_coursera_success reference_library outside_2xx coursera_up).
  split; [discriminate |]. split; [reflexivity |].
  exists 200, []; split; reflexivity.
Defined.

Lemma fetch_coursera_failures_witness :
  fetch_coursera_courses outside_2xx (fun _ => Failed TimeoutException) "logic" "English" 6
    = Raise RequestError /\
  fetch_coursera_courses outside_2xx coursera_up "logic" "English" 0 = Raise ValueError.
Proof.
  split.
  - apply (fetch_coursera_failures outside_2xx (fun _ => Failed TimeoutException));
      [discriminate | reflexivity | left; reflexivity].
  - apply (fetch_coursera_failures outside_2xx coursera_up); right; discriminate.
Defined.

(** X20 to X23 on a search that finds the video of [youtube_details]. *)
Lemma get_youtube_courses_nothing_witness :
  get_youtube_courses None (Ok tt) (fun _ => Ok youtube_found)
    (fun _ => Ok youtube_details) "algebra" "en" 6 = [].
Proof.
  apply (@get_youtube_courses_nothing reference_library); left; reflexivity.
Defined.

Lemma get_youtube_request_witness :
  get_youtube_courses (Some "key") (Ok tt) (fun _ => Ok youtube_found)
    (fun _ => Ok youtube_details) " algebra " "EN" 600
  = get_youtube_courses (Some "key") (Ok tt)
      (fun req => if maxResults req =? 50 then Ok youtube_found else Raise ValueError)
      (fun _ => Ok youtube_details) " algebra " "EN" 600 /\
  youtube_request_sent " algebra " "EN" 600 = mkYoutubeSearch 50 "algebra full course".
Proof.
  split; [| reflexivity].
  apply (@get_youtube_request reference_library); reflexivity.
Defined.

Lemma get_youtube_courses_details_witness :
  get_youtube_courses (Some "key") (Ok tt) (fun _ => Ok youtube_found)
    (fun _ => Ok youtube_details) "algebra" "en" 6
  = try_except (parse_youtube_response youtube_details) (fun _ => []).
Proof.
  apply (@get_youtube_courses_details reference_library (Ok tt) (fun _ => Ok youtube_found)
           (fun _ => Ok youtube_details) "key" "algebra" "en" "a1" 6 youtube_found
           (VList [VDict [("id", VDict [("videoId", VStr "a1")])]])
           youtube_details [VDict [("id", VDict [("videoId", VStr "a1")])]] [VStr "a1"]);
    try reflexivity; discriminate.
Defined.

Lemma get_youtube_courses_empty_witness :
  get_youtube_courses (Some "key") (Ok tt) (fun _ => Raise RequestError)
    (fun _ => Ok youtube_details) "algebra" "en" 6 = [] /\
  get_youtube_courses (Some "key") (Ok tt)
    (fun _ => Ok (VDict [("items", VList [VDict [("id", VDict [("videoId", VInt 7)])]])]))
    (fun _ => Ok youtube_details) "algebra" "en" 6 = [].
Proof.
  split.
  - destruct (@get_youtube_courses_empty reference_library (Ok tt)
                (fun _ => Raise RequestError) (fun _ => Ok youtube_details)
                (Some "key") "algebra" "en" 6) as (H & _ & _).
    apply (H RequestError); reflexivity.
  - destruct (@get_youtube_courses_empty reference_library (Ok tt)
                (fun _ => Ok (VDict [("items",
                                      VList [VDict [("id", VDict [("videoId", VInt 7)])]])]))
                (fun _ => Ok youtube_details) (Some "key") "algebra" "en" 6) as (_ & _ & H).
    eapply H; reflexivity.
Defined.
